(** * CS330 still-life renderer: scene composition, texture registry, camera

  A shallow embedding of [Source/SceneManager.cpp] and
  [Source/ViewManager.cpp], with the properties of the design document
  stated and proved against it.

  Modelling conventions.
  - [float] and [double] values are modelled by the real numbers [R]:
    literals such as [0.6f] are the rationals they denote, [std::sin],
    [sinf], [cosf] are [sin] and [cos], and rounding is not modelled.
  - [int] is [Z]; a [GLuint] is a [Z] in [0, 2^32) with its wrap-around
    written out ([to_GLuint], [GLuint_to_int]).
  - The shader program owned by [ShaderManager] is the finite map from
    uniform names to the values last written to them.
  - A write past the end of the fixed texture array is undefined behaviour
    in C++; the model makes it an explicit [OutOfBounds] outcome.
  - Calls into OpenGL that only change rasteriser state (clear, blend,
    depth mask, texture parameters) are left out; drawing a mesh is
    recorded in a log together with the uniforms in effect. *)

From Stdlib Require Import Reals Lra ZArith Lia String.
From stdpp Require Import base gmap strings list.

Local Open Scope R_scope.

(* ===================================================================== *)
(** ** GLM: the parts of the vector library the two source files call     *)
(* ===================================================================== *)

Module GLM.

Record vec2 := mk_vec2 { u2 : R; v2 : R }.
Record vec3 := mk_vec3 { x : R; y : R; z : R }.
Record vec4 := mk_vec4 { x4 : R; y4 : R; z4 : R; w4 : R }.

(** [glm::mat4] is column-major: [m[c]] is column [c]. *)
Record mat4 := mk_mat4 { col0 : vec4; col1 : vec4; col2 : vec4; col3 : vec4 }.

Definition vadd (a b : vec3) : vec3 :=
  mk_vec3 (x a + x b) (y a + y b) (z a + z b).
Definition vsub (a b : vec3) : vec3 :=
  mk_vec3 (x a - x b) (y a - y b) (z a - z b).
Definition vscale (a : vec3) (s : R) : vec3 :=
  mk_vec3 (x a * s) (y a * s) (z a * s).
Definition dot (a b : vec3) : R := x a * x b + y a * y b + z a * z b.

(** [glm::normalize(v) = v * inversesqrt(dot(v, v))]. *)
Definition inversesqrt (a : R) : R := 1 / sqrt a.
Definition normalize (v : vec3) : vec3 := vscale v (inversesqrt (dot v v)).

Definition vadd4 (a b : vec4) : vec4 :=
  mk_vec4 (x4 a + x4 b) (y4 a + y4 b) (z4 a + z4 b) (w4 a + w4 b).
Definition vscale4 (a : vec4) (s : R) : vec4 :=
  mk_vec4 (x4 a * s) (y4 a * s) (z4 a * s) (w4 a * s).

(** [glm::vec4(v, w)] and [glm::vec3(v4)]. *)
Definition vec4_of (v : vec3) (w : R) : vec4 := mk_vec4 (x v) (y v) (z v) w.
Definition vec3_of (v : vec4) : vec3 := mk_vec3 (x4 v) (y4 v) (z4 v).

(** [glm::mat4(1.0f)] *)
Definition identity : mat4 :=
  mk_mat4 (mk_vec4 1 0 0 0) (mk_vec4 0 1 0 0) (mk_vec4 0 0 1 0) (mk_vec4 0 0 0 1).

(** [m * v]: the linear combination of the columns of [m]. *)
Definition mul_vec (m : mat4) (v : vec4) : vec4 :=
  vadd4 (vadd4 (vadd4 (vscale4 (col0 m) (x4 v)) (vscale4 (col1 m) (y4 v)))
               (vscale4 (col2 m) (z4 v)))
        (vscale4 (col3 m) (w4 v)).

(** [m1 * m2]: column [j] of the product is [m1 * m2[j]]. *)
Definition mul (m1 m2 : mat4) : mat4 :=
  mk_mat4 (mul_vec m1 (col0 m2)) (mul_vec m1 (col1 m2))
          (mul_vec m1 (col2 m2)) (mul_vec m1 (col3 m2)).

(** [glm::radians] *)
Definition radians (degrees : R) : R := degrees * (PI / 180).

(** [glm::translate(m, v)]: only the last column changes. *)
Definition translate_m (m : mat4) (v : vec3) : mat4 :=
  mk_mat4 (col0 m) (col1 m) (col2 m)
    (vadd4 (vadd4 (vadd4 (vscale4 (col0 m) (x v)) (vscale4 (col1 m) (y v)))
                  (vscale4 (col2 m) (z v)))
           (col3 m)).

(** [glm::scale(m, v)] *)
Definition scale_m (m : mat4) (v : vec3) : mat4 :=
  mk_mat4 (vscale4 (col0 m) (x v)) (vscale4 (col1 m) (y v))
          (vscale4 (col2 m) (z v)) (col3 m).

(** [glm::rotate(m, angle, v)]: the axis-angle matrix of the normalised
    axis, multiplied onto [m]. *)
Definition rotate_m (m : mat4) (angle : R) (v : vec3) : mat4 :=
  let c := cos angle in
  let s := sin angle in
  let axis := normalize v in
  let temp := vscale axis (1 - c) in
  let r00 := c + x temp * x axis in
  let r01 := x temp * y axis + s * z axis in
  let r02 := x temp * z axis - s * y axis in
  let r10 := y temp * x axis - s * z axis in
  let r11 := c + y temp * y axis in
  let r12 := y temp * z axis + s * x axis in
  let r20 := z temp * x axis + s * y axis in
  let r21 := z temp * y axis - s * x axis in
  let r22 := c + z temp * z axis in
  mk_mat4
    (vadd4 (vadd4 (vscale4 (col0 m) r00) (vscale4 (col1 m) r01)) (vscale4 (col2 m) r02))
    (vadd4 (vadd4 (vscale4 (col0 m) r10) (vscale4 (col1 m) r11)) (vscale4 (col2 m) r12))
    (vadd4 (vadd4 (vscale4 (col0 m) r20) (vscale4 (col1 m) r21)) (vscale4 (col2 m) r22))
    (col3 m).

(** The one-argument forms of [<glm/gtx/transform.hpp>]. *)
Definition translate (v : vec3) : mat4 := translate_m identity v.
Definition scale (v : vec3) : mat4 := scale_m identity v.
Definition rotate (angle : R) (v : vec3) : mat4 := rotate_m identity angle v.

(** [glm::max] *)
Definition max (a b : R) : R := if Rlt_dec a b then b else a.

End GLM.

Infix "*m" := GLM.mul (at level 40, left associativity).

(* ===================================================================== *)
(** ** ShaderManager: uniforms of the active shader program               *)
(* ===================================================================== *)

Module Shader.

Inductive Uniform :=
| UInt (n : Z)
| UBool (b : bool)
| UFloat (f : R)
| UVec2 (v : GLM.vec2)
| UVec3 (v : GLM.vec3)
| UVec4 (v : GLM.vec4)
| UMat4 (m : GLM.mat4)
| USampler2D (slot : Z).

(** The state of the shader program: the last value written to each
    uniform. *)
Abbreviation ShaderManager := (gmap string Uniform).

Definition Z_of_bool (b : bool) : Z := if b then 1%Z else 0%Z.

Definition setIntValue (name : string) (b : bool) (s : ShaderManager) : ShaderManager :=
  <[name := UInt (Z_of_bool b)]> s.
Definition setBoolValue (name : string) (b : bool) (s : ShaderManager) : ShaderManager :=
  <[name := UBool b]> s.
Definition setFloatValue (name : string) (f : R) (s : ShaderManager) : ShaderManager :=
  <[name := UFloat f]> s.
Definition setVec2Value (name : string) (v : GLM.vec2) (s : ShaderManager) : ShaderManager :=
  <[name := UVec2 v]> s.
Definition setVec3Value (name : string) (v : GLM.vec3) (s : ShaderManager) : ShaderManager :=
  <[name := UVec3 v]> s.
Definition setVec4Value (name : string) (v : GLM.vec4) (s : ShaderManager) : ShaderManager :=
  <[name := UVec4 v]> s.
Definition setMat4Value (name : string) (m : GLM.mat4) (s : ShaderManager) : ShaderManager :=
  <[name := UMat4 m]> s.
Definition setSampler2DValue (name : string) (slot : Z) (s : ShaderManager) : ShaderManager :=
  <[name := USampler2D slot]> s.

End Shader.

(* ===================================================================== *)
(** ** SceneManager.cpp                                                   *)
(* ===================================================================== *)

Module SceneManager.

Import Shader.
Abbreviation vec3 := GLM.vec3.
Abbreviation vec3_ := GLM.mk_vec3.

Definition g_ModelName : string := "model".
Definition g_ColorValueName : string := "objectColor".
Definition g_TextureValueName : string := "objectTexture".
Definition g_UseTextureName : string := "bUseTexture".
Definition g_UseLightingName : string := "bUseLighting".

(** *** Machine integers *)

(** Storing an [int] into a [GLuint], and reading a [GLuint] back as an
    [int] (the return type of [FindTextureID]). *)
Definition to_GLuint (n : Z) : Z := (n mod 2 ^ 32)%Z.
Definition GLuint_to_int (n : Z) : Z :=
  if (n <? 2 ^ 31)%Z then n else (n - 2 ^ 32)%Z.

(** *** Data *)

(** [TEXTURE_INFO]: the address of [ID] is handed to [glDeleteTextures], so
    it is a [GLuint]. *)
Record TEXTURE_INFO := mk_TEXTURE_INFO { tag : string; ID : Z }.

Module OBJECT_MATERIAL.
Record t := mk {
  diffuseColor : vec3;
  specularColor : vec3;
  shininess : R;
  tag : string
}.
End OBJECT_MATERIAL.

Inductive Mesh :=
| BoxMesh | PlaneMesh | CylinderMesh | ConeMesh | PrismMesh
| Pyramid4Mesh | SphereMesh | TaperedCylinderMesh | TorusMesh.

(** One [m_basicMeshes->Draw...Mesh()] call, with the uniforms of the
    shader program at that moment ([None] when there is no shader manager). *)
Record DrawCall := mk_DrawCall { mesh : Mesh; uniforms : option ShaderManager }.

(** Modelled from the spec: the length of the member array [m_textureIDs],
    declared in SceneManager.h; the spec gives "a fixed-capacity table (16
    slots in the source)", which is also the bound of the constructor's
    loop. *)
Definition TEXTURE_CAPACITY : nat := 16.

(** The object state. [m_basicMeshes] holds the draw calls issued so far,
    oldest first. *)
Record state := mk_state {
  m_pShaderManager : option ShaderManager;
  m_textureIDs : list TEXTURE_INFO;
  m_loadedTextures : Z;
  m_objectMaterials : list OBJECT_MATERIAL.t;
  m_basicMeshes : list DrawCall
}.

Definition set_shader (sh : option ShaderManager) (s : state) : state :=
  mk_state sh (m_textureIDs s) (m_loadedTextures s) (m_objectMaterials s) (m_basicMeshes s).
Definition set_textures (arr : list TEXTURE_INFO) (n : Z) (s : state) : state :=
  mk_state (m_pShaderManager s) arr n (m_objectMaterials s) (m_basicMeshes s).
Definition set_materials (ms : list OBJECT_MATERIAL.t) (s : state) : state :=
  mk_state (m_pShaderManager s) (m_textureIDs s) (m_loadedTextures s) ms (m_basicMeshes s).
Definition set_drawn (ds : list DrawCall) (s : state) : state :=
  mk_state (m_pShaderManager s) (m_textureIDs s) (m_loadedTextures s) (m_objectMaterials s) ds.

(** *** Methods as state transformers that may run out of the array *)

Inductive Outcome (A : Type) :=
| Returned (a : A)
| OutOfBounds.
Arguments Returned {A} a.
Arguments OutOfBounds {A}.

Definition M (A : Type) : Type := state -> Outcome (A * state).

Definition ret {A} (a : A) : M A := fun s => Returned (a, s).
Definition bind {A B} (c : M A) (k : A -> M B) : M B :=
  fun s => match c s with
           | Returned (a, s') => k a s'
           | OutOfBounds => OutOfBounds
           end.

Notation "x <- c ;; k" := (bind c (fun x => k))
  (at level 100, c at next level, right associativity).
Notation "c ;; k" := (bind c (fun _ => k))
  (at level 100, right associativity).

(** [if (m_pShaderManager) { m_pShaderManager->... }] *)
Definition withShader (f : ShaderManager -> ShaderManager) : M unit :=
  fun s => Returned (tt, set_shader (f <$> m_pShaderManager s) s).

(** [m_basicMeshes->Draw<mesh>()] *)
Definition Draw (m : Mesh) : M unit :=
  fun s => Returned (tt, set_drawn (m_basicMeshes s ++ [mk_DrawCall m (m_pShaderManager s)]) s).

(** [SceneManager::SceneManager] *)
Definition SceneManager (pShaderManager : option ShaderManager) : state :=
  mk_state pShaderManager
    (replicate TEXTURE_CAPACITY (mk_TEXTURE_INFO "/0" (to_GLuint (-1))))
    0 [] [].

(** What [stbi_load] reports about the decoded file. *)
Record Image := mk_Image { width : Z; height : Z; colorChannels : Z }.

(** [SceneManager::CreateGLTexture]. The file system and the GL driver are
    inputs: [image] is the result of [stbi_load(filename, ...)] ([None] for
    a null pointer) and [textureID] the name [glGenTextures] hands out.
    There is no test of [m_loadedTextures] against the array length before
    the two element writes. *)
Definition CreateGLTexture (image : option Image) (textureID : Z) (tag : string) : M bool :=
  fun s =>
    match image with
    | Some img =>
        if ((colorChannels img =? 3) || (colorChannels img =? 4))%Z then
          if decide (0 <= m_loadedTextures s < Z.of_nat (length (m_textureIDs s)))%Z then
            Returned (true,
                      set_textures
                        (<[Z.to_nat (m_loadedTextures s) := mk_TEXTURE_INFO tag textureID]>
                           (m_textureIDs s))
                        (m_loadedTextures s + 1)%Z s)
          else OutOfBounds
        else Returned (false, s)
    | None => Returned (false, s)
    end.

(** [SceneManager::DestroyGLTextures] *)
Definition DestroyGLTextures : M unit :=
  fun s => Returned (tt, set_textures (m_textureIDs s) 0 s).

(** The loop of [FindTextureID]: [n] iterations remain, [i] is the index. *)
Fixpoint FindTextureID_loop (arr : list TEXTURE_INFO) (t : string) (n i : nat) : Outcome Z :=
  match n with
  | O => Returned (-1)%Z
  | S n' =>
      match arr !! i with
      | Some e => if String.eqb (tag e) t then Returned (GLuint_to_int (ID e))
                  else FindTextureID_loop arr t n' (S i)
      | None => OutOfBounds
      end
  end.

(** [SceneManager::FindTextureID] *)
Definition FindTextureID (t : string) : M Z :=
  fun s => match FindTextureID_loop (m_textureIDs s) t (Z.to_nat (m_loadedTextures s)) 0 with
           | Returned r => Returned (r, s)
           | OutOfBounds => OutOfBounds
           end.

(** The loop of [FindTextureSlot]. *)
Fixpoint FindTextureSlot_loop (arr : list TEXTURE_INFO) (t : string) (n i : nat) : Outcome Z :=
  match n with
  | O => Returned (-1)%Z
  | S n' =>
      match arr !! i with
      | Some e => if String.eqb (tag e) t then Returned (Z.of_nat i)
                  else FindTextureSlot_loop arr t n' (S i)
      | None => OutOfBounds
      end
  end.

(** [SceneManager::FindTextureSlot] *)
Definition FindTextureSlot (t : string) : M Z :=
  fun s => match FindTextureSlot_loop (m_textureIDs s) t (Z.to_nat (m_loadedTextures s)) 0 with
           | Returned r => Returned (r, s)
           | OutOfBounds => OutOfBounds
           end.

(** The matrix [SetTransformations] builds. *)
Definition modelView (scaleXYZ : vec3) (XrotationDegrees YrotationDegrees ZrotationDegrees : R)
    (positionXYZ : vec3) : GLM.mat4 :=
  let scale := GLM.scale scaleXYZ in
  let rotationX := GLM.rotate (GLM.radians XrotationDegrees) (vec3_ 1 0 0) in
  let rotationY := GLM.rotate (GLM.radians YrotationDegrees) (vec3_ 0 1 0) in
  let rotationZ := GLM.rotate (GLM.radians ZrotationDegrees) (vec3_ 0 0 1) in
  let translation := GLM.translate positionXYZ in
  translation *m rotationZ *m rotationY *m rotationX *m scale.

(** [SceneManager::SetTransformations] *)
Definition SetTransformations (scaleXYZ : vec3)
    (XrotationDegrees YrotationDegrees ZrotationDegrees : R) (positionXYZ : vec3) : M unit :=
  withShader
    (setMat4Value g_ModelName
       (modelView scaleXYZ XrotationDegrees YrotationDegrees ZrotationDegrees positionXYZ)).

(** [SceneManager::SetShaderColor] *)
Definition SetShaderColor (redColorValue greenColorValue blueColorValue alphaValue : R) : M unit :=
  let currentColor := GLM.mk_vec4 redColorValue greenColorValue blueColorValue alphaValue in
  withShader (fun sh =>
    setVec4Value g_ColorValueName currentColor (setIntValue g_UseTextureName false sh)).

(** [SceneManager::SetShaderTexture]: a negative slot from the lookup is
    replaced by slot 0 here, at the call site. *)
Definition SetShaderTexture (textureTag : string) : M unit :=
  fun s =>
    match m_pShaderManager s with
    | Some _ =>
        (withShader (setIntValue g_UseTextureName true) ;;
         textureSlot <- FindTextureSlot textureTag ;;
         let textureSlot := if (textureSlot <? 0)%Z then 0%Z else textureSlot in
         withShader (setSampler2DValue g_TextureValueName textureSlot)) s
    | None => Returned (tt, s)
    end.

(** [SceneManager::SetTextureUVScale] *)
Definition SetTextureUVScale (u v : R) : M unit :=
  withShader (setVec2Value "UVscale" (GLM.mk_vec2 u v)).

(** [SceneManager::DefineObjectMaterials] *)
Definition DefineObjectMaterials : M unit :=
  fun s =>
    let metal := OBJECT_MATERIAL.mk (vec3_ 0.7 0.68 0.6) (vec3_ 0.95 0.92 0.85) 64 "metal" in
    let wood := OBJECT_MATERIAL.mk (vec3_ 0.45 0.3 0.15) (vec3_ 0.05 0.05 0.05) 8 "wood" in
    let candle := OBJECT_MATERIAL.mk (vec3_ 0.95 0.92 0.85) (vec3_ 0.2 0.2 0.2) 12 "candle" in
    let flame := OBJECT_MATERIAL.mk (vec3_ 1.0 0.7 0.25) (vec3_ 0.9 0.6 0.2) 16 "flame" in
    let cement := OBJECT_MATERIAL.mk (vec3_ 0.6 0.6 0.6) (vec3_ 0.3 0.3 0.3) 16 "cement" in
    Returned (tt, set_materials ([] ++ [metal] ++ [wood] ++ [candle] ++ [flame] ++ [cement]) s).

(** The range-for of [SetShaderMaterial]: the first element whose tag is
    equal to [materialTag] is copied and the loop is left ([found]). *)
Fixpoint SetShaderMaterial_loop (mats : list OBJECT_MATERIAL.t) (materialTag : string)
  : option OBJECT_MATERIAL.t :=
  match mats with
  | [] => None
  | mat :: rest =>
      if String.eqb (OBJECT_MATERIAL.tag mat) materialTag then Some mat
      else SetShaderMaterial_loop rest materialTag
  end.

(** The local [selected] of [SetShaderMaterial] when the uniforms are
    written: the copied element, or the default-constructed struct (empty
    tag) with its three coefficients overwritten. *)
Definition selected (mats : list OBJECT_MATERIAL.t) (materialTag : string) : OBJECT_MATERIAL.t :=
  match SetShaderMaterial_loop mats materialTag with
  | Some mat => mat
  | None => OBJECT_MATERIAL.mk (vec3_ 0.8 0.8 0.8) (vec3_ 0.2 0.2 0.2) 8 ""
  end.

(** [SceneManager::SetShaderMaterial] *)
Definition SetShaderMaterial (materialTag : string) : M unit :=
  fun s =>
    let sel := selected (m_objectMaterials s) materialTag in
    withShader (fun sh =>
      setFloatValue "material.shininess" (OBJECT_MATERIAL.shininess sel)
        (setVec3Value "material.specularColor" (OBJECT_MATERIAL.specularColor sel)
           (setVec3Value "material.diffuseColor" (OBJECT_MATERIAL.diffuseColor sel) sh))) s.

Infix "+v" := GLM.vadd (at level 50, left associativity).
Infix "*s" := GLM.vscale (at level 40, left associativity).

(** *** RenderScene *)

Definition candleOffset : vec3 := vec3_ (-3.5) 0 (-3.0).

(** The table block of [RenderScene]. *)
Definition RenderScene_table : M unit :=
  let scaleXYZ := vec3_ 22 0.4 12 in
  let positionXYZ := vec3_ 0 (-0.3) 0 in
  SetTransformations scaleXYZ 0 0 0 positionXYZ ;;
  SetShaderTexture "wood" ;;
  SetTextureUVScale 8 8 ;;
  SetShaderMaterial "cement" ;;
  Draw BoxMesh.

(** The candle holder and candle block of [RenderScene]; the value returned
    is the local [currentY] when the block is left. *)
Definition RenderScene_candle : M R :=
  let currentY := 0 in
  (* base of the candle holder *)
  let scaleXYZ := vec3_ 1.6 0.6 1.6 in
  let positionXYZ := candleOffset +v vec3_ 0 currentY 0 in
  SetTransformations scaleXYZ 0 0 0 positionXYZ ;;
  SetShaderTexture "metal" ;;
  SetTextureUVScale 4 2 ;;
  Draw TaperedCylinderMesh ;;
  let currentY := currentY + 0.6 in
  (* stem part *)
  let scaleXYZ := vec3_ 0.3 1.0 0.3 in
  let positionXYZ := candleOffset +v vec3_ 0 currentY 0 in
  SetTransformations scaleXYZ 0 0 0 positionXYZ ;;
  SetShaderTexture "metal" ;;
  SetTextureUVScale 2.5 0.5 ;;
  Draw CylinderMesh ;;
  let currentY := currentY + 1.0 in
  (* small metal sphere decoration *)
  let scaleXYZ := vec3_ 0.45 0.25 0.45 in
  let positionXYZ := candleOffset +v vec3_ 0 currentY 0 in
  SetTransformations scaleXYZ 0 0 0 positionXYZ ;;
  SetShaderTexture "metal" ;;
  Draw SphereMesh ;;
  let currentY := currentY + 0.15 in
  (* upper stem *)
  let scaleXYZ := vec3_ 0.3 0.8 0.3 in
  let positionXYZ := candleOffset +v vec3_ 0 currentY 0 in
  SetTransformations scaleXYZ 0 0 0 positionXYZ ;;
  SetShaderTexture "metal" ;;
  Draw CylinderMesh ;;
  let currentY := currentY + 0.8 in
  (* cup part *)
  let scaleXYZ := vec3_ 1.2 1.0 1.2 in
  let positionXYZ := candleOffset +v vec3_ 0 (currentY + 0.7) 0 in
  SetTransformations scaleXYZ 180 0 0 positionXYZ ;;
  SetShaderTexture "metal" ;;
  Draw TaperedCylinderMesh ;;
  (* rim on top of the cup *)
  let scaleXYZ := vec3_ 1.2 0.2 1.2 in
  let positionXYZ := candleOffset +v vec3_ 0 (currentY + 0.7) 0 in
  SetTransformations scaleXYZ 0 0 0 positionXYZ ;;
  SetShaderTexture "metal" ;;
  Draw CylinderMesh ;;
  let currentY := currentY + 1.0 in
  (* candle itself *)
  let scaleXYZ := vec3_ 0.9 2.0 0.9 in
  let positionXYZ := candleOffset +v vec3_ 0 (currentY - 0.2) 0 in
  SetTransformations scaleXYZ 0 0 0 positionXYZ ;;
  SetShaderTexture "candle" ;;
  SetTextureUVScale 1.0 0.8 ;;
  Draw CylinderMesh ;;
  (* wick *)
  let scaleXYZ := vec3_ 0.04 0.05 0.04 in
  let positionXYZ := candleOffset +v vec3_ 0 (currentY + 1.8) 0 in
  SetTransformations scaleXYZ 0 0 0 positionXYZ ;;
  SetShaderColor 0.05 0.05 0.05 1.0 ;;
  Draw CylinderMesh ;;
  ret currentY.

(** The local [flicker] of [RenderScene]. *)
Definition flicker (elapsedSeconds : R) : R :=
  0.92 + 0.12 * sin (elapsedSeconds * 12.0) + 0.03 * sin (elapsedSeconds * 37.0).

(** The writes to point light 0 inside [if (m_pShaderManager)]. *)
Definition RenderScene_light (flicker : R) (flamePos : vec3) : M unit :=
  withShader (fun sh =>
    let sh := setVec3Value "pointLights[0].position" flamePos sh in
    let baseDiffuse := vec3_ 0.95 0.60 0.25 in
    let baseAmbient := vec3_ 0.07 0.04 0.02 in
    let flickerDiffuse := baseDiffuse *s flicker in
    let flickerAmbient := baseAmbient *s (0.6 + 0.4 * flicker) in
    let sh := setVec3Value "pointLights[0].diffuse" flickerDiffuse sh in
    let sh := setVec3Value "pointLights[0].ambient" flickerAmbient sh in
    let sh := setVec3Value "pointLights[0].specular"
                (vec3_ (1.0 * flicker) (0.8 * flicker) (0.5 * flicker)) sh in
    setIntValue "pointLights[0].bActive" true sh).

(** The candle light animation, flame core and glow of [RenderScene];
    [elapsedSeconds] is the reading of the steady clock. *)
Definition RenderScene_flame (elapsedSeconds currentY : R) : M unit :=
  let flicker := flicker elapsedSeconds in
  let flamePos := candleOffset +v vec3_ 0 (currentY + 2.0) 0 in
  RenderScene_light flicker flamePos ;;
  (* flame core *)
  let scaleXYZ := vec3_ 0.05 0.25 0.05 in
  SetTransformations scaleXYZ 0 0 0 flamePos ;;
  SetShaderColor (1.2 * flicker) (0.95 * flicker) (0.45 * flicker) 1.0 ;;
  Draw SphereMesh ;;
  (* glow around the flame *)
  let glowPulse := 1.0 + 0.08 * sin (elapsedSeconds * 8.0) in
  let scaleXYZ := vec3_ (0.12 * glowPulse) (0.40 * glowPulse) (0.12 * glowPulse) in
  let positionXYZ := flamePos +v vec3_ 0 0.05 0 in
  SetTransformations scaleXYZ 0 0 0 positionXYZ ;;
  SetShaderColor 1.0 0.9 0.7 (0.3 * (0.9 + 0.1 * flicker)) ;;
  Draw SphereMesh.

(** *** DrawBookSetup *)

Definition bookPosition : vec3 := vec3_ (-2.0) 0.20 2.1.
Definition bookScaleFactor : R := 1.4.
Definition coverWidth : R := 4.6 * bookScaleFactor.
Definition coverDepth : R := 3.0 * bookScaleFactor.
Definition coverThickness : R := 0.25 * bookScaleFactor.
Definition pageWidth : R := 4.3 * bookScaleFactor.
Definition pageThickness : R := 0.025 * bookScaleFactor.
Definition baseRotationY : R := 4.5.
Definition numPageLayers : nat := 25.

(** The tablecloth and bottom cover. *)
Definition DrawBookSetup_cover : M unit :=
  let tableCenter := vec3_ 0 0 0 in
  let clothWidth := 16.0 in
  let clothDepth := 10.0 in
  let clothThickness := 0.02 in
  let clothPos := tableCenter +v vec3_ 0 (-0.1) 0 in
  SetTransformations (vec3_ clothWidth clothThickness clothDepth) 0 0 0 clothPos ;;
  SetShaderTexture "cloth" ;;
  SetTextureUVScale 4 4 ;;
  Draw BoxMesh ;;
  let scaleXYZ := vec3_ coverWidth (coverThickness * 0.95) coverDepth in
  let positionXYZ := bookPosition in
  SetTransformations scaleXYZ 0 baseRotationY 0 positionXYZ ;;
  SetShaderTexture "book" ;;
  SetTextureUVScale 2.0 1.5 ;;
  Draw BoxMesh.

(** One iteration of the page loop, for layer [i]. *)
Definition DrawBookSetup_page (i : nat) : M unit :=
  let baseY := -0.02 * bookScaleFactor in
  let yOffset := baseY + INR i * (pageThickness * 0.8) in
  let subtleWave := 0.002 * sin (INR i * 0.5) in
  let normalized := (INR i - INR numPageLayers / 2.0) / (INR numPageLayers / 2.0) in
  let smoothCurve := Rpower (Rabs normalized) 1.5 in
  let archAmplitude := 0.10 * bookScaleFactor * (1.0 - smoothCurve) in
  let xOffset := -0.01 * normalized in
  let pageYaw := normalized * 0.12 in
  let rotationAngleX := - archAmplitude * 0.5 in
  let rotationAngleY := baseRotationY + pageYaw in
  let scaleXYZ := vec3_ pageWidth pageThickness (coverDepth - 0.08) in
  let positionXYZ := bookPosition +v vec3_ xOffset (yOffset + subtleWave) 0 in
  SetTransformations scaleXYZ rotationAngleX rotationAngleY 0 positionXYZ ;;
  SetShaderTexture "page" ;;
  SetTextureUVScale 1 1 ;;
  Draw BoxMesh.

(** [for (int i = ...; i < numPageLayers; ++i)] with [n] iterations left. *)
Fixpoint DrawBookSetup_pages (n i : nat) : M unit :=
  match n with
  | O => ret tt
  | S n' => DrawBookSetup_page i ;; DrawBookSetup_pages n' (S i)
  end.

(** The center divider and its darker strip. *)
Definition DrawBookSetup_divider : M unit :=
  let totalHeight := INR numPageLayers * (pageThickness * 0.8) in
  let dividerCenterY := (-0.02 * bookScaleFactor) + (totalHeight * 0.5) in
  let dividerHeight := totalHeight * 1.05 in
  let dividerThickness := 0.05 * bookScaleFactor in
  let dividerDepth := coverDepth - 0.02 in
  let scaleXYZ := vec3_ dividerThickness dividerHeight dividerDepth in
  let positionXYZ := bookPosition +v vec3_ 0 dividerCenterY 0 in
  SetTransformations scaleXYZ 0 baseRotationY 0 positionXYZ ;;
  SetShaderColor 0.11 0.09 0.08 1.0 ;;
  Draw BoxMesh ;;
  let scaleXYZ := vec3_ (dividerThickness * 0.9) (dividerHeight * 0.95) (dividerDepth - 0.01) in
  let positionXYZ := bookPosition +v vec3_ 0 (dividerCenterY - (pageThickness * 0.02)) 0 in
  SetTransformations scaleXYZ 0 baseRotationY 0 positionXYZ ;;
  SetShaderColor 0.07 0.06 0.055 1.0 ;;
  Draw BoxMesh.

(** The locals of the pen block. In the source [rotY] is the constant
    [baseRotationY + 10.0f]; the locals that depend on it take it as an
    argument, so that the placement rule can be read for any yaw. *)
Module Pen.
Definition penScale : R := 1.7.
Definition length : R := 0.45 * bookScaleFactor * penScale.
Definition rRear : R := 0.025 * bookScaleFactor * penScale.
Definition rFront : R := 0.015 * bookScaleFactor * penScale.
Definition tipLen : R := 0.06 * bookScaleFactor * penScale * 2.6.
Definition tipRadius : R := GLM.max 0.0005 (rFront * 0.25).
Definition yawRad (rotY : R) : R := GLM.radians rotY.
Definition dir (rotY : R) : vec3 :=
  GLM.normalize (vec3_ (sin (yawRad rotY)) 0 (cos (yawRad rotY))).
Definition center : vec3 :=
  bookPosition +v vec3_ ((coverWidth * 0.5) + 0.85)
                        (-0.20 + GLM.max rRear rFront + 0.002)
                        (0.50 * bookScaleFactor).
Definition front (rotY : R) : vec3 := center +v dir rotY *s (length * 0.5 + 0.003).
Definition tipPos (rotY : R) : vec3 := front rotY +v dir rotY *s (tipLen * 0.5 + 0.003).
Definition tipScale : vec3 := vec3_ tipRadius tipRadius tipLen.
End Pen.

(** The pen block, for the yaw [rotY] (degrees). *)
Definition DrawBookSetup_pen (rotY : R) : M unit :=
  (* pen body with texture *)
  withShader (setIntValue g_UseTextureName true) ;;
  SetShaderTexture "pen" ;;
  SetTextureUVScale 1 1 ;;
  SetTransformations (vec3_ Pen.rRear Pen.rFront Pen.length) 0 rotY 0 Pen.center ;;
  Draw TaperedCylinderMesh ;;
  (* white pen tip *)
  withShader (setIntValue g_UseTextureName false) ;;
  SetShaderColor 1 1 1 1 ;;
  SetTransformations Pen.tipScale 0 rotY 0 (Pen.tipPos rotY) ;;
  Draw ConeMesh.

(** The inkpot and the paper under the book. *)
Definition DrawBookSetup_inkpot_paper : M unit :=
  let inkPotScale := 1.5 in
  let inkPotPos := bookPosition +v vec3_ ((coverWidth * 0.5) + 0.95) (-0.30)
                                         (-2.8 * bookScaleFactor) in
  withShader (setIntValue g_UseTextureName true) ;;
  SetShaderTexture "inkpot" ;;
  SetTransformations (vec3_ 0.4 0.45 0.4 *s bookScaleFactor *s inkPotScale) 0 0 0
    (inkPotPos +v vec3_ 0 (0.25 * bookScaleFactor * inkPotScale) 0) ;;
  Draw SphereMesh ;;
  SetTransformations (vec3_ 0.18 0.2 0.18 *s bookScaleFactor *s inkPotScale) 0 0 0
    (inkPotPos +v vec3_ 0 (0.5 * bookScaleFactor * inkPotScale) 0) ;;
  Draw CylinderMesh ;;
  withShader (setIntValue g_UseTextureName false) ;;
  SetShaderColor 0.08 0.08 0.08 1.0 ;;
  SetTransformations (vec3_ 0.22 0.08 0.22 *s bookScaleFactor *s inkPotScale) 0 0 0
    (inkPotPos +v vec3_ 0 (0.6 * bookScaleFactor * inkPotScale) 0) ;;
  Draw CylinderMesh ;;
  let paperPos := bookPosition +v vec3_ (-0.04) (-0.27) 0.12 in
  let paperRotationY := baseRotationY + 8.0 in
  let paperScaleFactor := bookScaleFactor * 1.05 in
  let paperScale := vec3_ 4.75 0.01 3.15 *s paperScaleFactor in
  withShader (setIntValue g_UseTextureName true) ;;
  SetShaderTexture "page" ;;
  SetTextureUVScale 1.5 1.5 ;;
  SetTransformations paperScale 0 paperRotationY 0 paperPos ;;
  Draw BoxMesh.

(** The closed book near the corner of the table. *)
Definition DrawBookSetup_closed_book : M unit :=
  let tableCenter := vec3_ 0 0 0 in
  let closedBookScale := 1.25 in
  let bookRotY := 110.0 in
  let coverWidth := 4.5 * closedBookScale in
  let coverDepth := 3.0 * closedBookScale in
  let coverThickness := 0.08 * closedBookScale in
  let pagesHeight := 0.5 * closedBookScale in
  let closedBookPos := tableCenter +v vec3_ 6.0 0.1 (-1.8) in
  SetTransformations (vec3_ coverWidth coverThickness coverDepth) 0 bookRotY 0 closedBookPos ;;
  SetShaderTexture "book" ;;
  SetTextureUVScale 2.2 1.8 ;;
  Draw BoxMesh ;;
  let pagePos := closedBookPos +v vec3_ 0 (coverThickness * 0.5 + pagesHeight * 0.5) 0 in
  SetTransformations (vec3_ (coverWidth * 0.96) pagesHeight (coverDepth * 0.94)) 0 bookRotY 0
    pagePos ;;
  SetShaderTexture "page" ;;
  SetTextureUVScale 2.5 2.5 ;;
  Draw BoxMesh ;;
  let spineThickness := 0.09 * closedBookScale in
  let spineHeight := pagesHeight + coverThickness + 0.03 in
  let localSpineOffset :=
    vec3_ 0 (coverThickness * 0.5 + pagesHeight * 0.5)
          (- coverDepth * 0.5 - (spineThickness * 0.5) + 0.10) in
  let yawRad := GLM.radians bookRotY in
  let rotM := GLM.rotate_m GLM.identity yawRad (vec3_ 0 1 0) in
  let worldSpineOffset := GLM.vec3_of (GLM.mul_vec rotM (GLM.vec4_of localSpineOffset 1.0)) in
  let spinePos := closedBookPos +v worldSpineOffset in
  SetTransformations (vec3_ (coverWidth * 0.985) spineHeight spineThickness) 0 bookRotY 0
    spinePos ;;
  SetShaderTexture "book" ;;
  SetTextureUVScale 1 1 ;;
  Draw BoxMesh ;;
  let topCoverPos := closedBookPos +v vec3_ 0 (coverThickness + pagesHeight) 0 in
  SetTransformations (vec3_ coverWidth coverThickness coverDepth) 0 bookRotY 0 topCoverPos ;;
  SetShaderTexture "book" ;;
  SetTextureUVScale 2.2 1.8 ;;
  Draw BoxMesh.

(** [SceneManager::DrawBookSetup] *)
Definition DrawBookSetup : M unit :=
  DrawBookSetup_cover ;;
  DrawBookSetup_pages numPageLayers 0 ;;
  DrawBookSetup_divider ;;
  DrawBookSetup_pen (baseRotationY + 10.0) ;;
  DrawBookSetup_inkpot_paper ;;
  DrawBookSetup_closed_book.

(** [SceneManager::RenderScene], at clock reading [elapsedSeconds]. *)
Definition RenderScene (elapsedSeconds : R) : M unit :=
  withShader (setBoolValue "bUseLighting" true) ;;
  RenderScene_table ;;
  currentY <- RenderScene_candle ;;
  RenderScene_flame elapsedSeconds currentY ;;
  DrawBookSetup.

(** *** Scene preparation *)

(** The loop of [BindGLTextures], with [n] iterations left at index [i]:
    [units] maps the index [u] of texture unit [GL_TEXTURE0 + u] to the
    texture name bound to its [GL_TEXTURE_2D] target. *)
Fixpoint BindGLTextures_loop (arr : list TEXTURE_INFO) (n i : nat) (units : gmap nat Z)
  : Outcome (gmap nat Z) :=
  match n with
  | O => Returned units
  | S n' =>
      match arr !! i with
      | Some e => BindGLTextures_loop arr n' (S i) (<[i := ID e]> units)
      | None => OutOfBounds
      end
  end.

(** [SceneManager::BindGLTextures]; the texture units of the GL context are
    passed in and returned. *)
Definition BindGLTextures (units : gmap nat Z) : M (gmap nat Z) :=
  fun s => match BindGLTextures_loop (m_textureIDs s) (Z.to_nat (m_loadedTextures s)) 0 units with
           | Returned units' => Returned (units', s)
           | OutOfBounds => OutOfBounds
           end.

(** [SceneManager::SetupSceneLights] *)
Definition SetupSceneLights : M unit :=
  withShader (fun sh =>
    let sh := setBoolValue "bUseLighting" true sh in
    let sh := setVec3Value "directionalLight.direction" (vec3_ (-0.2) (-1.0) (-0.3)) sh in
    let sh := setVec3Value "directionalLight.ambient" (vec3_ 0.12 0.12 0.12) sh in
    let sh := setVec3Value "directionalLight.diffuse" (vec3_ 0.55 0.52 0.48) sh in
    let sh := setVec3Value "directionalLight.specular" (vec3_ 0.4 0.4 0.4) sh in
    let sh := setIntValue "directionalLight.bActive" true sh in
    let sh := setVec3Value "pointLights[0].position" (vec3_ 0.0 3.0 0.0) sh in
    let sh := setVec3Value "pointLights[0].ambient" (vec3_ 0.06 0.03 0.02) sh in
    let sh := setVec3Value "pointLights[0].diffuse" (vec3_ 0.95 0.6 0.25) sh in
    let sh := setVec3Value "pointLights[0].specular" (vec3_ 1.0 0.8 0.5) sh in
    let sh := setIntValue "pointLights[0].bActive" true sh in
    let sh := setVec3Value "pointLights[1].position" (vec3_ (-4.0) 5.0 (-2.0)) sh in
    let sh := setVec3Value "pointLights[1].ambient" (vec3_ 0.03 0.03 0.05) sh in
    let sh := setVec3Value "pointLights[1].diffuse" (vec3_ 0.35 0.45 0.6) sh in
    let sh := setVec3Value "pointLights[1].specular" (vec3_ 0.35 0.35 0.4) sh in
    let sh := setIntValue "pointLights[1].bActive" true sh in
    setIntValue "spotLight.bActive" false sh).

(** [SceneManager::LoadSceneTextures]. [stbi_load] gives what the decoder
    returns for a file name and [glGenTextures] the texture name the driver
    hands out while that file is loaded. The texture units are followed
    through [BindGLTextures] only: the binding that [CreateGLTexture] makes
    and removes again on the active unit while it uploads an image is not
    tracked, so of the units returned only those that [BindGLTextures]
    binds are meaningful. *)
Definition LoadSceneTextures (stbi_load : string -> option Image) (glGenTextures : string -> Z)
    (units : gmap nat Z) : M (gmap nat Z) :=
  let load := fun (filename tag : string) =>
                CreateGLTexture (stbi_load filename) (glGenTextures filename) tag in
  load "textures/wood.jpg" "wood" ;;
  load "textures/metal.jpg" "metal" ;;
  load "textures/candle.jpg" "candle" ;;
  load "textures/book.jpg" "book" ;;
  load "textures/page.jpg" "page" ;;
  load "textures/pen.jpg" "pen" ;;
  load "textures/inkpot.png" "inkpot" ;;
  load "textures/cloth.jpg" "cloth" ;;
  BindGLTextures units.

(** [SceneManager::PrepareScene]; loading the nine meshes creates vertex
    buffers only and is left out. *)
Definition PrepareScene (stbi_load : string -> option Image) (glGenTextures : string -> Z)
    (units : gmap nat Z) : M (gmap nat Z) :=
  units' <- LoadSceneTextures stbi_load glGenTextures units ;;
  DefineObjectMaterials ;;
  SetupSceneLights ;;
  ret units'.

End SceneManager.

(* ===================================================================== *)
(** ** ViewManager.cpp                                                    *)
(* ===================================================================== *)

Module ViewManager.

Import Shader.
Abbreviation vec3 := GLM.vec3.
Abbreviation vec3_ := GLM.mk_vec3.

Definition WINDOW_WIDTH : Z := 1000.
Definition WINDOW_HEIGHT : Z := 800.
Definition g_ViewName : string := "view".
Definition g_ProjectionName : string := "projection".

(** The directions of [Camera::ProcessKeyboard] and the keys polled by
    [ProcessKeyboardEvents]. *)
Inductive Camera_Movement := FORWARD | BACKWARD | LEFT | RIGHT | UP | DOWN.

Inductive Key :=
| GLFW_KEY_ESCAPE | GLFW_KEY_W | GLFW_KEY_S | GLFW_KEY_A | GLFW_KEY_D
| GLFW_KEY_Q | GLFW_KEY_E | GLFW_KEY_P | GLFW_KEY_O.

(** [glm::ortho(left, right, bottom, top, zNear, zFar)] *)
Definition ortho (left right bottom top zNear zFar : R) : GLM.mat4 :=
  GLM.mk_mat4
    (GLM.mk_vec4 (2 / (right - left)) 0 0 0)
    (GLM.mk_vec4 0 (2 / (top - bottom)) 0 0)
    (GLM.mk_vec4 0 0 (- (2 / (zFar - zNear))) 0)
    (GLM.mk_vec4 (- ((right + left) / (right - left)))
                 (- ((top + bottom) / (top - bottom)))
                 (- ((zFar + zNear) / (zFar - zNear))) 1).

(** [glm::perspective(fovy, aspect, zNear, zFar)] *)
Definition perspective (fovy aspect zNear zFar : R) : GLM.mat4 :=
  let tanHalfFovy := tan (fovy / 2) in
  GLM.mk_mat4
    (GLM.mk_vec4 (1 / (aspect * tanHalfFovy)) 0 0 0)
    (GLM.mk_vec4 0 (1 / tanHalfFovy) 0 0)
    (GLM.mk_vec4 0 0 (- ((zFar + zNear) / (zFar - zNear))) (-1))
    (GLM.mk_vec4 0 0 (- ((2 * zFar * zNear) / (zFar - zNear))) 0).

Section WithCamera.

(** The class [Camera] comes from camera.h, which is not part of the
    sources. The two files read and write five of its members; whatever
    else an object holds is [CameraPrivate], and the three member functions
    they call are taken as given. *)
Variable CameraPrivate : Type.

Record Camera := mk_Camera {
  Position : vec3;
  Front : vec3;
  Up : vec3;
  Zoom : R;
  MovementSpeed : R;
  private : CameraPrivate
}.

(** [new Camera()] *)
Variable Camera_new : Camera.
Variable ProcessKeyboard : Camera_Movement -> R -> Camera -> Camera.
Variable ProcessMouseMovement : R -> R -> Camera -> Camera.
Variable GetViewMatrix : Camera -> GLM.mat4.

Definition set_Position (v : vec3) (c : Camera) : Camera :=
  mk_Camera v (Front c) (Up c) (Zoom c) (MovementSpeed c) (private c).
Definition set_Front (v : vec3) (c : Camera) : Camera :=
  mk_Camera (Position c) v (Up c) (Zoom c) (MovementSpeed c) (private c).
Definition set_Up (v : vec3) (c : Camera) : Camera :=
  mk_Camera (Position c) (Front c) v (Zoom c) (MovementSpeed c) (private c).
Definition set_Zoom (r : R) (c : Camera) : Camera :=
  mk_Camera (Position c) (Front c) (Up c) r (MovementSpeed c) (private c).
Definition set_MovementSpeed (r : R) (c : Camera) : Camera :=
  mk_Camera (Position c) (Front c) (Up c) (Zoom c) r (private c).

(** The object together with the variables of the unnamed namespace.
    [windowShouldClose] is the close flag of the GLFW window. *)
Record state := mk_state {
  m_pShaderManager : option ShaderManager;
  windowShouldClose : bool;
  g_pCamera : option Camera;
  gLastX : R;
  gLastY : R;
  gFirstMouse : bool;
  gDeltaTime : R;
  gLastFrame : R;
  bOrthographicProjection : bool
}.

Definition set_shader (sh : option ShaderManager) (st : state) : state :=
  mk_state sh (windowShouldClose st) (g_pCamera st) (gLastX st) (gLastY st)
           (gFirstMouse st) (gDeltaTime st) (gLastFrame st) (bOrthographicProjection st).
Definition set_windowShouldClose (b : bool) (st : state) : state :=
  mk_state (m_pShaderManager st) b (g_pCamera st) (gLastX st) (gLastY st)
           (gFirstMouse st) (gDeltaTime st) (gLastFrame st) (bOrthographicProjection st).
Definition set_camera (c : option Camera) (st : state) : state :=
  mk_state (m_pShaderManager st) (windowShouldClose st) c (gLastX st) (gLastY st)
           (gFirstMouse st) (gDeltaTime st) (gLastFrame st) (bOrthographicProjection st).
Definition set_mouse (lastX lastY : R) (first : bool) (st : state) : state :=
  mk_state (m_pShaderManager st) (windowShouldClose st) (g_pCamera st) lastX lastY
           first (gDeltaTime st) (gLastFrame st) (bOrthographicProjection st).
Definition set_time (delta last : R) (st : state) : state :=
  mk_state (m_pShaderManager st) (windowShouldClose st) (g_pCamera st) (gLastX st) (gLastY st)
           (gFirstMouse st) delta last (bOrthographicProjection st).
Definition set_bOrthographicProjection (b : bool) (st : state) : state :=
  mk_state (m_pShaderManager st) (windowShouldClose st) (g_pCamera st) (gLastX st) (gLastY st)
           (gFirstMouse st) (gDeltaTime st) (gLastFrame st) b.

(** [g_pCamera->...]: dereferencing a null [g_pCamera] has no result. *)
Definition onCamera (f : Camera -> Camera) (st : state) : option state :=
  cam ← g_pCamera st; Some (set_camera (Some (f cam)) st).

(** [if (cond) { body }] *)
Definition when (cond : bool) (body : state -> option state) (st : state) : option state :=
  if cond then body st else Some st.

(** [ViewManager::ViewManager], on the initial values of the globals. *)
Definition ViewManager (pShaderManager : option ShaderManager) : state :=
  let cam := Camera_new in
  let cam := set_Position (vec3_ 0 9 18) cam in
  let cam := set_Front (vec3_ 0 (-0.8) (-3.0)) cam in
  let cam := set_Up (vec3_ 0 1 0) cam in
  let cam := set_Zoom 80 cam in
  let cam := set_MovementSpeed 20 cam in
  mk_state pShaderManager false (Some cam)
           (IZR WINDOW_WIDTH / 2.0) (IZR WINDOW_HEIGHT / 2.0) true 0 0 false.

(** The scroll callback installed by [CreateDisplayWindow]. *)
Definition ScrollCallback (xoffset yoffset : R) (st : state) : state :=
  match g_pCamera st with
  | Some cam =>
      let cam := set_MovementSpeed (MovementSpeed cam + yoffset) cam in
      let cam := if Rlt_dec (MovementSpeed cam) 1.0 then set_MovementSpeed 1.0 cam else cam in
      let cam := if Rgt_dec (MovementSpeed cam) 100.0 then set_MovementSpeed 100.0 cam else cam in
      set_camera (Some cam) st
  | None => st
  end.

(** [ViewManager::Mouse_Position_Callback] *)
Definition Mouse_Position_Callback (xMousePos yMousePos : R) (st : state) : option state :=
  let st := if gFirstMouse st then set_mouse xMousePos yMousePos false st else st in
  let xOffset := xMousePos - gLastX st in
  let yOffset := gLastY st - yMousePos in
  let st := set_mouse xMousePos yMousePos (gFirstMouse st) st in
  onCamera (ProcessMouseMovement xOffset yOffset) st.

(** [ViewManager::ProcessKeyboardEvents]; [keys k] tells whether
    [glfwGetKey(m_pWindow, k) == GLFW_PRESS]. *)
Definition ProcessKeyboardEvents (keys : Key -> bool) (st : state) : option state :=
  st ← when (keys GLFW_KEY_ESCAPE) (fun st => Some (set_windowShouldClose true st)) st;
  st ← when (keys GLFW_KEY_W) (fun st => onCamera (ProcessKeyboard FORWARD (gDeltaTime st)) st) st;
  st ← when (keys GLFW_KEY_S) (fun st => onCamera (ProcessKeyboard BACKWARD (gDeltaTime st)) st) st;
  st ← when (keys GLFW_KEY_A) (fun st => onCamera (ProcessKeyboard LEFT (gDeltaTime st)) st) st;
  st ← when (keys GLFW_KEY_D) (fun st => onCamera (ProcessKeyboard RIGHT (gDeltaTime st)) st) st;
  st ← when (keys GLFW_KEY_Q) (fun st => onCamera (ProcessKeyboard UP (gDeltaTime st)) st) st;
  st ← when (keys GLFW_KEY_E) (fun st => onCamera (ProcessKeyboard DOWN (gDeltaTime st)) st) st;
  st ← when (keys GLFW_KEY_P) (fun st =>
         let st := set_bOrthographicProjection false st in
         st ← onCamera (set_Position (vec3_ 0 9 18)) st;
         st ← onCamera (set_Front (vec3_ 0 (-0.8) (-3.0))) st;
         onCamera (set_Up (vec3_ 0 1 0)) st) st;
  when (keys GLFW_KEY_O) (fun st =>
         let st := set_bOrthographicProjection true st in
         st ← onCamera (set_Position (vec3_ 0 5 10)) st;
         st ← onCamera (set_Front (GLM.normalize (vec3_ 0 (-0.3) (-1.0)))) st;
         onCamera (set_Up (vec3_ 0 1 0)) st) st.

(** [ViewManager::PrepareSceneView]; [currentFrame] is [glfwGetTime()]. *)
Definition PrepareSceneView (currentFrame : R) (keys : Key -> bool) (st : state) : option state :=
  let st := set_time (currentFrame - gLastFrame st) currentFrame st in
  st ← ProcessKeyboardEvents keys st;
  cam ← g_pCamera st;
  let view := GetViewMatrix cam in
  let projection :=
    if bOrthographicProjection st then
      let orthoSize := 5.0 in
      let aspect := IZR WINDOW_WIDTH / IZR WINDOW_HEIGHT in
      ortho (- orthoSize * aspect) (orthoSize * aspect) (- orthoSize) orthoSize 0.1 500.0
    else
      perspective (GLM.radians (Zoom cam)) (IZR WINDOW_WIDTH / IZR WINDOW_HEIGHT) 0.1 100.0 in
  Some (set_shader
          ((fun sh => setVec3Value "viewPosition" (Position cam)
                        (setMat4Value g_ProjectionName projection
                           (setMat4Value g_ViewName view sh)))
             <$> m_pShaderManager st) st).

(** Input events of the running program. *)
Inductive Event :=
| Scroll (xoffset yoffset : R)
| MouseMove (xMousePos yMousePos : R)
| Frame (currentFrame : R) (keys : Key -> bool).

Definition handle (e : Event) (st : state) : option state :=
  match e with
  | Scroll xo yo => Some (ScrollCallback xo yo st)
  | MouseMove mx my => Mouse_Position_Callback mx my st
  | Frame t keys => PrepareSceneView t keys st
  end.

Fixpoint run (es : list Event) (st : state) : option state :=
  match es with
  | [] => Some st
  | e :: es' => st' ← handle e st; run es' st'
  end.

End WithCamera.

Arguments mk_Camera {CameraPrivate}.
Arguments Position {CameraPrivate}.
Arguments Front {CameraPrivate}.
Arguments Up {CameraPrivate}.
Arguments Zoom {CameraPrivate}.
Arguments MovementSpeed {CameraPrivate}.
Arguments private {CameraPrivate}.
Arguments g_pCamera {CameraPrivate}.
Arguments bOrthographicProjection {CameraPrivate}.
Arguments windowShouldClose {CameraPrivate}.
Arguments m_pShaderManager {CameraPrivate}.

End ViewManager.

(* ===================================================================== *)
(** ** Specification-side definitions                                     *)
(* ===================================================================== *)

(** The matrices of the design document, written out entry by entry
    (columns first, as [glm::mat4] stores them). They follow the document,
    not the code; [modelView_spec] below compares them with what
    [SetTransformations] computes through GLM. *)
Module TransformSpec.

Definition translate (T : GLM.vec3) : GLM.mat4 :=
  GLM.mk_mat4 (GLM.mk_vec4 1 0 0 0) (GLM.mk_vec4 0 1 0 0) (GLM.mk_vec4 0 0 1 0)
              (GLM.mk_vec4 (GLM.x T) (GLM.y T) (GLM.z T) 1).

Definition scale (S : GLM.vec3) : GLM.mat4 :=
  GLM.mk_mat4 (GLM.mk_vec4 (GLM.x S) 0 0 0) (GLM.mk_vec4 0 (GLM.y S) 0 0)
              (GLM.mk_vec4 0 0 (GLM.z S) 0) (GLM.mk_vec4 0 0 0 1).

(** Rotations by an angle in radians about the coordinate axes. *)
Definition rotateX (a : R) : GLM.mat4 :=
  GLM.mk_mat4 (GLM.mk_vec4 1 0 0 0) (GLM.mk_vec4 0 (cos a) (sin a) 0)
              (GLM.mk_vec4 0 (- sin a) (cos a) 0) (GLM.mk_vec4 0 0 0 1).
Definition rotateY (a : R) : GLM.mat4 :=
  GLM.mk_mat4 (GLM.mk_vec4 (cos a) 0 (- sin a) 0) (GLM.mk_vec4 0 1 0 0)
              (GLM.mk_vec4 (sin a) 0 (cos a) 0) (GLM.mk_vec4 0 0 0 1).
Definition rotateZ (a : R) : GLM.mat4 :=
  GLM.mk_mat4 (GLM.mk_vec4 (cos a) (sin a) 0 0) (GLM.mk_vec4 (- sin a) (cos a) 0 0)
              (GLM.mk_vec4 0 0 1 0) (GLM.mk_vec4 0 0 0 1).

(** Degrees to radians. *)
Definition rad (degrees : R) : R := degrees * PI / 180.

End TransformSpec.

(** The texture registry, as the design document speaks of it. *)
Module Registry.

(** The array has its declared length and the counter points into it. *)
Definition wf (s : SceneManager.state) : Prop :=
  length (SceneManager.m_textureIDs s) = SceneManager.TEXTURE_CAPACITY /\
  (0 <= SceneManager.m_loadedTextures s <= Z.of_nat SceneManager.TEXTURE_CAPACITY)%Z.

(** The registered textures, in registration order. *)
Definition registered (s : SceneManager.state) : list SceneManager.TEXTURE_INFO :=
  take (Z.to_nat (SceneManager.m_loadedTextures s)) (SceneManager.m_textureIDs s).

(** The values of the type [GLuint], and the one among them that reads
    back as [-1] through the [int] return type of [FindTextureID]:
    [0xFFFFFFFF], which is also what the constructor stores in the unused
    entries. *)
Definition is_GLuint (h : Z) : Prop := (0 <= h < 2 ^ 32)%Z.
Definition all_ones : Z := (2 ^ 32 - 1)%Z.

(** Whether [CreateGLTexture] registers the decoded image. *)
Definition supported (image : option SceneManager.Image) : bool :=
  match image with
  | Some img => ((SceneManager.colorChannels img =? 3)
                 || (SceneManager.colorChannels img =? 4))%Z
  | None => false
  end.

(** One call of [CreateGLTexture]: what the decoder and the driver
    returned, and the tag. *)
Definition Call : Type := option SceneManager.Image * Z * string.

(** A sequence of [CreateGLTexture] calls, results discarded as in
    [LoadSceneTextures]. *)
Fixpoint loads (ls : list Call) : SceneManager.M unit :=
  match ls with
  | [] => SceneManager.ret tt
  | (image, textureID, t) :: rest =>
      SceneManager.bind (SceneManager.CreateGLTexture image textureID t)
                        (fun _ => loads rest)
  end.

(** How many calls of the sequence register a texture. *)
Definition successes (ls : list Call) : nat :=
  length (filter (fun l => supported (l.1.1) = true) ls).

(** The slot [SetShaderTexture] binds for the lookup result [r]. *)
Definition fallback (r : Z) : Z := if (r <? 0)%Z then 0%Z else r.

End Registry.

(** Reading the log of draw calls. *)
Module Trace.

(** The [model] uniform a mesh was drawn with. *)
Definition model_of (d : SceneManager.DrawCall) : option GLM.mat4 :=
  sh ← SceneManager.uniforms d;
  u ← (sh : Shader.ShaderManager) !! SceneManager.g_ModelName;
  match u with
  | Shader.UMat4 m => Some m
  | _ => None
  end.

(** Where the origin of the mesh is taken to: the last column of its model
    matrix. *)
Definition position_of (d : SceneManager.DrawCall) : option GLM.vec3 :=
  (fun m => GLM.vec3_of (GLM.col3 m)) <$> model_of d.

End Trace.

(** The candle stack of the design document: eight stages drawn bottom-up
    along a running vertical offset. *)
Module CandleStack.

(** What each stage adds to [currentY] when it is left, in source order:
    base, stem, sphere, upper stem, cup, rim, candle body, wick. *)
Definition advance : list R := [0.6; 1.0; 0.15; 0.8; 0; 1.0; 0; 0].

(** What each stage adds to [currentY] for its own position only. *)
Definition adjust : list R := [0; 0; 0; 0; 0.7; 0.7; -0.2; 1.8].

(** The running offset in front of each stage, starting from [cur]. *)
Fixpoint offsets (cur : R) (heights : list R) : list R :=
  match heights with
  | [] => []
  | h :: rest => cur :: offsets (cur + h) rest
  end.

(** The sum of the contributions, taken in source order from 0. *)
Definition total (heights : list R) : R := fold_left Rplus heights 0.

(** The height at which each stage is drawn. *)
Definition placed : list R := zip_with Rplus (offsets 0 advance) adjust.

(** A mesh placed above the candle holder's foot at height [y]. *)
Definition at_height (y : R) : option GLM.vec3 :=
  Some (GLM.vadd SceneManager.candleOffset (GLM.mk_vec3 0 y 0)).

(** The document's rule for heights [h], in its two readings: a stage sits
    at the offset accumulated before it plus its own contribution, or at
    the offset accumulated before it; in both the final offset is the sum. *)
Definition strict_accumulation (h : list R) (ys : list R) (final : R) : Prop :=
  length h = 8%nat /\ Forall (Rle 0) h /\ final = total h /\
  (ys = zip_with Rplus (offsets 0 h) h \/ ys = offsets 0 h).

End CandleStack.

(** The camera presets of the design document. *)
Module CameraSpec.

(** The perspective preset: position (0, 9, 18), front (0, -0.8, -3),
    up (0, 1, 0). *)
Definition perspective_preset {CameraPrivate : Type}
    (c : ViewManager.Camera CameraPrivate) : Prop :=
  ViewManager.Position c = GLM.mk_vec3 0 9 18 /\
  ViewManager.Front c = GLM.mk_vec3 0 (-0.8) (-3) /\
  ViewManager.Up c = GLM.mk_vec3 0 1 0.

(** What the orthographic key leaves in the camera. *)
Definition orthographic_preset {CameraPrivate : Type}
    (c : ViewManager.Camera CameraPrivate) : Prop :=
  ViewManager.Position c = GLM.mk_vec3 0 5 10 /\
  ViewManager.Front c = GLM.normalize (GLM.mk_vec3 0 (-0.3) (-1.0)) /\
  ViewManager.Up c = GLM.mk_vec3 0 1 0.

(** A run of scroll events, each with its two offsets. *)
Definition scrolls {CameraPrivate : Type} (offsets : list (R * R))
    (st : ViewManager.state CameraPrivate) : ViewManager.state CameraPrivate :=
  fold_left (fun st o => ViewManager.ScrollCallback CameraPrivate o.1 o.2 st) offsets st.

End CameraSpec.

(** A stand-in for the camera class, to run the controller on concrete
    input: a camera without further members whose movement methods leave
    it where it is. *)
Module CameraExample.

Definition camera : ViewManager.Camera unit :=
  ViewManager.mk_Camera (GLM.mk_vec3 0 0 0) (GLM.mk_vec3 0 0 (-1)) (GLM.mk_vec3 0 1 0) 45 2.5 tt.

Definition ProcessKeyboard (direction : ViewManager.Camera_Movement) (deltaTime : R)
    (c : ViewManager.Camera unit) : ViewManager.Camera unit := c.

Definition ProcessMouseMovement (xoffset yoffset : R)
    (c : ViewManager.Camera unit) : ViewManager.Camera unit := c.

Definition GetViewMatrix (c : ViewManager.Camera unit) : GLM.mat4 := GLM.identity.

(** The state after construction without a shader manager. *)
Definition initial : ViewManager.state unit := ViewManager.ViewManager unit camera None.

(** Key states: only [P] down, only [O] down, both down, [W] down. *)
Definition only_P (k : ViewManager.Key) : bool :=
  match k with ViewManager.GLFW_KEY_P => true | _ => false end.
Definition only_O (k : ViewManager.Key) : bool :=
  match k with ViewManager.GLFW_KEY_O => true | _ => false end.
Definition P_and_O (k : ViewManager.Key) : bool :=
  match k with ViewManager.GLFW_KEY_P | ViewManager.GLFW_KEY_O => true | _ => false end.
Definition only_W (k : ViewManager.Key) : bool :=
  match k with ViewManager.GLFW_KEY_W => true | _ => false end.

End CameraExample.

(** One keyboard poll with the perspective key down, written out. *)
Module ModeSwitch.

Section Poll.

Context {CameraPrivate : Type}.
Variable ProcessKeyboard :
  ViewManager.Camera_Movement -> R -> ViewManager.Camera CameraPrivate ->
  ViewManager.Camera CameraPrivate.




End Poll.


End ModeSwitch.

(** Modelled from the spec: the class [Camera] is declared in camera.h,
    which is not among the sources. The design document has mouse movement
    update the orientation by accumulating yaw and pitch; this camera holds
    the two angles as its further members and adds the offsets of a mouse
    movement to them. Its keyboard movement leaves it where it is. *)
Module CameraLook.

Record angles := mk_angles { Yaw : R; Pitch : R }.

Definition camera : ViewManager.Camera angles :=
  ViewManager.mk_Camera (GLM.mk_vec3 0 0 0) (GLM.mk_vec3 0 0 (-1)) (GLM.mk_vec3 0 1 0) 45 2.5
    (mk_angles (-90) 0).

Definition ProcessKeyboard (direction : ViewManager.Camera_Movement) (deltaTime : R)
    (c : ViewManager.Camera angles) : ViewManager.Camera angles := c.

Definition ProcessMouseMovement (xoffset yoffset : R)
    (c : ViewManager.Camera angles) : ViewManager.Camera angles :=
  ViewManager.mk_Camera (ViewManager.Position c) (ViewManager.Front c) (ViewManager.Up c)
    (ViewManager.Zoom c) (ViewManager.MovementSpeed c)
    (mk_angles (Yaw (ViewManager.private c) + xoffset)
               (Pitch (ViewManager.private c) + yoffset)).

Definition GetViewMatrix (c : ViewManager.Camera angles) : GLM.mat4 := GLM.identity.

(** The state after construction without a shader manager. *)
Definition initial : ViewManager.state angles := ViewManager.ViewManager angles camera None.

End CameraLook.

(** What one frame does to the object and to the shader program. *)
Module Frame.

(** The uniforms [RenderScene] writes. *)
Definition written : list string :=
  ["bUseLighting"; "model"; "bUseTexture"; "objectTexture"; "UVscale"; "objectColor";
   "material.diffuseColor"; "material.specularColor"; "material.shininess";
   "pointLights[0].position"; "pointLights[0].diffuse"; "pointLights[0].ambient";
   "pointLights[0].specular"; "pointLights[0].bActive"].

(** The shader program after a step agrees with the one before it on every
    uniform outside [written]; a missing shader manager stays missing. *)
Definition keeps (before after : option Shader.ShaderManager) : Prop :=
  match before, after with
  | None, None => True
  | Some sh, Some sh' => forall k : string, k ∉ written -> sh' !! k = sh !! k
  | _, _ => False
  end.

(** A method body that, on a well-formed registry, returns, leaves the
    registry and the material table alone, writes no uniform outside
    [written], and draws the meshes [ms] in this order. *)
Definition runs {A : Type} (ms : list SceneManager.Mesh) (c : SceneManager.M A) : Prop :=
  forall s : SceneManager.state,
    Registry.wf s ->
    exists (a : A) (s' : SceneManager.state),
      c s = SceneManager.Returned (a, s') /\
      SceneManager.m_textureIDs s' = SceneManager.m_textureIDs s /\
      SceneManager.m_loadedTextures s' = SceneManager.m_loadedTextures s /\
      SceneManager.m_objectMaterials s' = SceneManager.m_objectMaterials s /\
      keeps (SceneManager.m_pShaderManager s) (SceneManager.m_pShaderManager s') /\
      exists ds, SceneManager.m_basicMeshes s' = SceneManager.m_basicMeshes s ++ ds /\
                 SceneManager.mesh <$> ds = ms.

(** The meshes of one frame: table, candle holder and candle, flame and
    glow, tablecloth, open book with its pages and divider, pen, inkpot,
    paper, closed book. *)
Definition meshes : list SceneManager.Mesh :=
  [SceneManager.BoxMesh]
  ++ [SceneManager.TaperedCylinderMesh; SceneManager.CylinderMesh; SceneManager.SphereMesh;
      SceneManager.CylinderMesh; SceneManager.TaperedCylinderMesh; SceneManager.CylinderMesh;
      SceneManager.CylinderMesh; SceneManager.CylinderMesh]
  ++ [SceneManager.SphereMesh; SceneManager.SphereMesh]
  ++ [SceneManager.BoxMesh; SceneManager.BoxMesh]
  ++ replicate 25 SceneManager.BoxMesh
  ++ [SceneManager.BoxMesh; SceneManager.BoxMesh]
  ++ [SceneManager.TaperedCylinderMesh; SceneManager.ConeMesh]
  ++ [SceneManager.SphereMesh; SceneManager.CylinderMesh; SceneManager.CylinderMesh;
      SceneManager.BoxMesh]
  ++ [SceneManager.BoxMesh; SceneManager.BoxMesh; SceneManager.BoxMesh; SceneManager.BoxMesh].

End Frame.

(** The files of [LoadSceneTextures] with their tags, in loading order. *)
Module SceneFiles.

Definition files : list (string * string) :=
  [("textures/wood.jpg", "wood"); ("textures/metal.jpg", "metal");
   ("textures/candle.jpg", "candle"); ("textures/book.jpg", "book");
   ("textures/page.jpg", "page"); ("textures/pen.jpg", "pen");
   ("textures/inkpot.png", "inkpot"); ("textures/cloth.jpg", "cloth")].

(** The calls [LoadSceneTextures] makes, for a decoder and a driver. *)
Definition calls (stbi_load : string -> option SceneManager.Image)
    (glGenTextures : string -> Z) : list Registry.Call :=
  (fun ft : string * string => (stbi_load ft.1, glGenTextures ft.1, ft.2)) <$> files.

(** The entry a call registers, if it registers one. *)
Definition entry (c : Registry.Call) : option SceneManager.TEXTURE_INFO :=
  if Registry.supported c.1.1 then Some (SceneManager.mk_TEXTURE_INFO c.2 c.1.2) else None.

(** A decoder for which every file is an RGB image, one for which no file
    can be read, and a driver numbering the files by the length of their
    names. *)
Definition all_rgb (filename : string) : option SceneManager.Image :=
  Some (SceneManager.mk_Image 256 256 3).
Definition none_found (filename : string) : option SceneManager.Image := None.
Definition by_length (filename : string) : Z := Z.of_nat (String.length filename).

End SceneFiles.

(** Lookup in the list of registered textures: the first entry with the
    tag, counted from 0. *)
Module Lookup.

Definition first (l : list SceneManager.TEXTURE_INFO) (t : string)
  : option (nat * SceneManager.TEXTURE_INFO) :=
  list_find (fun e => SceneManager.tag e = t) l.

Definition slot (l : list SceneManager.TEXTURE_INFO) (t : string) : Z :=
  match first l t with
  | Some (i, _) => Z.of_nat i
  | None => (-1)%Z
  end.

Definition id (l : list SceneManager.TEXTURE_INFO) (t : string) : Z :=
  match first l t with
  | Some (_, e) => SceneManager.GLuint_to_int (SceneManager.ID e)
  | None => (-1)%Z
  end.

End Lookup.

(** The render loop, as far as the scene manager sees it: one
    [RenderScene] per clock reading. *)
Module Frames.

Fixpoint frames (clock : list R) : SceneManager.M unit :=
  match clock with
  | [] => SceneManager.ret tt
  | t :: rest => SceneManager.bind (SceneManager.RenderScene t) (fun _ => frames rest)
  end.

End Frames.

(** The page stack of the open book. *)
Module Pages.

(** The height at which layer [i] is drawn: the locals [yOffset] and
    [subtleWave] of the page loop, above the book. *)
Definition height (i : nat) : R :=
  GLM.y SceneManager.bookPosition
  + (-0.02 * SceneManager.bookScaleFactor
     + INR i * (SceneManager.pageThickness * 0.8)
     + 0.002 * sin (INR i * 0.5)).

End Pages.

(** Points of a mesh and where a model matrix takes them. *)
Module Points.

(** The world position of the mesh point [p] under the model matrix [M]. *)
Definition image (M : GLM.mat4) (p : GLM.vec3) : GLM.vec3 :=
  GLM.vec3_of (GLM.mul_vec M (GLM.vec4_of p 1)).

(** The point stretched along the axes. *)
Definition scaled (S p : GLM.vec3) : GLM.vec3 :=
  GLM.mk_vec3 (GLM.x S * GLM.x p) (GLM.y S * GLM.y p) (GLM.z S * GLM.z p).

(** Squared distance, of points and of the spatial parts of homogeneous
    vectors. *)
Definition dist2 (p q : GLM.vec3) : R := GLM.dot (GLM.vsub p q) (GLM.vsub p q).
Definition dist2_4 (u v : GLM.vec4) : R := dist2 (GLM.vec3_of u) (GLM.vec3_of v).

End Points.

(** Modelled from the spec: the meshes are not among the sources. The
    design document puts the centre of the tip half the tip's length, plus
    a clearance, beyond the end of the body, and [DrawBookSetup] reckons
    with half the length of the body from its centre ([length * 0.5f]) and
    half the length of the tip from its centre ([tipLen * 0.5f]), the
    length being the Z component of the scale: a part is taken to lie
    along its local Z axis, from -1/2 to 1/2. *)
Module PenSpec.




End PenSpec.

(** The shading state the meshes of a frame are drawn with. *)
Module Shading.

(** The uniforms written between one draw call of a frame and the next,
    once the table has been drawn. *)
Definition changing : list string :=
  ["model"; "bUseTexture"; "objectTexture"; "UVscale"; "objectColor";
   "pointLights[0].position"; "pointLights[0].diffuse"; "pointLights[0].ambient";
   "pointLights[0].specular"; "pointLights[0].bActive"].

(** [sh] has the values of [ref] under every other name. *)
Definition same (ref sh : Shader.ShaderManager) : Prop :=
  forall k : string, k ∉ changing -> sh !! k = ref !! k.

Definition drawn_with (ref : Shader.ShaderManager) (d : SceneManager.DrawCall) : Prop :=
  exists shd : Shader.ShaderManager, SceneManager.uniforms d = Some shd /\ same ref shd.

(** A method body that, with a shader manager attached, returns, leaves the
    registry alone, and both draws its meshes and ends with the shading
    state it was entered with. *)
Definition paints {A : Type} (c : SceneManager.M A) : Prop :=
  forall (ref : Shader.ShaderManager) (s : SceneManager.state) (sh : Shader.ShaderManager),
    Registry.wf s ->
    SceneManager.m_pShaderManager s = Some sh ->
    same ref sh ->
    exists (a : A) (s' : SceneManager.state) (sh' : Shader.ShaderManager),
      c s = SceneManager.Returned (a, s') /\
      SceneManager.m_textureIDs s' = SceneManager.m_textureIDs s /\
      SceneManager.m_loadedTextures s' = SceneManager.m_loadedTextures s /\
      SceneManager.m_pShaderManager s' = Some sh' /\
      same ref sh' /\
      exists ds, SceneManager.m_basicMeshes s' = SceneManager.m_basicMeshes s ++ ds /\
                 Forall (drawn_with ref) ds.

(** What [SetShaderMaterial] leaves in the three material uniforms for the
    entry [sel]. *)
Definition has_material (sel : SceneManager.OBJECT_MATERIAL.t) (sh : Shader.ShaderManager)
  : Prop :=
  sh !! "material.diffuseColor"
    = Some (Shader.UVec3 (SceneManager.OBJECT_MATERIAL.diffuseColor sel)) /\
  sh !! "material.specularColor"
    = Some (Shader.UVec3 (SceneManager.OBJECT_MATERIAL.specularColor sel)) /\
  sh !! "material.shininess"
    = Some (Shader.UFloat (SceneManager.OBJECT_MATERIAL.shininess sel)).

(** A colour the fragment shader can take as it is. *)
Definition unit_colour (v : GLM.vec3) : Prop :=
  0 <= GLM.x v <= 1 /\ 0 <= GLM.y v <= 1 /\ 0 <= GLM.z v <= 1.

End Shading.

(** The view manager seen from outside: mouse samples, frames, the
    uniforms it owns. *)
Module ViewSpec.

(** The offsets a run of cursor positions stands for: none for the first
    position, then the step from each position to the next, upwards
    counted positive. *)
Fixpoint offsets_from (lastX lastY : R) (samples : list (R * R)) : list (R * R) :=
  match samples with
  | [] => []
  | (x, y) :: rest => (x - lastX, lastY - y) :: offsets_from x y rest
  end.

Definition offsets (samples : list (R * R)) : list (R * R) :=
  match samples with
  | [] => []
  | (x, y) :: rest => (0, 0) :: offsets_from x y rest
  end.

(** The cursor callbacks for a run of positions. *)
Definition moves (samples : list (R * R)) : list ViewManager.Event :=
  (fun p : R * R => ViewManager.MouseMove p.1 p.2) <$> samples.

(** Some frame of the run was polled with the escape key down. *)
Definition escape_pressed (es : list ViewManager.Event) : bool :=
  existsb (fun e => match e with
                    | ViewManager.Frame _ keys => keys ViewManager.GLFW_KEY_ESCAPE
                    | _ => false
                    end) es.

(** The keys whose handling goes through the camera. *)
Definition camera_keys : list ViewManager.Key :=
  [ViewManager.GLFW_KEY_W; ViewManager.GLFW_KEY_S; ViewManager.GLFW_KEY_A;
   ViewManager.GLFW_KEY_D; ViewManager.GLFW_KEY_Q; ViewManager.GLFW_KEY_E;
   ViewManager.GLFW_KEY_P; ViewManager.GLFW_KEY_O].

(** A state in which [g_pCamera] is null, as before construction and
    after destruction. *)
Definition without_camera : ViewManager.state unit :=
  ViewManager.mk_state unit None false None 500 400 true 0 0 false.

(** The uniforms [PrepareSceneView] writes. *)
Definition written : list string := ["view"; "projection"; "viewPosition"].

(** The two projections, for the window of 1000 by 800. *)
Definition orthographic : GLM.mat4 := ViewManager.ortho (-6.25) 6.25 (-5) 5 0.1 500.
Definition perspective_at (zoom : R) : GLM.mat4 :=
  ViewManager.perspective (GLM.radians zoom) 1.25 0.1 100.

End ViewSpec.

(** Which texture a mesh is drawn with. *)
Module Texturing.

(** What a draw call shows of the texture selection: sampler [k] with
    texturing on, or the plain object colour with texturing off. *)
Inductive Look := textured (k : Z) | plain.

Definition look (d : SceneManager.DrawCall) : option Look :=
  sh ← SceneManager.uniforms d;
  use ← (sh : Shader.ShaderManager) !! "bUseTexture";
  match use with
  | Shader.UInt 0 => Some plain
  | Shader.UInt 1 =>
      sampler ← sh !! "objectTexture";
      match sampler with
      | Shader.USampler2D k => Some (textured k)
      | _ => None
      end
  | _ => None
  end.

(** The sampler [SetShaderTexture] selects for a tag on a registry. *)
Definition sampler_of (registry : list SceneManager.TEXTURE_INFO) (t : string) : Z :=
  Registry.fallback (Lookup.slot registry t).

(** A method body that, on a well-formed registry and with a shader
    manager, returns, leaves the registry alone and draws meshes that look
    as [expected] says, given the sampler of each tag. *)
Definition draws {A : Type} (expected : (string -> Z) -> list Look) (c : SceneManager.M A)
  : Prop :=
  forall (s : SceneManager.state) (sh : Shader.ShaderManager),
    Registry.wf s ->
    SceneManager.m_pShaderManager s = Some sh ->
    exists (a : A) (s' : SceneManager.state) (sh' : Shader.ShaderManager),
      c s = SceneManager.Returned (a, s') /\
      SceneManager.m_textureIDs s' = SceneManager.m_textureIDs s /\
      SceneManager.m_loadedTextures s' = SceneManager.m_loadedTextures s /\
      SceneManager.m_pShaderManager s' = Some sh' /\
      exists ds, SceneManager.m_basicMeshes s' = SceneManager.m_basicMeshes s ++ ds /\
                 look <$> ds = Some <$> expected (sampler_of (Registry.registered s)).

(** The looks of the 50 meshes of a frame, in drawing order. *)
Definition frame (sampler : string -> Z) : list Look :=
  [textured (sampler "wood")]
  ++ replicate 6 (textured (sampler "metal")) ++ [textured (sampler "candle"); plain]
  ++ [plain; plain]
  ++ [textured (sampler "cloth"); textured (sampler "book")]
  ++ replicate 25 (textured (sampler "page"))
  ++ [plain; plain]
  ++ [textured (sampler "pen"); plain]
  ++ [textured (sampler "inkpot"); textured (sampler "inkpot"); plain;
      textured (sampler "page")]
  ++ [textured (sampler "book"); textured (sampler "page"); textured (sampler "book");
      textured (sampler "book")].

(** The place of a tag in the loading order of [LoadSceneTextures]. *)
Definition loading_order (t : string) : Z :=
  match list_find (fun ft : string * string => ft.2 = t) SceneFiles.files with
  | Some (i, _) => Z.of_nat i
  | None => 0%Z
  end.

End Texturing.

(* ===================================================================== *)
(** ** Properties of the transform composer                               *)
(* ===================================================================== *)


Lemma vec3_eq (a b c a' b' c' : R) :
  a = a' -> b = b' -> c = c' -> GLM.mk_vec3 a b c = GLM.mk_vec3 a' b' c'.
Proof. intros -> -> ->. reflexivity. Qed.

Lemma vec4_eq (a b c d a' b' c' d' : R) :
  a = a' -> b = b' -> c = c' -> d = d' -> GLM.mk_vec4 a b c d = GLM.mk_vec4 a' b' c' d'.
Proof. intros -> -> -> ->. reflexivity. Qed.

Lemma mat4_eq (a b c d a' b' c' d' : GLM.vec4) :
  a = a' -> b = b' -> c = c' -> d = d' -> GLM.mk_mat4 a b c d = GLM.mk_mat4 a' b' c' d'.
Proof. intros -> -> -> ->. reflexivity. Qed.

(** Reduces an equation between vectors or matrices to the equations
    between their entries. *)
Ltac entrywise :=
  repeat first [ apply mat4_eq | apply vec4_eq | apply vec3_eq ].

Lemma inversesqrt_1 : GLM.inversesqrt 1 = 1.
Proof. unfold GLM.inversesqrt. rewrite sqrt_1. lra. Qed.

Lemma normalize_axis_x : GLM.normalize (GLM.mk_vec3 1 0 0) = GLM.mk_vec3 1 0 0.
Proof.
  unfold GLM.normalize, GLM.dot, GLM.vscale; cbn [GLM.x GLM.y GLM.z].
  replace (1 * 1 + 0 * 0 + 0 * 0) with 1 by ring. rewrite inversesqrt_1.
  entrywise; ring.
Qed.

Lemma normalize_axis_y : GLM.normalize (GLM.mk_vec3 0 1 0) = GLM.mk_vec3 0 1 0.
Proof.
  unfold GLM.normalize, GLM.dot, GLM.vscale; cbn [GLM.x GLM.y GLM.z].
  replace (0 * 0 + 1 * 1 + 0 * 0) with 1 by ring. rewrite inversesqrt_1.
  entrywise; ring.
Qed.

Lemma normalize_axis_z : GLM.normalize (GLM.mk_vec3 0 0 1) = GLM.mk_vec3 0 0 1.
Proof.
  unfold GLM.normalize, GLM.dot, GLM.vscale; cbn [GLM.x GLM.y GLM.z].
  replace (0 * 0 + 0 * 0 + 1 * 1) with 1 by ring. rewrite inversesqrt_1.
  entrywise; ring.
Qed.

Ltac glm_unfold :=
  unfold GLM.rotate, GLM.rotate_m, GLM.translate, GLM.translate_m, GLM.scale, GLM.scale_m,
    GLM.identity, GLM.mul, GLM.mul_vec, GLM.vadd4, GLM.vscale4, GLM.vscale, GLM.vadd,
    GLM.vec4_of, GLM.vec3_of;
  cbn [GLM.x GLM.y GLM.z GLM.x4 GLM.y4 GLM.z4 GLM.w4 GLM.col0 GLM.col1 GLM.col2 GLM.col3].

Lemma rotate_x_spec (a : R) :
  GLM.rotate a (GLM.mk_vec3 1 0 0) = TransformSpec.rotateX a.
Proof.
  unfold GLM.rotate, GLM.rotate_m. rewrite normalize_axis_x.
  unfold TransformSpec.rotateX. glm_unfold. entrywise; ring.
Qed.

Lemma rotate_y_spec (a : R) :
  GLM.rotate a (GLM.mk_vec3 0 1 0) = TransformSpec.rotateY a.
Proof.
  unfold GLM.rotate, GLM.rotate_m. rewrite normalize_axis_y.
  unfold TransformSpec.rotateY. glm_unfold. entrywise; ring.
Qed.

Lemma rotate_z_spec (a : R) :
  GLM.rotate a (GLM.mk_vec3 0 0 1) = TransformSpec.rotateZ a.
Proof.
  unfold GLM.rotate, GLM.rotate_m. rewrite normalize_axis_z.
  unfold TransformSpec.rotateZ. glm_unfold. entrywise; ring.
Qed.

Lemma translate_spec (T : GLM.vec3) : GLM.translate T = TransformSpec.translate T.
Proof. unfold TransformSpec.translate. glm_unfold. entrywise; ring. Qed.

Lemma scale_spec (S : GLM.vec3) : GLM.scale S = TransformSpec.scale S.
Proof. unfold TransformSpec.scale. glm_unfold. entrywise; ring. Qed.

Lemma radians_spec (d : R) : GLM.radians d = TransformSpec.rad d.
Proof. unfold GLM.radians, TransformSpec.rad. field. Qed.

(** Matrix-vector multiplication is linear in the vector. *)
Lemma mul_vec_vadd4 (A : GLM.mat4) (u v : GLM.vec4) :
  GLM.mul_vec A (GLM.vadd4 u v) = GLM.vadd4 (GLM.mul_vec A u) (GLM.mul_vec A v).
Proof. destruct A as [[] [] [] []], u, v. glm_unfold. entrywise; ring. Qed.

Lemma mul_vec_vscale4 (A : GLM.mat4) (u : GLM.vec4) (k : R) :
  GLM.mul_vec A (GLM.vscale4 u k) = GLM.vscale4 (GLM.mul_vec A u) k.
Proof. destruct A as [[] [] [] []], u. glm_unfold. entrywise; ring. Qed.

(** Applying a product is applying the factors from the right. *)
Lemma mul_vec_mul (A B : GLM.mat4) (v : GLM.vec4) :
  GLM.mul_vec (A *m B) v = GLM.mul_vec A (GLM.mul_vec B v).
Proof.
  replace (GLM.mul_vec B v) with
    (GLM.vadd4 (GLM.vadd4 (GLM.vadd4 (GLM.vscale4 (GLM.col0 B) (GLM.x4 v))
                                     (GLM.vscale4 (GLM.col1 B) (GLM.y4 v)))
                          (GLM.vscale4 (GLM.col2 B) (GLM.z4 v)))
               (GLM.vscale4 (GLM.col3 B) (GLM.w4 v))) by reflexivity.
  rewrite !mul_vec_vadd4, !mul_vec_vscale4. reflexivity.
Qed.

(** The matrix built by [SetTransformations] is the product of the
    document's five matrices, in the document's order. *)
Lemma modelView_spec (S : GLM.vec3) (rx ry rz : R) (T : GLM.vec3) :
  SceneManager.modelView S rx ry rz T =
  TransformSpec.translate T *m TransformSpec.rotateZ (TransformSpec.rad rz)
    *m TransformSpec.rotateY (TransformSpec.rad ry)
    *m TransformSpec.rotateX (TransformSpec.rad rx) *m TransformSpec.scale S.
Proof.
  unfold SceneManager.modelView.
  rewrite rotate_x_spec, rotate_y_spec, rotate_z_spec, translate_spec, scale_spec.
  rewrite !radians_spec. reflexivity.
Qed.

(** A matrix applied to the fourth unit vector is its last column. *)
Lemma mul_vec_e3 (A : GLM.mat4) : GLM.mul_vec A (GLM.mk_vec4 0 0 0 1) = GLM.col3 A.
Proof. destruct A as [[] [] [] []]. glm_unfold. entrywise; ring. Qed.

Lemma col3_mul_affine (A B : GLM.mat4) :
  GLM.col3 B = GLM.mk_vec4 0 0 0 1 -> GLM.col3 (A *m B) = GLM.col3 A.
Proof.
  intros HB. unfold GLM.mul; cbn [GLM.col3]. rewrite HB. apply mul_vec_e3.
Qed.

(** The last column of the model matrix is the translation. *)
Lemma modelView_col3 (S : GLM.vec3) (rx ry rz : R) (T : GLM.vec3) :
  GLM.col3 (SceneManager.modelView S rx ry rz T) = GLM.vec4_of T 1.
Proof.
  rewrite modelView_spec.
  rewrite !col3_mul_affine by reflexivity. reflexivity.
Qed.

(** C1. With a shader manager attached, [SetTransformations] returns, and
    the uniform [model] then holds exactly
    [translate(T) * rotateZ(rz) * rotateY(ry) * rotateX(rx) * scale(S)],
    the rotations being built from the angles converted from degrees to
    radians; a point is therefore scaled, turned about X, then Y, then Z,
    and translated last. No other uniform and no other member changes. *)
Theorem SetTransformations_model_matrix
    (S : GLM.vec3) (rx ry rz : R) (T : GLM.vec3)
    (s : SceneManager.state) (sh : Shader.ShaderManager) :
  SceneManager.m_pShaderManager s = Some sh ->
  let M := TransformSpec.translate T *m TransformSpec.rotateZ (rz * PI / 180)
             *m TransformSpec.rotateY (ry * PI / 180)
             *m TransformSpec.rotateX (rx * PI / 180) *m TransformSpec.scale S in
  SceneManager.SetTransformations S rx ry rz T s =
    SceneManager.Returned
      (tt, SceneManager.set_shader (Some (<["model" := Shader.UMat4 M]> sh)) s)
  /\ (<["model" := Shader.UMat4 M]> sh) !! "model" = Some (Shader.UMat4 M)
  /\ (forall k : string, k <> "model" -> (<["model" := Shader.UMat4 M]> sh) !! k = sh !! k)
  /\ (forall p : GLM.vec3,
        GLM.mul_vec M (GLM.vec4_of p 1) =
        GLM.mul_vec (TransformSpec.translate T)
          (GLM.mul_vec (TransformSpec.rotateZ (rz * PI / 180))
             (GLM.mul_vec (TransformSpec.rotateY (ry * PI / 180))
                (GLM.mul_vec (TransformSpec.rotateX (rx * PI / 180))
                   (GLM.mul_vec (TransformSpec.scale S) (GLM.vec4_of p 1)))))).
Proof.
  intros Hsh M. repeat split.
  - unfold SceneManager.SetTransformations, SceneManager.withShader.
    rewrite Hsh, modelView_spec. reflexivity.
  - apply lookup_insert_eq.
  - intros k Hk. apply lookup_insert_ne. congruence.
  - intros p. unfold M. rewrite !mul_vec_mul. reflexivity.
Qed.

(** The statement above at a concrete transform: a non-uniform scale turned
    30, 45 and 60 degrees and moved to (1, 2, 3). *)
Lemma SetTransformations_model_matrix_witness :
  let s := SceneManager.SceneManager (Some ∅) in
  SceneManager.m_pShaderManager s = Some ∅ /\
  exists M,
    SceneManager.SetTransformations (GLM.mk_vec3 2 3 4) 30 45 60 (GLM.mk_vec3 1 2 3) s =
      SceneManager.Returned
        (tt, SceneManager.set_shader (Some (<["model" := Shader.UMat4 M]> ∅)) s).
Proof.
  intros s. split; [reflexivity|].
  eexists.
  exact (proj1 (SetTransformations_model_matrix (GLM.mk_vec3 2 3 4) 30 45 60
                  (GLM.mk_vec3 1 2 3) s ∅ eq_refl)).
Defined.

(** *** The factors of the model matrix, applied to a point *)

Lemma vec3_of_vec4_of (v : GLM.vec3) (w : R) : GLM.vec3_of (GLM.vec4_of v w) = v.
Proof. destruct v. reflexivity. Qed.

Lemma scale_image (S p : GLM.vec3) :
  GLM.mul_vec (TransformSpec.scale S) (GLM.vec4_of p 1) = GLM.vec4_of (Points.scaled S p) 1.
Proof.
  destruct S, p. unfold TransformSpec.scale, Points.scaled. glm_unfold. entrywise; ring.
Qed.

Lemma rad_0 : TransformSpec.rad 0 = 0.
Proof. unfold TransformSpec.rad. lra. Qed.

Lemma rad_180 : TransformSpec.rad 180 = PI.
Proof. unfold TransformSpec.rad. lra. Qed.

Lemma rotateX_0 : TransformSpec.rotateX 0 = GLM.identity.
Proof. unfold TransformSpec.rotateX, GLM.identity. rewrite cos_0, sin_0. entrywise; ring. Qed.

Lemma rotateY_0 : TransformSpec.rotateY 0 = GLM.identity.
Proof. unfold TransformSpec.rotateY, GLM.identity. rewrite cos_0, sin_0. entrywise; ring. Qed.

Lemma rotateZ_0 : TransformSpec.rotateZ 0 = GLM.identity.
Proof. unfold TransformSpec.rotateZ, GLM.identity. rewrite cos_0, sin_0. entrywise; ring. Qed.

Lemma mul_vec_identity (v : GLM.vec4) : GLM.mul_vec GLM.identity v = v.
Proof. destruct v. glm_unfold. entrywise; ring. Qed.

Lemma translate_image (T p : GLM.vec3) :
  GLM.mul_vec (TransformSpec.translate T) (GLM.vec4_of p 1) = GLM.vec4_of (GLM.vadd T p) 1.
Proof. destruct T, p. unfold TransformSpec.translate. glm_unfold. entrywise; ring. Qed.

Lemma rotateY_image (a : R) (p : GLM.vec3) :
  GLM.mul_vec (TransformSpec.rotateY a) (GLM.vec4_of p 1)
  = GLM.vec4_of (GLM.mk_vec3 (cos a * GLM.x p + sin a * GLM.z p) (GLM.y p)
                             (- sin a * GLM.x p + cos a * GLM.z p)) 1.
Proof.
  destruct p. unfold TransformSpec.rotateY, GLM.mul_vec, GLM.vadd4, GLM.vscale4, GLM.vec4_of.
  cbn [GLM.x GLM.y GLM.z GLM.x4 GLM.y4 GLM.z4 GLM.w4 GLM.col0 GLM.col1 GLM.col2 GLM.col3].
  apply vec4_eq; ring.
Qed.


(* ===================================================================== *)
(** ** Properties of the texture registry                                 *)
(* ===================================================================== *)

(** Of all texture names exactly one reads back as [-1]. *)
Lemma GLuint_to_int_sentinel (h : Z) :
  Registry.is_GLuint h ->
  (SceneManager.GLuint_to_int h = (-1)%Z <-> h = Registry.all_ones).
Proof.
  unfold Registry.is_GLuint, Registry.all_ones, SceneManager.GLuint_to_int. intros Hh.
  destruct (Z.ltb_spec h (2 ^ 31)); lia.
Qed.

(** The constructor's marker for an unused entry reads back as [-1]. *)
Lemma unused_marker_is_sentinel :
  SceneManager.GLuint_to_int (SceneManager.to_GLuint (-1)) = (-1)%Z.
Proof. reflexivity. Qed.

(** Both lookup loops scan [arr[i .. i+n)] from the left and stop at the
    first entry carrying the tag. *)
Lemma Find_loops_spec (arr : list SceneManager.TEXTURE_INFO) (t : string) (n i : nat) :
  (i + n <= length arr)%nat ->
  (exists k e,
      (i <= k < i + n)%nat /\ arr !! k = Some e /\ SceneManager.tag e = t /\
      (forall j e', (i <= j < k)%nat -> arr !! j = Some e' -> SceneManager.tag e' <> t) /\
      SceneManager.FindTextureSlot_loop arr t n i = SceneManager.Returned (Z.of_nat k) /\
      SceneManager.FindTextureID_loop arr t n i =
        SceneManager.Returned (SceneManager.GLuint_to_int (SceneManager.ID e)))
  \/ ((forall j e', (i <= j < i + n)%nat -> arr !! j = Some e' -> SceneManager.tag e' <> t) /\
      SceneManager.FindTextureSlot_loop arr t n i = SceneManager.Returned (-1)%Z /\
      SceneManager.FindTextureID_loop arr t n i = SceneManager.Returned (-1)%Z).
Proof.
  revert i. induction n as [|n IH]; intros i Hlen.
  - right. split; [intros; lia | split; reflexivity].
  - destruct (lookup_lt_is_Some_2 arr i ltac:(lia)) as [e He].
    cbn [SceneManager.FindTextureSlot_loop SceneManager.FindTextureID_loop].
    rewrite He. destruct (String.eqb_spec (SceneManager.tag e) t) as [Heq|Hne].
    + left. exists i, e. repeat split; try lia; try assumption.
    + destruct (IH (S i) ltac:(lia)) as
        [(k & e1 & Hk & Hek & Htag & Hfirst & Hslot & Hid) | (Hnone & Hslot & Hid)].
      * left. exists k, e1. repeat split; try lia; try assumption.
        intros j e' Hj Hj'. destruct (decide (j = i)) as [->|Hji].
        -- congruence.
        -- apply (Hfirst j e'); [lia | assumption].
      * right. repeat split; try assumption.
        intros j e' Hj Hj'. destruct (decide (j = i)) as [->|Hji].
        -- congruence.
        -- apply (Hnone j e'); [lia | assumption].
Qed.

Lemma registered_lookup (s : SceneManager.state) (j : nat) (e : SceneManager.TEXTURE_INFO) :
  Registry.registered s !! j = Some e <->
  (j < Z.to_nat (SceneManager.m_loadedTextures s))%nat /\
  SceneManager.m_textureIDs s !! j = Some e.
Proof.
  unfold Registry.registered. rewrite lookup_take_Some. tauto.
Qed.

(** On a well-formed registry the two lookups return, leave the object
    unchanged, and agree on the entry found. *)
Lemma Find_spec (s : SceneManager.state) (t : string) :
  Registry.wf s ->
  (exists k e,
      Registry.registered s !! k = Some e /\ SceneManager.tag e = t /\
      (forall j e', (j < k)%nat -> Registry.registered s !! j = Some e' ->
                    SceneManager.tag e' <> t) /\
      SceneManager.FindTextureSlot t s = SceneManager.Returned (Z.of_nat k, s) /\
      SceneManager.FindTextureID t s =
        SceneManager.Returned (SceneManager.GLuint_to_int (SceneManager.ID e), s))
  \/ ((forall j e', Registry.registered s !! j = Some e' -> SceneManager.tag e' <> t) /\
      SceneManager.FindTextureSlot t s = SceneManager.Returned ((-1)%Z, s) /\
      SceneManager.FindTextureID t s = SceneManager.Returned ((-1)%Z, s)).
Proof.
  intros [Hlen Hcnt]. unfold SceneManager.TEXTURE_CAPACITY in *.
  unfold SceneManager.FindTextureSlot, SceneManager.FindTextureID.
  destruct (Find_loops_spec (SceneManager.m_textureIDs s) t
              (Z.to_nat (SceneManager.m_loadedTextures s)) 0 ltac:(lia))
    as [(k & e & Hk & Hek & Htag & Hfirst & -> & ->) | (Hnone & -> & ->)].
  - left. exists k, e. repeat split; try assumption.
    + apply registered_lookup. split; [lia | assumption].
    + intros j e' Hj Hj'. apply registered_lookup in Hj' as [_ Hj'].
      apply (Hfirst j e'); [lia | assumption].
  - right. repeat split.
    intros j e' Hj. apply registered_lookup in Hj as [Hlt Hj].
    apply (Hnone j e'); [lia | assumption].
Qed.

Lemma wf_constructor (pShaderManager : option Shader.ShaderManager) :
  Registry.wf (SceneManager.SceneManager pShaderManager).
Proof. split; [reflexivity | cbn; lia]. Qed.

Lemma wf_set_shader (sh : option Shader.ShaderManager) (s : SceneManager.state) :
  Registry.wf (SceneManager.set_shader sh s) <-> Registry.wf s.
Proof. reflexivity. Qed.

(** A call that registers nothing returns [false] and changes nothing. *)
Lemma CreateGLTexture_unsupported image textureID t s :
  Registry.supported image = false ->
  SceneManager.CreateGLTexture image textureID t s = SceneManager.Returned (false, s).
Proof.
  unfold Registry.supported, SceneManager.CreateGLTexture.
  destruct image as [img|]; [|reflexivity]. intros ->. reflexivity.
Qed.

(** A call that registers a texture writes entry [m_loadedTextures], when
    there is such an entry. *)
Lemma CreateGLTexture_registers image textureID t s :
  Registry.supported image = true ->
  (0 <= SceneManager.m_loadedTextures s
     < Z.of_nat (length (SceneManager.m_textureIDs s)))%Z ->
  SceneManager.CreateGLTexture image textureID t s =
  SceneManager.Returned
    (true,
     SceneManager.set_textures
       (<[Z.to_nat (SceneManager.m_loadedTextures s) :=
            SceneManager.mk_TEXTURE_INFO t textureID]> (SceneManager.m_textureIDs s))
       (SceneManager.m_loadedTextures s + 1)%Z s).
Proof.
  unfold Registry.supported, SceneManager.CreateGLTexture.
  destruct image as [img|]; [|discriminate]. intros -> Hin.
  destruct (decide _) as [_|Hout]; [reflexivity | contradiction].
Qed.

(** With the counter at or past the end of the array the write has no
    defined result. *)
Lemma CreateGLTexture_past_the_end image textureID t s :
  Registry.supported image = true ->
  (Z.of_nat (length (SceneManager.m_textureIDs s)) <= SceneManager.m_loadedTextures s)%Z ->
  SceneManager.CreateGLTexture image textureID t s = SceneManager.OutOfBounds.
Proof.
  unfold Registry.supported, SceneManager.CreateGLTexture.
  destruct image as [img|]; [|discriminate]. intros -> Hout.
  destruct (decide _) as [Hin|_]; [lia | reflexivity].
Qed.

(** Registration appends to the registered entries and keeps the registry
    well formed. *)
Lemma registered_after_write (s : SceneManager.state) (e : SceneManager.TEXTURE_INFO) :
  (0 <= SceneManager.m_loadedTextures s
     < Z.of_nat (length (SceneManager.m_textureIDs s)))%Z ->
  Registry.registered
    (SceneManager.set_textures
       (<[Z.to_nat (SceneManager.m_loadedTextures s) := e]> (SceneManager.m_textureIDs s))
       (SceneManager.m_loadedTextures s + 1)%Z s)
  = Registry.registered s ++ [e].
Proof.
  intros Hin. unfold Registry.registered.
  cbn [SceneManager.set_textures SceneManager.m_textureIDs SceneManager.m_loadedTextures].
  replace (Z.to_nat (SceneManager.m_loadedTextures s + 1))
    with (S (Z.to_nat (SceneManager.m_loadedTextures s))) by lia.
  rewrite (take_S_r _ _ e) by (apply list_lookup_insert_eq; lia).
  rewrite take_insert_ge by lia. reflexivity.
Qed.

Lemma wf_after_write (s : SceneManager.state) (e : SceneManager.TEXTURE_INFO) :
  Registry.wf s ->
  (SceneManager.m_loadedTextures s < Z.of_nat SceneManager.TEXTURE_CAPACITY)%Z ->
  Registry.wf
    (SceneManager.set_textures
       (<[Z.to_nat (SceneManager.m_loadedTextures s) := e]> (SceneManager.m_textureIDs s))
       (SceneManager.m_loadedTextures s + 1)%Z s).
Proof.
  intros [Hlen Hcnt] Hlt. split.
  - cbn [SceneManager.set_textures SceneManager.m_textureIDs]. rewrite length_insert.
    exact Hlen.
  - cbn [SceneManager.set_textures SceneManager.m_loadedTextures]. lia.
Qed.

(** A run of [CreateGLTexture] calls from a well-formed registry: it stays
    inside the array exactly when the registering calls fit into what is
    left of it. *)
Lemma loads_spec (ls : list Registry.Call) :
  forall s : SceneManager.state,
    Registry.wf s ->
    ((SceneManager.m_loadedTextures s + Z.of_nat (Registry.successes ls)
        <= Z.of_nat SceneManager.TEXTURE_CAPACITY)%Z ->
     exists s', Registry.loads ls s = SceneManager.Returned (tt, s') /\
                Registry.wf s' /\
                SceneManager.m_loadedTextures s' =
                  (SceneManager.m_loadedTextures s + Z.of_nat (Registry.successes ls))%Z)
    /\ ((Z.of_nat SceneManager.TEXTURE_CAPACITY
           < SceneManager.m_loadedTextures s + Z.of_nat (Registry.successes ls))%Z ->
        Registry.loads ls s = SceneManager.OutOfBounds).
Proof.
  induction ls as [|l ls IH]; intros s Hwf.
  - split.
    + intros _. exists s. repeat split; try apply Hwf.
      unfold Registry.successes. cbn. lia.
    + destruct Hwf as [_ Hcnt]. unfold Registry.successes. cbn. lia.
  - assert (Hsucc : Registry.successes (l :: ls)
                    = if Registry.supported l.1.1 then S (Registry.successes ls)
                      else Registry.successes ls).
    { unfold Registry.successes. destruct (Registry.supported l.1.1) eqn:E.
      - rewrite filter_cons_True by exact E. reflexivity.
      - rewrite filter_cons_False by (rewrite E; discriminate). reflexivity. }
    rewrite Hsucc. clear Hsucc. destruct l as [[image textureID] t].
    cbn [fst Registry.loads]. unfold SceneManager.bind.
    destruct (Registry.supported image) eqn:Hsup.
    + pose proof Hwf as [Hlen Hcnt].
      destruct (Z_lt_le_dec (SceneManager.m_loadedTextures s)
                  (Z.of_nat SceneManager.TEXTURE_CAPACITY)) as [Hlt|Hge].
      * rewrite CreateGLTexture_registers by (try assumption; rewrite Hlen; lia).
        set (s1 := SceneManager.set_textures _ _ s).
        assert (Hwf1 : Registry.wf s1) by (apply wf_after_write; assumption).
        destruct (IH s1 Hwf1) as [Hin Hout].
        assert (Hn1 : SceneManager.m_loadedTextures s1
                      = (SceneManager.m_loadedTextures s + 1)%Z) by reflexivity.
        split.
        -- intros Hfit. destruct Hin as (s' & Hrun & Hwf' & Hcnt'); [lia|].
           exists s'. repeat split; try assumption; try apply Hwf'. lia.
        -- intros Hover. apply Hout. lia.
      * rewrite CreateGLTexture_past_the_end by (try assumption; rewrite Hlen; lia).
        split; [intros Hfit; lia | reflexivity].
    + rewrite CreateGLTexture_unsupported by assumption.
      apply IH, Hwf.
Qed.

(** C10. [CreateGLTexture] does not compare [m_loadedTextures] with the
    length of [m_textureIDs]: a registering call writes entry
    [m_loadedTextures] when that is one of the 16 entries and runs past the
    array otherwise. From a fresh object a sequence of calls stays in
    bounds when at most 16 of them register a texture, and the counter then
    is their number; with a 17th registering call the write is past the
    end. *)
Theorem CreateGLTexture_no_capacity_check :
  (forall image textureID t s,
      Registry.supported image = true ->
      length (SceneManager.m_textureIDs s) = 16%nat ->
      SceneManager.CreateGLTexture image textureID t s =
      if decide (0 <= SceneManager.m_loadedTextures s < 16)%Z
      then SceneManager.Returned
             (true,
              SceneManager.set_textures
                (<[Z.to_nat (SceneManager.m_loadedTextures s) :=
                     SceneManager.mk_TEXTURE_INFO t textureID]> (SceneManager.m_textureIDs s))
                (SceneManager.m_loadedTextures s + 1)%Z s)
      else SceneManager.OutOfBounds)
  /\ (forall pShaderManager ls,
         (Registry.successes ls <= 16)%nat ->
         exists s', Registry.loads ls (SceneManager.SceneManager pShaderManager)
                    = SceneManager.Returned (tt, s') /\
                    SceneManager.m_loadedTextures s' = Z.of_nat (Registry.successes ls) /\
                    length (SceneManager.m_textureIDs s') = 16%nat)
  /\ (forall pShaderManager ls,
         (16 < Registry.successes ls)%nat ->
         Registry.loads ls (SceneManager.SceneManager pShaderManager)
         = SceneManager.OutOfBounds).
Proof.
  split; [|split].
  - intros image textureID t s Hsup Hlen.
    destruct image as [img|]; [|discriminate].
    cbn [Registry.supported] in Hsup. unfold SceneManager.CreateGLTexture.
    rewrite Hsup, Hlen. reflexivity.
  - intros ps ls Hfit.
    destruct (loads_spec ls _ (wf_constructor ps)) as [Hin _].
    destruct Hin as (s' & Hrun & [Hlen _] & Hcnt).
    { cbn. unfold SceneManager.TEXTURE_CAPACITY. lia. }
    exists s'. repeat split; [exact Hrun | cbn in Hcnt; lia | exact Hlen].
  - intros ps ls Hover.
    destruct (loads_spec ls _ (wf_constructor ps)) as [_ Hout].
    apply Hout. cbn. unfold SceneManager.TEXTURE_CAPACITY. lia.
Qed.

(** Seventeen RGB files loaded into a fresh object. *)
Lemma CreateGLTexture_no_capacity_check_witness :
  let ls := replicate 17 (Some (SceneManager.mk_Image 64 64 3), 7%Z, "wood") in
  (16 < Registry.successes ls)%nat /\
  Registry.loads ls (SceneManager.SceneManager None) = SceneManager.OutOfBounds.
Proof.
  intros ls.
  assert (H : (16 < Registry.successes ls)%nat) by (vm_compute; lia).
  split; [exact H|].
  exact (proj2 (proj2 CreateGLTexture_no_capacity_check) None ls H).
Defined.

Lemma FindTextureSlot_set_shader sh s t :
  SceneManager.FindTextureSlot t (SceneManager.set_shader sh s) =
  match SceneManager.FindTextureSlot t s with
  | SceneManager.Returned (r, _) => SceneManager.Returned (r, SceneManager.set_shader sh s)
  | SceneManager.OutOfBounds => SceneManager.OutOfBounds
  end.
Proof.
  unfold SceneManager.FindTextureSlot.
  cbn [SceneManager.set_shader SceneManager.m_textureIDs SceneManager.m_loadedTextures].
  destruct (SceneManager.FindTextureSlot_loop _ _ _ _); reflexivity.
Qed.

(** [SetShaderTexture] with a shader manager attached: the sampler is set
    to the slot found, or to slot 0 when the lookup returned [-1]. *)
Lemma SetShaderTexture_run s t sh slot :
  SceneManager.m_pShaderManager s = Some sh ->
  SceneManager.FindTextureSlot t s = SceneManager.Returned (slot, s) ->
  SceneManager.SetShaderTexture t s =
  SceneManager.Returned
    (tt, SceneManager.set_shader
           (Some (Shader.setSampler2DValue SceneManager.g_TextureValueName
                    (Registry.fallback slot)
                    (Shader.setIntValue SceneManager.g_UseTextureName true sh))) s).
Proof.
  intros Hsh Hfind. unfold SceneManager.SetShaderTexture. rewrite Hsh.
  unfold SceneManager.bind at 1. unfold SceneManager.withShader at 1. rewrite Hsh.
  unfold SceneManager.bind. rewrite FindTextureSlot_set_shader, Hfind.
  reflexivity.
Qed.

(** Without a shader manager [SetShaderTexture] does nothing. *)
Lemma SetShaderTexture_null s t :
  SceneManager.m_pShaderManager s = None ->
  SceneManager.SetShaderTexture t s = SceneManager.Returned (tt, s).
Proof. intros Hsh. unfold SceneManager.SetShaderTexture. rewrite Hsh. reflexivity. Qed.

(** C8, as the code has it. On a registry within its capacity
    [FindTextureSlot] and [FindTextureID] return for every tag and change
    nothing. Either some registered entry carries the tag: then both answer
    for the first such entry, with its index and with its texture name read
    as an [int]; the index is never [-1], and the name reads as [-1] for
    the texture name [0xFFFFFFFF] and for no other. Or none does: then both
    return [-1], which is no index (indices start at 0, so it is not slot
    0) and is what no texture name other than [0xFFFFFFFF] reads as. Slot 0
    for a tag that is not registered is chosen by [SetShaderTexture] alone,
    after the lookup has returned [-1]. *)
Theorem FindTexture_sentinel (s : SceneManager.state) (t : string) :
  Registry.wf s ->
  exists slot id : Z,
    SceneManager.FindTextureSlot t s = SceneManager.Returned (slot, s) /\
    SceneManager.FindTextureID t s = SceneManager.Returned (id, s) /\
    ((exists k e,
         Registry.registered s !! k = Some e /\ SceneManager.tag e = t /\
         (forall j e', (j < k)%nat -> Registry.registered s !! j = Some e' ->
                       SceneManager.tag e' <> t) /\
         slot = Z.of_nat k /\ id = SceneManager.GLuint_to_int (SceneManager.ID e) /\
         slot <> (-1)%Z /\
         (Registry.is_GLuint (SceneManager.ID e) ->
          (id = (-1)%Z <-> SceneManager.ID e = Registry.all_ones)))
     \/ ((forall j e', Registry.registered s !! j = Some e' -> SceneManager.tag e' <> t) /\
         slot = (-1)%Z /\ id = (-1)%Z /\ slot <> 0%Z /\
         (forall k : nat, slot <> Z.of_nat k) /\
         (forall h, Registry.is_GLuint h -> h <> Registry.all_ones ->
                    id <> SceneManager.GLuint_to_int h) /\
         Registry.fallback slot = 0%Z))
    /\ (forall sh, SceneManager.m_pShaderManager s = Some sh ->
          SceneManager.SetShaderTexture t s =
          SceneManager.Returned
            (tt, SceneManager.set_shader
                   (Some (<["objectTexture" := Shader.USampler2D (Registry.fallback slot)]>
                            (<["bUseTexture" := Shader.UInt 1]> sh))) s)).
Proof.
  intros Hwf.
  destruct (Find_spec s t Hwf)
    as [(k & e & Hk & Htag & Hfirst & Hslot & Hid) | (Hnone & Hslot & Hid)].
  - exists (Z.of_nat k), (SceneManager.GLuint_to_int (SceneManager.ID e)).
    split; [exact Hslot|]. split; [exact Hid|]. split.
    + left. exists k, e. repeat split; try assumption; try lia.
      * apply GLuint_to_int_sentinel. assumption.
      * apply GLuint_to_int_sentinel. assumption.
    + intros sh Hsh. apply (SetShaderTexture_run s t sh _ Hsh Hslot).
  - exists (-1)%Z, (-1)%Z.
    split; [exact Hslot|]. split; [exact Hid|]. split.
    + right. repeat split; try assumption; try lia.
      intros h Hh Hne Heq. apply Hne. apply (GLuint_to_int_sentinel h Hh). congruence.
    + intros sh Hsh. apply (SetShaderTexture_run s t sh _ Hsh Hslot).
Qed.

(** A registry holding "wood" (texture name 1) and "metal" (texture name 2),
    asked for a tag that was never loaded. *)
Lemma FindTexture_sentinel_witness :
  let arr := <[1%nat := SceneManager.mk_TEXTURE_INFO "metal" 2]>
               (<[0%nat := SceneManager.mk_TEXTURE_INFO "wood" 1]>
                  (SceneManager.m_textureIDs (SceneManager.SceneManager (Some ∅)))) in
  let s := SceneManager.set_textures arr 2 (SceneManager.SceneManager (Some ∅)) in
  Registry.wf s /\
  exists slot id : Z,
    SceneManager.FindTextureSlot "cloth" s = SceneManager.Returned (slot, s) /\
    SceneManager.FindTextureID "cloth" s = SceneManager.Returned (id, s).
Proof.
  intros arr s.
  assert (Hwf : Registry.wf s) by (split; [reflexivity | vm_compute; split; discriminate]).
  split; [exact Hwf|].
  destruct (FindTexture_sentinel s "cloth" Hwf) as (slot & id & Hslot & Hid & _).
  exists slot, id. split; assumption.
Defined.

(** C8, as stated, fails for [FindTextureID]: a texture that the driver
    named [0xFFFFFFFF] is registered and found, and the answer for its tag
    is the [-1] that is also the answer for a tag that was never loaded.
    [FindTextureSlot] tells the two tags apart. *)
Lemma FindTextureID_sentinel_is_a_texture_name :
  exists s : SceneManager.state,
    SceneManager.CreateGLTexture (Some (SceneManager.mk_Image 256 256 3)) 4294967295 "wood"
      (SceneManager.SceneManager None) = SceneManager.Returned (true, s) /\
    Registry.is_GLuint 4294967295 /\
    Registry.registered s = [SceneManager.mk_TEXTURE_INFO "wood" 4294967295] /\
    SceneManager.FindTextureID "wood" s = SceneManager.Returned ((-1)%Z, s) /\
    SceneManager.FindTextureID "cloth" s = SceneManager.Returned ((-1)%Z, s) /\
    SceneManager.FindTextureSlot "wood" s = SceneManager.Returned (0%Z, s) /\
    SceneManager.FindTextureSlot "cloth" s = SceneManager.Returned ((-1)%Z, s).
Proof.
  eexists. split; [reflexivity|].
  split; [unfold Registry.is_GLuint; lia|].
  repeat split; reflexivity.
Qed.

(** *** Two textures under one tag *)

Lemma CreateGLTexture_true_inv image textureID t s s1 :
  SceneManager.CreateGLTexture image textureID t s = SceneManager.Returned (true, s1) ->
  (0 <= SceneManager.m_loadedTextures s
     < Z.of_nat (length (SceneManager.m_textureIDs s)))%Z /\
  s1 = SceneManager.set_textures
         (<[Z.to_nat (SceneManager.m_loadedTextures s) :=
              SceneManager.mk_TEXTURE_INFO t textureID]> (SceneManager.m_textureIDs s))
         (SceneManager.m_loadedTextures s + 1)%Z s.
Proof.
  unfold SceneManager.CreateGLTexture. destruct image as [img|]; [|discriminate].
  destruct (_ || _)%bool; [|discriminate].
  destruct (decide _) as [Hin|]; [|discriminate].
  intros [= <-]. split; [exact Hin | reflexivity].
Qed.

Lemma registered_length (s : SceneManager.state) :
  Registry.wf s ->
  length (Registry.registered s) = Z.to_nat (SceneManager.m_loadedTextures s).
Proof.
  intros [Hlen Hcnt]. unfold Registry.registered. rewrite length_take. lia.
Qed.

(** C9, as the code has it. When two textures are registered one after the
    other under a tag that was not registered before, both entries are
    stored (nothing is merged or replaced), and [FindTextureID] and
    [FindTextureSlot] answer for the one registered first. *)
Theorem first_loaded_texture_wins
    (s s1 s2 : SceneManager.state) (image1 image2 : option SceneManager.Image)
    (id1 id2 : Z) (t : string) :
  Registry.wf s ->
  (forall j e, Registry.registered s !! j = Some e -> SceneManager.tag e <> t) ->
  SceneManager.CreateGLTexture image1 id1 t s = SceneManager.Returned (true, s1) ->
  SceneManager.CreateGLTexture image2 id2 t s1 = SceneManager.Returned (true, s2) ->
  Registry.registered s2 =
    Registry.registered s ++
      [SceneManager.mk_TEXTURE_INFO t id1; SceneManager.mk_TEXTURE_INFO t id2]
  /\ SceneManager.FindTextureID t s2
     = SceneManager.Returned (SceneManager.GLuint_to_int id1, s2)
  /\ SceneManager.FindTextureSlot t s2
     = SceneManager.Returned (SceneManager.m_loadedTextures s, s2).
Proof.
  intros Hwf Hfresh H1 H2.
  apply CreateGLTexture_true_inv in H1 as [Hin1 ->].
  apply CreateGLTexture_true_inv in H2 as [Hin2 ->].
  set (e1 := SceneManager.mk_TEXTURE_INFO t id1) in *.
  set (e2 := SceneManager.mk_TEXTURE_INFO t id2) in *.
  set (s1 := SceneManager.set_textures _ _ s) in *.
  set (s2 := SceneManager.set_textures _ _ s1).
  pose proof Hwf as [Hlen Hcnt].
  assert (Hwf1 : Registry.wf s1) by (apply wf_after_write; [assumption | lia]).
  assert (Hreg1 : Registry.registered s1 = Registry.registered s ++ [e1])
    by (apply registered_after_write; assumption).
  assert (Hcap1 : (SceneManager.m_loadedTextures s1
                   < Z.of_nat SceneManager.TEXTURE_CAPACITY)%Z).
  { destruct Hwf1 as [Hlen1 _]. rewrite <- Hlen1. lia. }
  assert (Hwf2 : Registry.wf s2) by (apply wf_after_write; assumption).
  assert (Hreg2 : Registry.registered s2 = Registry.registered s ++ [e1; e2]).
  { unfold s2. rewrite registered_after_write by assumption.
    rewrite Hreg1, <- app_assoc. reflexivity. }
  pose proof (registered_length s Hwf) as Hn.
  assert (Hat : Registry.registered s2 !! Z.to_nat (SceneManager.m_loadedTextures s)
                = Some e1).
  { rewrite Hreg2, lookup_app_r by lia. rewrite Hn, Nat.sub_diag. reflexivity. }
  split; [exact Hreg2|].
  destruct (Find_spec s2 t Hwf2)
    as [(k & e & Hk & Htag & Hfirst & Hslot & Hid) | (Hnone & _)].
  - assert (Hkn : k = Z.to_nat (SceneManager.m_loadedTextures s)).
    { destruct (Nat.lt_trichotomy k (Z.to_nat (SceneManager.m_loadedTextures s)))
        as [Hlt | [Heq | Hgt]]; [exfalso | exact Heq | exfalso].
      - rewrite Hreg2, lookup_app_l in Hk by lia. exact (Hfresh k e Hk Htag).
      - apply (Hfirst _ e1 Hgt Hat). reflexivity. }
    subst k. rewrite Hat in Hk. injection Hk as <-.
    rewrite Hslot, Hid. rewrite Z2Nat.id by lia. split; reflexivity.
  - exfalso. apply (Hnone _ e1 Hat). reflexivity.
Qed.

(** "wood" loaded twice into a fresh object, first as texture 1, then as
    texture 2. *)
Lemma first_loaded_texture_wins_witness :
  let s := SceneManager.SceneManager None in
  let rgb := Some (SceneManager.mk_Image 64 64 3) in
  exists s1 s2,
    SceneManager.CreateGLTexture rgb 1 "wood" s = SceneManager.Returned (true, s1) /\
    SceneManager.CreateGLTexture rgb 2 "wood" s1 = SceneManager.Returned (true, s2) /\
    SceneManager.FindTextureID "wood" s2 = SceneManager.Returned (1%Z, s2) /\
    SceneManager.FindTextureSlot "wood" s2 = SceneManager.Returned (0%Z, s2).
Proof.
  intros s rgb.
  pose (s1 := SceneManager.set_textures
                (<[0%nat := SceneManager.mk_TEXTURE_INFO "wood" 1]>
                   (SceneManager.m_textureIDs s)) 1 s).
  pose (s2 := SceneManager.set_textures
                (<[1%nat := SceneManager.mk_TEXTURE_INFO "wood" 2]>
                   (SceneManager.m_textureIDs s1)) 2 s1).
  exists s1, s2.
  assert (H1 : SceneManager.CreateGLTexture rgb 1 "wood" s = SceneManager.Returned (true, s1))
    by reflexivity.
  assert (H2 : SceneManager.CreateGLTexture rgb 2 "wood" s1 = SceneManager.Returned (true, s2))
    by reflexivity.
  split; [exact H1|]. split; [exact H2|].
  assert (Hfresh : forall j e, Registry.registered s !! j = Some e ->
                               SceneManager.tag e <> "wood").
  { intros j e He. apply registered_lookup in He as [Hj _]. cbn in Hj. lia. }
  exact (proj2 (first_loaded_texture_wins s s1 s2 rgb rgb 1 2 "wood"
                  (wf_constructor None) Hfresh H1 H2)).
Defined.

(** C9, as stated, fails: after "wood" is loaded as texture 1 and again as
    texture 2, the lookup answers 1 and slot 0, not the entry loaded last. *)
Lemma last_loaded_texture_does_not_win :
  ~ (forall (s s1 s2 : SceneManager.state) (image1 image2 : option SceneManager.Image)
            (id1 id2 : Z) (t : string),
        Registry.wf s ->
        SceneManager.CreateGLTexture image1 id1 t s = SceneManager.Returned (true, s1) ->
        SceneManager.CreateGLTexture image2 id2 t s1 = SceneManager.Returned (true, s2) ->
        SceneManager.FindTextureID t s2
          = SceneManager.Returned (SceneManager.GLuint_to_int id2, s2)
        /\ SceneManager.FindTextureSlot t s2
           = SceneManager.Returned ((SceneManager.m_loadedTextures s2 - 1)%Z, s2)).
Proof.
  intros Hclaim.
  pose (rgb := Some (SceneManager.mk_Image 64 64 3)).
  destruct (Hclaim (SceneManager.SceneManager None) _ _ rgb rgb 1%Z 2%Z "wood"
              (wf_constructor None) eq_refl eq_refl) as [Hid _].
  vm_compute in Hid. discriminate Hid.
Qed.

(* ===================================================================== *)
(** ** Running the drawing code                                           *)
(* ===================================================================== *)

(** One step of a method body on an object with a shader manager. *)
Lemma bind_withShader {B} (f : Shader.ShaderManager -> Shader.ShaderManager)
    (k : unit -> SceneManager.M B) sh arr n mats dr :
  SceneManager.bind (SceneManager.withShader f) k
    (SceneManager.mk_state (Some sh) arr n mats dr)
  = k tt (SceneManager.mk_state (Some (f sh)) arr n mats dr).
Proof. reflexivity. Qed.

Lemma bind_Draw {B} (m : SceneManager.Mesh) (k : unit -> SceneManager.M B) shd arr n mats dr :
  SceneManager.bind (SceneManager.Draw m) k (SceneManager.mk_state shd arr n mats dr)
  = k tt (SceneManager.mk_state shd arr n mats (dr ++ [SceneManager.mk_DrawCall m shd])).
Proof. reflexivity. Qed.

Lemma bind_SetShaderMaterial {B} (t : string) (k : unit -> SceneManager.M B) sh arr n mats dr :
  SceneManager.bind (SceneManager.SetShaderMaterial t) k
    (SceneManager.mk_state (Some sh) arr n mats dr)
  = k tt (SceneManager.mk_state
            (Some (Shader.setFloatValue "material.shininess"
                     (SceneManager.OBJECT_MATERIAL.shininess (SceneManager.selected mats t))
                     (Shader.setVec3Value "material.specularColor"
                        (SceneManager.OBJECT_MATERIAL.specularColor
                           (SceneManager.selected mats t))
                        (Shader.setVec3Value "material.diffuseColor"
                           (SceneManager.OBJECT_MATERIAL.diffuseColor
                              (SceneManager.selected mats t)) sh))))
            arr n mats dr).
Proof. reflexivity. Qed.

(** On a well-formed registry [SetShaderTexture] is a step like the others;
    the slot it binds depends on the registry and the tag only. *)
Lemma bind_SetShaderTexture (t : string) arr n :
  length arr = SceneManager.TEXTURE_CAPACITY ->
  (0 <= n <= Z.of_nat SceneManager.TEXTURE_CAPACITY)%Z ->
  exists slot : Z,
  forall B (k : unit -> SceneManager.M B) sh mats dr,
    SceneManager.bind (SceneManager.SetShaderTexture t) k
      (SceneManager.mk_state (Some sh) arr n mats dr)
    = k tt (SceneManager.mk_state
              (Some (Shader.setSampler2DValue SceneManager.g_TextureValueName slot
                       (Shader.setIntValue SceneManager.g_UseTextureName true sh)))
              arr n mats dr).
Proof.
  intros Hlen Hn.
  destruct (Find_loops_spec arr t (Z.to_nat n) 0 ltac:(unfold SceneManager.TEXTURE_CAPACITY in *; lia))
    as [(j & e & _ & _ & _ & _ & Hslot & _) | (_ & Hslot & _)].
  - exists (Registry.fallback (Z.of_nat j)). intros B k sh mats dr.
    unfold SceneManager.bind at 1.
    rewrite (SetShaderTexture_run (SceneManager.mk_state (Some sh) arr n mats dr) t sh
               (Z.of_nat j) eq_refl); [reflexivity|].
    unfold SceneManager.FindTextureSlot. cbn [SceneManager.m_textureIDs
      SceneManager.m_loadedTextures]. rewrite Hslot. reflexivity.
  - exists (Registry.fallback (-1)). intros B k sh mats dr.
    unfold SceneManager.bind at 1.
    rewrite (SetShaderTexture_run (SceneManager.mk_state (Some sh) arr n mats dr) t sh
               (-1)%Z eq_refl); [reflexivity|].
    unfold SceneManager.FindTextureSlot. cbn [SceneManager.m_textureIDs
      SceneManager.m_loadedTextures]. rewrite Hslot. reflexivity.
Qed.

(** Uniform writes under other names leave [model] as it is. *)
Lemma model_setIntValue n b (sh : Shader.ShaderManager) :
  n <> "model" -> Shader.setIntValue n b sh !! "model" = sh !! "model".
Proof. intros H. apply lookup_insert_ne. exact H. Qed.
Lemma model_setVec2Value n v (sh : Shader.ShaderManager) :
  n <> "model" -> Shader.setVec2Value n v sh !! "model" = sh !! "model".
Proof. intros H. apply lookup_insert_ne. exact H. Qed.
Lemma model_setVec4Value n v (sh : Shader.ShaderManager) :
  n <> "model" -> Shader.setVec4Value n v sh !! "model" = sh !! "model".
Proof. intros H. apply lookup_insert_ne. exact H. Qed.
Lemma model_setSampler2DValue n v (sh : Shader.ShaderManager) :
  n <> "model" -> Shader.setSampler2DValue n v sh !! "model" = sh !! "model".
Proof. intros H. apply lookup_insert_ne. exact H. Qed.
Lemma model_setMat4Value m (sh : Shader.ShaderManager) :
  Shader.setMat4Value "model" m sh !! "model" = Some (Shader.UMat4 m).
Proof. apply lookup_insert_eq. Qed.

(** A mesh drawn right after [SetTransformations], with only colour and
    texture set in between, sits at the translation given. *)
Ltac position_of_draw :=
  unfold Trace.position_of, Trace.model_of;
  cbn [SceneManager.uniforms mbind option_bind];
  unfold SceneManager.g_ModelName, SceneManager.g_UseTextureName,
    SceneManager.g_TextureValueName, SceneManager.g_ColorValueName;
  repeat first
    [ (rewrite model_setVec2Value by discriminate)
    | (rewrite model_setVec4Value by discriminate)
    | (rewrite model_setIntValue by discriminate)
    | (rewrite model_setSampler2DValue by discriminate) ];
  rewrite model_setMat4Value;
  cbn [mbind option_bind fmap option_fmap option_map];
  rewrite modelView_col3.

(** Steps through a method body. *)
Ltac run_steps Htex :=
  repeat (first
    [ rewrite bind_withShader
    | rewrite bind_Draw
    | rewrite bind_SetShaderMaterial
    | rewrite Htex ]; cbv beta).

(** The candle block, run on a well-formed object with a shader manager. *)
Lemma RenderScene_candle_run (s : SceneManager.state) (sh : Shader.ShaderManager) :
  Registry.wf s ->
  SceneManager.m_pShaderManager s = Some sh ->
  exists s' ds,
    SceneManager.RenderScene_candle s
      = SceneManager.Returned (0 + 0.6 + 1.0 + 0.15 + 0.8 + 1.0, s') /\
    Registry.wf s' /\
    is_Some (SceneManager.m_pShaderManager s') /\
    SceneManager.m_basicMeshes s' = SceneManager.m_basicMeshes s ++ ds /\
    SceneManager.mesh <$> ds =
      [SceneManager.TaperedCylinderMesh; SceneManager.CylinderMesh; SceneManager.SphereMesh;
       SceneManager.CylinderMesh; SceneManager.TaperedCylinderMesh; SceneManager.CylinderMesh;
       SceneManager.CylinderMesh; SceneManager.CylinderMesh] /\
    Trace.position_of <$> ds =
      CandleStack.at_height <$>
        [0; 0 + 0.6; 0 + 0.6 + 1.0; 0 + 0.6 + 1.0 + 0.15;
         0 + 0.6 + 1.0 + 0.15 + 0.8 + 0.7; 0 + 0.6 + 1.0 + 0.15 + 0.8 + 0.7;
         0 + 0.6 + 1.0 + 0.15 + 0.8 + 1.0 - 0.2; 0 + 0.6 + 1.0 + 0.15 + 0.8 + 1.0 + 1.8].
Proof.
  intros Hwf Hsh. destruct s as [shd arr n mats dr]. cbn in Hsh. subst shd.
  destruct Hwf as [Hlen Hn]. cbn in Hlen, Hn.
  destruct (bind_SetShaderTexture "metal" arr n Hlen Hn) as [slot_metal Hmetal].
  destruct (bind_SetShaderTexture "candle" arr n Hlen Hn) as [slot_candle Hcandle].
  unfold SceneManager.RenderScene_candle. cbv zeta.
  unfold SceneManager.SetTransformations, SceneManager.SetShaderColor,
    SceneManager.SetTextureUVScale.
  run_steps Hmetal. rewrite Hcandle. cbv beta. run_steps Hmetal.
  unfold SceneManager.ret.
  eexists. eexists. split; [reflexivity|].
  split; [split; [exact Hlen | exact Hn]|].
  split; [eexists; reflexivity|].
  cbn [SceneManager.m_basicMeshes]. rewrite <- !app_assoc. cbn [app].
  split; [reflexivity|].
  split; [reflexivity|].
  cbn [fmap list_fmap]. unfold CandleStack.at_height.
  repeat (apply (f_equal2 (@cons _));
          [position_of_draw; rewrite vec3_of_vec4_of; reflexivity|]).
  reflexivity.
Qed.

(* ===================================================================== *)
(** ** The candle stack                                                   *)
(* ===================================================================== *)

Lemma at_height_ext (y y' : R) : y = y' -> CandleStack.at_height y = CandleStack.at_height y'.
Proof. intros ->. reflexivity. Qed.

Lemma candle_total : CandleStack.total CandleStack.advance = 3.55.
Proof. unfold CandleStack.total, CandleStack.advance. cbn [fold_left]. lra. Qed.

(** C2, as the code has it. In a frame drawn on a well-formed object with
    a shader manager the candle block draws its eight stages in source
    order, each at the running offset [currentY] accumulated from the
    stages before it plus a literal of its own (0 for base, stem, sphere
    and upper stem, 0.7 for cup and rim, -0.2 for the candle body, 1.8 for
    the wick); [currentY] starts at 0 and is advanced after base, stem,
    sphere, upper stem and rim only (by 0.6, 1.0, 0.15, 0.8 and 1.0), and
    its value when the block is left is the sum of these advances in
    source order, 3.55. *)
Theorem candle_stack_placement (s : SceneManager.state) (sh : Shader.ShaderManager) :
  Registry.wf s ->
  SceneManager.m_pShaderManager s = Some sh ->
  exists s' ds,
    SceneManager.RenderScene_candle s
      = SceneManager.Returned (CandleStack.total CandleStack.advance, s') /\
    SceneManager.m_basicMeshes s' = SceneManager.m_basicMeshes s ++ ds /\
    length ds = 8%nat /\
    Trace.position_of <$> ds = CandleStack.at_height <$> CandleStack.placed /\
    CandleStack.placed = zip_with Rplus (CandleStack.offsets 0 CandleStack.advance)
                                        CandleStack.adjust /\
    CandleStack.total CandleStack.advance = 3.55.
Proof.
  intros Hwf Hsh.
  destruct (RenderScene_candle_run s sh Hwf Hsh)
    as (s' & ds & Hrun & _ & _ & Hlog & Hmesh & Hpos).
  exists s', ds. split; [|split; [exact Hlog|split; [|split; [|split]]]].
  - rewrite Hrun. do 2 f_equal.
    unfold CandleStack.total, CandleStack.advance. cbn [fold_left]. lra.
  - rewrite <- (length_fmap SceneManager.mesh), Hmesh. reflexivity.
  - rewrite Hpos. unfold CandleStack.placed, CandleStack.advance, CandleStack.adjust.
    cbn [CandleStack.offsets zip_with fmap list_fmap].
    repeat (apply (f_equal2 (@cons _)); [apply at_height_ext; lra|]). reflexivity.
  - reflexivity.
  - exact candle_total.
Qed.

(** The frame drawn right after construction, with an empty shader program
    and no textures loaded. *)
Lemma candle_stack_placement_witness :
  let s := SceneManager.SceneManager (Some ∅) in
  Registry.wf s /\ SceneManager.m_pShaderManager s = Some ∅ /\
  exists s' ds,
    SceneManager.RenderScene_candle s
      = SceneManager.Returned (CandleStack.total CandleStack.advance, s') /\
    SceneManager.m_basicMeshes s' = ds /\
    Trace.position_of <$> ds = CandleStack.at_height <$> CandleStack.placed.
Proof.
  intros s. split; [apply wf_constructor|]. split; [reflexivity|].
  destruct (candle_stack_placement s ∅ (wf_constructor _) eq_refl)
    as (s' & ds & Hrun & Hlog & _ & Hpos & _).
  exists s', ds. split; [exact Hrun|]. split; [exact Hlog | exact Hpos].
Defined.

(** C2, as stated, fails on the frame drawn right after construction: the
    stages are drawn at 0, 0.6, 1.6, 1.75, 3.25, 3.25, 3.35 and 5.35 and
    [currentY] ends at 3.55, and no eight non-negative height
    contributions give these positions as running sums (before or after
    adding the stage's own contribution) together with that final value. *)
Lemma candle_stack_not_strict_accumulation :
  let s := SceneManager.SceneManager (Some ∅) in
  exists (y : R) (s' : SceneManager.state) (ys : list R),
    SceneManager.RenderScene_candle s = SceneManager.Returned (y, s') /\
    Trace.position_of <$> SceneManager.m_basicMeshes s' = CandleStack.at_height <$> ys /\
    y = 3.55 /\
    Forall2 eq ys [0; 0.6; 1.6; 1.75; 3.25; 3.25; 3.35; 5.35] /\
    ~ exists h : list R, CandleStack.strict_accumulation h ys y.
Proof.
  intros s.
  destruct (RenderScene_candle_run s ∅ (wf_constructor _) eq_refl)
    as (s' & ds & Hrun & _ & _ & Hlog & _ & Hpos).
  change (SceneManager.m_basicMeshes s' = ds) in Hlog. subst ds.
  eexists _, s', _. split; [exact Hrun|]. split; [exact Hpos|].
  split; [lra|]. split.
  - repeat constructor; lra.
  - intros (h & Hlen & Hpos' & Hfinal & Hread).
    destruct h as [|h0 [|h1 [|h2 [|h3 [|h4 [|h5 [|h6 [|h7 [|? ?]]]]]]]]];
      try discriminate Hlen.
    unfold CandleStack.total in Hfinal. cbn [fold_left] in Hfinal.
    repeat match goal with
           | H : Forall _ (_ :: _) |- _ => apply Forall_cons_1 in H as [? H]
           end.
    destruct Hread as [Hread | Hread];
      cbn [CandleStack.offsets zip_with] in Hread;
      injection Hread; intros; lra.
Qed.

(* ===================================================================== *)
(** ** The flame                                                          *)
(* ===================================================================== *)

Lemma flicker_formula (t : R) :
  SceneManager.flicker t = 0.92 + 0.12 * sin (12 * t) + 0.03 * sin (37 * t).
Proof.
  unfold SceneManager.flicker.
  replace (t * 12.0) with (12 * t) by lra. replace (t * 37.0) with (37 * t) by lra.
  reflexivity.
Qed.

Lemma flicker_at_0 : SceneManager.flicker 0 = 0.92.
Proof.
  rewrite flicker_formula. rewrite !Rmult_0_r, sin_0. lra.
Qed.

Lemma flicker_bounds (t : R) : 0.92 - 0.15 <= SceneManager.flicker t <= 0.92 + 0.15.
Proof.
  rewrite flicker_formula.
  pose proof (SIN_bound (12 * t)). pose proof (SIN_bound (37 * t)). lra.
Qed.

(** Reads one uniform back from a chain of writes. *)
Ltac read_uniform :=
  unfold Shader.setIntValue, Shader.setBoolValue, Shader.setFloatValue, Shader.setVec2Value,
    Shader.setVec3Value, Shader.setVec4Value, Shader.setMat4Value, Shader.setSampler2DValue,
    SceneManager.g_ModelName, SceneManager.g_ColorValueName, SceneManager.g_TextureValueName,
    SceneManager.g_UseTextureName;
  repeat (rewrite lookup_insert_ne by discriminate);
  apply lookup_insert_eq.

(** C3. At every clock reading [t] the flicker scalar is
    [0.92 + 0.12 sin(12 t) + 0.03 sin(37 t)]; it is 0.92 at [t = 0] and
    stays within 0.15 of 0.92. When the flame block of a frame has run with
    a shader manager attached, point light 0 has the diffuse colour
    (0.95, 0.60, 0.25) and the specular colour (1.0, 0.8, 0.5), each
    multiplied by the flicker, and the ambient colour (0.07, 0.04, 0.02)
    multiplied by [0.6 + 0.4 * flicker]. *)
Theorem flame_flicker (t currentY : R) (s : SceneManager.state) (sh : Shader.ShaderManager) :
  let f := SceneManager.flicker t in
  f = 0.92 + 0.12 * sin (12 * t) + 0.03 * sin (37 * t)
  /\ SceneManager.flicker 0 = 0.92
  /\ 0.92 - 0.15 <= f <= 0.92 + 0.15
  /\ (SceneManager.m_pShaderManager s = Some sh ->
      exists s' sh',
        SceneManager.RenderScene_flame t currentY s = SceneManager.Returned (tt, s') /\
        SceneManager.m_pShaderManager s' = Some sh' /\
        sh' !! "pointLights[0].diffuse"
          = Some (Shader.UVec3 (GLM.mk_vec3 (0.95 * f) (0.60 * f) (0.25 * f))) /\
        sh' !! "pointLights[0].specular"
          = Some (Shader.UVec3 (GLM.mk_vec3 (1.0 * f) (0.8 * f) (0.5 * f))) /\
        sh' !! "pointLights[0].ambient"
          = Some (Shader.UVec3 (GLM.mk_vec3 (0.07 * (0.6 + 0.4 * f))
                                            (0.04 * (0.6 + 0.4 * f))
                                            (0.02 * (0.6 + 0.4 * f)))) /\
        sh' !! "pointLights[0].position"
          = Some (Shader.UVec3 (GLM.vadd SceneManager.candleOffset
                                         (GLM.mk_vec3 0 (currentY + 2.0) 0)))).
Proof.
  intros f. split; [apply flicker_formula|]. split; [apply flicker_at_0|].
  split; [apply flicker_bounds|].
  intros Hsh. destruct s as [shd arr n mats dr]. cbn in Hsh. subst shd.
  unfold SceneManager.RenderScene_flame, SceneManager.RenderScene_light. cbv zeta.
  unfold SceneManager.SetTransformations, SceneManager.SetShaderColor.
  run_steps (@bind_Draw).
  unfold SceneManager.Draw.
  eexists. eexists. split; [reflexivity|].
  cbn [SceneManager.set_drawn SceneManager.m_pShaderManager].
  split; [reflexivity|].
  fold f. unfold GLM.vscale. cbn [GLM.x GLM.y GLM.z].
  repeat split; read_uniform.
Qed.

(** A quarter of a second into the animation, on a fresh object. *)
Lemma flame_flicker_witness :
  let s := SceneManager.SceneManager (Some ∅) in
  SceneManager.m_pShaderManager s = Some ∅ /\
  0.92 - 0.15 <= SceneManager.flicker 0.25 <= 0.92 + 0.15 /\
  exists s', SceneManager.RenderScene_flame 0.25 3.55 s = SceneManager.Returned (tt, s').
Proof.
  intros s.
  pose proof (flame_flicker 0.25 3.55 s ∅) as (_ & _ & Hb & Hrun).
  split; [reflexivity|]. split; [exact Hb|].
  destruct (Hrun eq_refl) as (s' & _ & Hs' & _). exists s'. exact Hs'.
Defined.

(* ===================================================================== *)
(** ** The pen                                                            *)
(* ===================================================================== *)














(* ===================================================================== *)
(** ** The material table                                                 *)
(* ===================================================================== *)

Lemma SetShaderMaterial_loop_spec (mats : list SceneManager.OBJECT_MATERIAL.t) (t : string) :
  (exists k m,
      mats !! k = Some m /\ SceneManager.OBJECT_MATERIAL.tag m = t /\
      (forall j m', (j < k)%nat -> mats !! j = Some m' ->
                    SceneManager.OBJECT_MATERIAL.tag m' <> t) /\
      SceneManager.SetShaderMaterial_loop mats t = Some m)
  \/ ((forall j m', mats !! j = Some m' -> SceneManager.OBJECT_MATERIAL.tag m' <> t) /\
      SceneManager.SetShaderMaterial_loop mats t = None).
Proof.
  induction mats as [|mat rest IH].
  - right. split; [intros j m' Hj; discriminate Hj | reflexivity].
  - cbn [SceneManager.SetShaderMaterial_loop].
    destruct (String.eqb_spec (SceneManager.OBJECT_MATERIAL.tag mat) t) as [Heq|Hne].
    + left. exists 0%nat, mat. repeat split; try assumption. intros j m' Hj. lia.
    + destruct IH as [(k & m & Hk & Htag & Hfirst & Hloop) | (Hnone & Hloop)].
      * left. exists (S k), m. repeat split; try assumption.
        intros [|j] m' Hj Hj'; [cbn in Hj'; congruence|].
        apply (Hfirst j m'); [lia | exact Hj'].
      * right. split; [|exact Hloop].
        intros [|j] m' Hj; [cbn in Hj; congruence|]. apply (Hnone j m' Hj).
Qed.

(** C6. The material lookup of [SetShaderMaterial] has a result for every
    tag and every table: the first entry whose tag is equal to the tag
    asked for, as it stands in the table, and otherwise diffuse
    (0.8, 0.8, 0.8), specular (0.2, 0.2, 0.2) and shininess 8. The method
    always returns; with a shader manager attached it writes the three
    coefficients of that result to the material uniforms. *)
Theorem SetShaderMaterial_lookup (mats : list SceneManager.OBJECT_MATERIAL.t) (t : string) :
  ((exists k m,
       mats !! k = Some m /\ SceneManager.OBJECT_MATERIAL.tag m = t /\
       (forall j m', (j < k)%nat -> mats !! j = Some m' ->
                     SceneManager.OBJECT_MATERIAL.tag m' <> t) /\
       SceneManager.selected mats t = m)
   \/ ((forall j m', mats !! j = Some m' -> SceneManager.OBJECT_MATERIAL.tag m' <> t) /\
       SceneManager.OBJECT_MATERIAL.diffuseColor (SceneManager.selected mats t)
         = GLM.mk_vec3 0.8 0.8 0.8 /\
       SceneManager.OBJECT_MATERIAL.specularColor (SceneManager.selected mats t)
         = GLM.mk_vec3 0.2 0.2 0.2 /\
       SceneManager.OBJECT_MATERIAL.shininess (SceneManager.selected mats t) = 8))
  /\ forall s : SceneManager.state,
       SceneManager.m_objectMaterials s = mats ->
       exists s',
         SceneManager.SetShaderMaterial t s = SceneManager.Returned (tt, s') /\
         forall sh, SceneManager.m_pShaderManager s = Some sh ->
           exists sh',
             SceneManager.m_pShaderManager s' = Some sh' /\
             sh' !! "material.diffuseColor"
               = Some (Shader.UVec3 (SceneManager.OBJECT_MATERIAL.diffuseColor
                                       (SceneManager.selected mats t))) /\
             sh' !! "material.specularColor"
               = Some (Shader.UVec3 (SceneManager.OBJECT_MATERIAL.specularColor
                                       (SceneManager.selected mats t))) /\
             sh' !! "material.shininess"
               = Some (Shader.UFloat (SceneManager.OBJECT_MATERIAL.shininess
                                        (SceneManager.selected mats t))).
Proof.
  split.
  - unfold SceneManager.selected.
    destruct (SetShaderMaterial_loop_spec mats t)
      as [(k & m & Hk & Htag & Hfirst & ->) | (Hnone & ->)].
    + left. exists k, m. repeat split; assumption.
    + right. repeat split. exact Hnone.
  - intros s <-. eexists. split; [reflexivity|].
    intros sh Hsh. unfold SceneManager.withShader.
    cbn [SceneManager.set_shader SceneManager.m_pShaderManager]. rewrite Hsh.
    eexists. split; [reflexivity|]. repeat split; read_uniform.
Qed.

(** The palette of [DefineObjectMaterials], asked for "cement" (the fifth
    entry) and for a tag it does not hold. *)
Lemma SetShaderMaterial_lookup_witness :
  let s := SceneManager.SceneManager (Some ∅) in
  exists s1,
    SceneManager.DefineObjectMaterials s = SceneManager.Returned (tt, s1) /\
    SceneManager.OBJECT_MATERIAL.shininess
      (SceneManager.selected (SceneManager.m_objectMaterials s1) "cement") = 16 /\
    SceneManager.OBJECT_MATERIAL.shininess
      (SceneManager.selected (SceneManager.m_objectMaterials s1) "glass") = 8 /\
    exists s2, SceneManager.SetShaderMaterial "glass" s1 = SceneManager.Returned (tt, s2).
Proof.
  intros s. eexists. split; [reflexivity|].
  split; [reflexivity|]. split; [reflexivity|].
  match goal with
  | |- exists s2, SceneManager.SetShaderMaterial _ ?s1 = _ =>
      destruct (proj2 (SetShaderMaterial_lookup (SceneManager.m_objectMaterials s1) "glass")
                  s1 eq_refl) as (s2 & Hs2 & _)
  end.
  exists s2. exact Hs2.
Defined.

(* ===================================================================== *)
(** ** The camera controller                                              *)
(* ===================================================================== *)

Section CameraProperties.

Context {CameraPrivate : Type}.
Variable Camera_new : ViewManager.Camera CameraPrivate.
Variable ProcessKeyboard :
  ViewManager.Camera_Movement -> R -> ViewManager.Camera CameraPrivate ->
  ViewManager.Camera CameraPrivate.
Variable ProcessMouseMovement :
  R -> R -> ViewManager.Camera CameraPrivate -> ViewManager.Camera CameraPrivate.
Variable GetViewMatrix : ViewManager.Camera CameraPrivate -> GLM.mat4.

Abbreviation state := (ViewManager.state CameraPrivate).
Abbreviation PKE := (ViewManager.ProcessKeyboardEvents CameraPrivate ProcessKeyboard).
Abbreviation run :=
  (ViewManager.run CameraPrivate ProcessKeyboard ProcessMouseMovement GetViewMatrix).

(** A guarded camera update keeps the camera in place. *)
Lemma when_onCamera (b : bool)
    (f : state -> ViewManager.Camera CameraPrivate -> ViewManager.Camera CameraPrivate)
    (st : state) c :
  ViewManager.g_pCamera st = Some c ->
  exists st' c',
    ViewManager.when CameraPrivate b
      (fun st => ViewManager.onCamera CameraPrivate (f st) st) st = Some st' /\
    ViewManager.g_pCamera st' = Some c'.
Proof.
  intros Hc. destruct b; cbn [ViewManager.when].
  - unfold ViewManager.onCamera. rewrite Hc. cbn [mbind option_bind].
    eexists _, _. split; reflexivity.
  - eexists st, c. split; [reflexivity | exact Hc].
Qed.

(** What the two mode keys leave behind, whatever the other keys did. *)
Lemma ProcessKeyboardEvents_modes (keys : ViewManager.Key -> bool) (st : state) c :
  ViewManager.g_pCamera st = Some c ->
  exists st' c',
    PKE keys st = Some st' /\ ViewManager.g_pCamera st' = Some c' /\
    (keys ViewManager.GLFW_KEY_O = true ->
     CameraSpec.orthographic_preset c' /\ ViewManager.bOrthographicProjection st' = true) /\
    (keys ViewManager.GLFW_KEY_P = true -> keys ViewManager.GLFW_KEY_O = false ->
     CameraSpec.perspective_preset c' /\ ViewManager.bOrthographicProjection st' = false).
Proof.
  intros Hc. unfold ViewManager.ProcessKeyboardEvents.
  assert (Hesc : exists st1 c1,
             ViewManager.when CameraPrivate (keys ViewManager.GLFW_KEY_ESCAPE)
               (fun st => Some (ViewManager.set_windowShouldClose CameraPrivate true st)) st
             = Some st1 /\ ViewManager.g_pCamera st1 = Some c1).
  { destruct (keys ViewManager.GLFW_KEY_ESCAPE); cbn [ViewManager.when];
      eexists _, c; (split; [reflexivity | exact Hc]). }
  destruct Hesc as (st1 & c1 & -> & Hc1). cbn [mbind option_bind].
  destruct (when_onCamera (keys ViewManager.GLFW_KEY_W)
              (fun st => ProcessKeyboard ViewManager.FORWARD (ViewManager.gDeltaTime _ st))
              st1 c1 Hc1) as (st2 & c2 & -> & Hc2). cbn [mbind option_bind].
  destruct (when_onCamera (keys ViewManager.GLFW_KEY_S)
              (fun st => ProcessKeyboard ViewManager.BACKWARD (ViewManager.gDeltaTime _ st))
              st2 c2 Hc2) as (st3 & c3 & -> & Hc3). cbn [mbind option_bind].
  destruct (when_onCamera (keys ViewManager.GLFW_KEY_A)
              (fun st => ProcessKeyboard ViewManager.LEFT (ViewManager.gDeltaTime _ st))
              st3 c3 Hc3) as (st4 & c4 & -> & Hc4). cbn [mbind option_bind].
  destruct (when_onCamera (keys ViewManager.GLFW_KEY_D)
              (fun st => ProcessKeyboard ViewManager.RIGHT (ViewManager.gDeltaTime _ st))
              st4 c4 Hc4) as (st5 & c5 & -> & Hc5). cbn [mbind option_bind].
  destruct (when_onCamera (keys ViewManager.GLFW_KEY_Q)
              (fun st => ProcessKeyboard ViewManager.UP (ViewManager.gDeltaTime _ st))
              st5 c5 Hc5) as (st6 & c6 & -> & Hc6). cbn [mbind option_bind].
  destruct (when_onCamera (keys ViewManager.GLFW_KEY_E)
              (fun st => ProcessKeyboard ViewManager.DOWN (ViewManager.gDeltaTime _ st))
              st6 c6 Hc6) as (st7 & c7 & -> & Hc7). cbn [mbind option_bind].
  destruct st7 as [shd close cam lx ly fm dt lf ortho]. cbn in Hc7. subst cam.
  destruct (keys ViewManager.GLFW_KEY_P), (keys ViewManager.GLFW_KEY_O);
    cbn [ViewManager.when ViewManager.onCamera ViewManager.set_bOrthographicProjection
         ViewManager.set_camera ViewManager.g_pCamera mbind option_bind
         ViewManager.m_pShaderManager ViewManager.windowShouldClose ViewManager.gLastX
         ViewManager.gLastY ViewManager.gFirstMouse ViewManager.gDeltaTime
         ViewManager.gLastFrame ViewManager.bOrthographicProjection];
    eexists _, _; (split; [reflexivity|]); (split; [reflexivity|]);
    (split; [intros HO | intros HP HO]); try discriminate HO; try discriminate HP;
    (split; [repeat split; try (apply vec3_eq; lra) | reflexivity]).
Qed.



(** A guarded camera update, on a state with a camera. *)
Lemma when_onCamera_step (b : bool) (f : state -> ViewManager.Camera CameraPrivate -> ViewManager.Camera CameraPrivate)
    sh w (c : ViewManager.Camera CameraPrivate) lx ly fm dt lf o :
  ViewManager.when CameraPrivate b
    (fun st => ViewManager.onCamera CameraPrivate (f st) st)
    (ViewManager.mk_state CameraPrivate sh w (Some c) lx ly fm dt lf o)
  = Some (ViewManager.mk_state CameraPrivate sh w
            (Some (if b then f (ViewManager.mk_state CameraPrivate sh w (Some c) lx ly fm dt lf o) c
                   else c))
            lx ly fm dt lf o).
Proof. destruct b; reflexivity. Qed.

Lemma when_mode_step (b mode : bool) (p fr u : GLM.vec3) sh w (c : ViewManager.Camera CameraPrivate) lx ly fm dt lf o :
  ViewManager.when CameraPrivate b
    (fun st =>
       let st := ViewManager.set_bOrthographicProjection CameraPrivate mode st in
       st ← ViewManager.onCamera CameraPrivate (ViewManager.set_Position CameraPrivate p) st;
       st ← ViewManager.onCamera CameraPrivate (ViewManager.set_Front CameraPrivate fr) st;
       ViewManager.onCamera CameraPrivate (ViewManager.set_Up CameraPrivate u) st)
    (ViewManager.mk_state CameraPrivate sh w (Some c) lx ly fm dt lf o)
  = Some (ViewManager.mk_state CameraPrivate sh w
            (Some (if b
                   then ViewManager.set_Up CameraPrivate u
                          (ViewManager.set_Front CameraPrivate fr
                             (ViewManager.set_Position CameraPrivate p c))
                   else c))
            lx ly fm dt lf (if b then mode else o)).
Proof. destruct b; reflexivity. Qed.



(** One scroll event: the speed moves by the vertical offset and is then
    brought back into [1, 100]. *)
Lemma ScrollCallback_step (xoffset yoffset : R) (st : state) c :
  ViewManager.g_pCamera st = Some c ->
  exists c',
    ViewManager.g_pCamera (ViewManager.ScrollCallback CameraPrivate xoffset yoffset st)
    = Some c' /\
    1 <= ViewManager.MovementSpeed c' <= 100 /\
    (1 <= ViewManager.MovementSpeed c + yoffset <= 100 ->
     ViewManager.MovementSpeed c' = ViewManager.MovementSpeed c + yoffset) /\
    (ViewManager.MovementSpeed c + yoffset < 1 -> ViewManager.MovementSpeed c' = 1) /\
    (100 < ViewManager.MovementSpeed c + yoffset -> ViewManager.MovementSpeed c' = 100).
Proof.
  intros Hc. unfold ViewManager.ScrollCallback. rewrite Hc.
  cbn [ViewManager.set_MovementSpeed ViewManager.MovementSpeed].
  destruct (Rlt_dec (ViewManager.MovementSpeed c + yoffset) 1.0) as [Hlo|Hlo];
    cbn [ViewManager.set_MovementSpeed ViewManager.MovementSpeed];
    match goal with |- context [Rgt_dec ?a ?b] => destruct (Rgt_dec a b) as [Hhi|Hhi] end;
    cbn [ViewManager.set_camera ViewManager.g_pCamera ViewManager.set_MovementSpeed
         ViewManager.MovementSpeed];
    eexists; (split; [reflexivity|]);
    cbn [ViewManager.MovementSpeed ViewManager.set_MovementSpeed]; unfold Rgt in *;
    repeat split; intros; lra.
Qed.

(** C7. Starting from the constructor's speed of 20, after any sequence of
    scroll events the movement speed lies in [1, 100]; and from any camera
    a single scroll event adds its vertical offset to the speed, replacing
    a sum below 1 by 1 and a sum above 100 by 100. *)
Theorem scroll_speed_clamped
    (pShaderManager : option Shader.ShaderManager) (offsets : list (R * R)) :
  (exists c,
      ViewManager.g_pCamera
        (CameraSpec.scrolls offsets
           (ViewManager.ViewManager CameraPrivate Camera_new pShaderManager)) = Some c /\
      1 <= ViewManager.MovementSpeed c <= 100)
  /\ (forall (st : state) c xoffset yoffset,
        ViewManager.g_pCamera st = Some c ->
        exists c',
          ViewManager.g_pCamera (ViewManager.ScrollCallback CameraPrivate xoffset yoffset st)
          = Some c' /\
          1 <= ViewManager.MovementSpeed c' <= 100 /\
          (1 <= ViewManager.MovementSpeed c + yoffset <= 100 ->
           ViewManager.MovementSpeed c' = ViewManager.MovementSpeed c + yoffset) /\
          (ViewManager.MovementSpeed c + yoffset < 1 -> ViewManager.MovementSpeed c' = 1) /\
          (100 < ViewManager.MovementSpeed c + yoffset -> ViewManager.MovementSpeed c' = 100)).
Proof.
  split.
  - assert (Hgen : forall (st : state) c,
               ViewManager.g_pCamera st = Some c ->
               1 <= ViewManager.MovementSpeed c <= 100 ->
               exists c', ViewManager.g_pCamera (CameraSpec.scrolls offsets st) = Some c' /\
                          1 <= ViewManager.MovementSpeed c' <= 100).
    { induction offsets as [|[xo yo] rest IH]; intros st c Hc Hrange.
      - exists c. split; assumption.
      - unfold CameraSpec.scrolls. cbn [fold_left fst snd].
        destruct (ScrollCallback_step xo yo st c Hc) as (c1 & Hc1 & Hr1 & _).
        apply (IH _ c1 Hc1 Hr1). }
    eapply Hgen; [reflexivity|].
    cbn [ViewManager.set_MovementSpeed ViewManager.MovementSpeed]. lra.
  - intros st c xo yo Hc. apply ScrollCallback_step, Hc.
Qed.

End CameraProperties.



(** Thirty notches down, then two hundred up. *)
Lemma scroll_speed_clamped_witness :
  exists c,
    ViewManager.g_pCamera
      (CameraSpec.scrolls [(0, -30); (0, 200)] CameraExample.initial) = Some c /\
    1 <= ViewManager.MovementSpeed c <= 100.
Proof.
  exact (proj1 (scroll_speed_clamped CameraExample.camera None [(0, -30); (0, 200)])).
Defined.

(* ===================================================================== *)
(** ** More on the texture registry                                       *)
(* ===================================================================== *)

(** On a well-formed registry the two lookup methods compute the first
    match in the list of registered entries. *)
Lemma Find_registered (s : SceneManager.state) (t : string) :
  Registry.wf s ->
  SceneManager.FindTextureSlot t s
    = SceneManager.Returned (Lookup.slot (Registry.registered s) t, s) /\
  SceneManager.FindTextureID t s
    = SceneManager.Returned (Lookup.id (Registry.registered s) t, s).
Proof.
  intros Hwf. unfold Lookup.slot, Lookup.id, Lookup.first.
  destruct (Find_spec s t Hwf)
    as [(k & e & Hk & Htag & Hfirst & -> & ->) | (Hnone & -> & ->)].
  - assert (Hfind : list_find (fun e => SceneManager.tag e = t) (Registry.registered s)
                    = Some (k, e)).
    { apply list_find_Some. split; [exact Hk|]. split; [exact Htag|].
      intros j y Hj Hlt. apply (Hfirst j y Hlt Hj). }
    rewrite Hfind. split; reflexivity.
  - assert (Hfind : list_find (fun e => SceneManager.tag e = t) (Registry.registered s)
                    = None).
    { apply list_find_None, Forall_lookup. intros j y Hj. apply (Hnone j y Hj). }
    rewrite Hfind. split; reflexivity.
Qed.

Lemma Lookup_fresh (l : list SceneManager.TEXTURE_INFO) (t : string) :
  (forall j e, l !! j = Some e -> SceneManager.tag e <> t) ->
  Lookup.first l t = None.
Proof.
  intros Hfresh. apply list_find_None, Forall_lookup. intros j y Hj. apply (Hfresh j y Hj).
Qed.

(** Appending an entry changes the lookup of its own tag only, and that
    only when the tag was not there. *)
Lemma Lookup_first_app_other (l : list SceneManager.TEXTURE_INFO)
    (e : SceneManager.TEXTURE_INFO) (t : string) :
  t <> SceneManager.tag e -> Lookup.first (l ++ [e]) t = Lookup.first l t.
Proof.
  intros Hne. unfold Lookup.first.
  destruct (list_find (fun e0 => SceneManager.tag e0 = t) l) as [[i x]|] eqn:Hl.
  - apply list_find_app_l. exact Hl.
  - apply list_find_app_None. split; [exact Hl|].
    apply list_find_None. constructor; [congruence | constructor].
Qed.

Lemma Lookup_first_app_new (l : list SceneManager.TEXTURE_INFO) (t : string) (h : Z) :
  Lookup.first l t = None ->
  Lookup.first (l ++ [SceneManager.mk_TEXTURE_INFO t h]) t
  = Some (length l, SceneManager.mk_TEXTURE_INFO t h).
Proof.
  intros Hl. unfold Lookup.first in *. rewrite list_find_app_r by exact Hl.
  cbn. rewrite decide_True by reflexivity. reflexivity.
Qed.

(** X1. Registering a texture under a tag that is not registered yet, with
    room left in the array, makes both lookups answer for the new entry:
    the slot is the number of textures registered before, the handle is the
    name the driver gave. The answers for every other tag are what they
    were. *)
Theorem CreateGLTexture_then_lookup
    (s : SceneManager.state) (image : option SceneManager.Image) (textureID : Z) (t : string) :
  Registry.wf s ->
  Registry.supported image = true ->
  (SceneManager.m_loadedTextures s < 16)%Z ->
  (forall j e, Registry.registered s !! j = Some e -> SceneManager.tag e <> t) ->
  exists s',
    SceneManager.CreateGLTexture image textureID t s = SceneManager.Returned (true, s') /\
    Registry.wf s' /\
    SceneManager.FindTextureSlot t s'
      = SceneManager.Returned (SceneManager.m_loadedTextures s, s') /\
    SceneManager.FindTextureID t s'
      = SceneManager.Returned (SceneManager.GLuint_to_int textureID, s') /\
    forall t' slot id,
      t' <> t ->
      SceneManager.FindTextureSlot t' s = SceneManager.Returned (slot, s) ->
      SceneManager.FindTextureID t' s = SceneManager.Returned (id, s) ->
      SceneManager.FindTextureSlot t' s' = SceneManager.Returned (slot, s') /\
      SceneManager.FindTextureID t' s' = SceneManager.Returned (id, s').
Proof.
  intros Hwf Hsup Hroom Hfresh. pose proof Hwf as [Hlen Hcnt].
  assert (Hin : (0 <= SceneManager.m_loadedTextures s
                 < Z.of_nat (length (SceneManager.m_textureIDs s)))%Z).
  { rewrite Hlen. unfold SceneManager.TEXTURE_CAPACITY. lia. }
  eexists. split; [apply CreateGLTexture_registers; assumption|].
  set (e := SceneManager.mk_TEXTURE_INFO t textureID).
  set (s' := SceneManager.set_textures _ _ s).
  assert (Hwf' : Registry.wf s').
  { apply wf_after_write; [exact Hwf | unfold SceneManager.TEXTURE_CAPACITY; lia]. }
  assert (Hreg : Registry.registered s' = Registry.registered s ++ [e])
    by (apply registered_after_write; exact Hin).
  pose proof (registered_length s Hwf) as Hn.
  split; [exact Hwf'|].
  destruct (Find_registered s' t Hwf') as [-> ->].
  unfold Lookup.slot, Lookup.id. rewrite Hreg.
  unfold e. rewrite (Lookup_first_app_new (Registry.registered s) t textureID)
    by (apply Lookup_fresh, Hfresh).
  rewrite Hn, Z2Nat.id by lia. split; [reflexivity|]. split; [reflexivity|].
  intros t' slot id Hne Hslot Hid.
  destruct (Find_registered s t' Hwf) as [Hslot0 Hid0].
  rewrite Hslot0 in Hslot. rewrite Hid0 in Hid.
  injection Hslot as <-. injection Hid as <-.
  destruct (Find_registered s' t' Hwf') as [-> ->].
  unfold Lookup.slot, Lookup.id. rewrite Hreg.
  rewrite (Lookup_first_app_other _ e t') by exact Hne. split; reflexivity.
Qed.

(** "metal" loaded into an object that holds "wood". *)
Lemma CreateGLTexture_then_lookup_witness :
  let rgb := Some (SceneManager.mk_Image 64 64 3) in
  let s := SceneManager.set_textures
             (<[0%nat := SceneManager.mk_TEXTURE_INFO "wood" 1]>
                (SceneManager.m_textureIDs (SceneManager.SceneManager None)))
             1 (SceneManager.SceneManager None) in
  Registry.wf s /\
  exists s',
    SceneManager.CreateGLTexture rgb 2 "metal" s = SceneManager.Returned (true, s') /\
    SceneManager.FindTextureSlot "metal" s' = SceneManager.Returned (1%Z, s') /\
    SceneManager.FindTextureID "metal" s' = SceneManager.Returned (2%Z, s').
Proof.
  intros rgb s.
  assert (Hwf : Registry.wf s) by (split; [reflexivity | vm_compute; split; discriminate]).
  split; [exact Hwf|].
  assert (Hfresh : forall j e, Registry.registered s !! j = Some e ->
                               SceneManager.tag e <> "metal").
  { intros [|j] e He; cbn in He; inversion He; subst; discriminate. }
  destruct (CreateGLTexture_then_lookup s rgb 2 "metal" Hwf eq_refl eq_refl Hfresh)
    as (s' & Hload & _ & Hslot & Hid & _).
  exists s'. split; [exact Hload|]. split; [exact Hslot | exact Hid].
Defined.

(** A run of [CreateGLTexture] calls that fits into the array appends the
    entries of its registering calls, in order, and touches nothing else. *)
Lemma loads_registered (ls : list Registry.Call) :
  forall s : SceneManager.state,
    Registry.wf s ->
    (SceneManager.m_loadedTextures s + Z.of_nat (Registry.successes ls) <= 16)%Z ->
    exists s',
      Registry.loads ls s = SceneManager.Returned (tt, s') /\
      Registry.wf s' /\
      Registry.registered s' = Registry.registered s ++ omap SceneFiles.entry ls /\
      SceneManager.m_pShaderManager s' = SceneManager.m_pShaderManager s /\
      SceneManager.m_objectMaterials s' = SceneManager.m_objectMaterials s /\
      SceneManager.m_basicMeshes s' = SceneManager.m_basicMeshes s.
Proof.
  induction ls as [|l ls IH]; intros s Hwf Hfit.
  - exists s. cbn [omap list_omap]. rewrite app_nil_r. repeat split; apply Hwf.
  - assert (Hsucc : Registry.successes (l :: ls)
                    = if Registry.supported l.1.1 then S (Registry.successes ls)
                      else Registry.successes ls).
    { unfold Registry.successes. destruct (Registry.supported l.1.1) eqn:E.
      - rewrite filter_cons_True by exact E. reflexivity.
      - rewrite filter_cons_False by (rewrite E; discriminate). reflexivity. }
    rewrite Hsucc in Hfit. clear Hsucc.
    cbn [omap list_omap]. unfold SceneFiles.entry at 1.
    destruct l as [[image textureID] t]. cbn [fst snd Registry.loads] in *.
    unfold SceneManager.bind. pose proof Hwf as [Hlen Hcnt].
    destruct (Registry.supported image) eqn:Hsup.
    + assert (Hin : (0 <= SceneManager.m_loadedTextures s
                     < Z.of_nat (length (SceneManager.m_textureIDs s)))%Z).
      { rewrite Hlen. unfold SceneManager.TEXTURE_CAPACITY. lia. }
      rewrite CreateGLTexture_registers by assumption.
      set (e := SceneManager.mk_TEXTURE_INFO t textureID).
      set (s1 := SceneManager.set_textures _ _ s).
      assert (Hwf1 : Registry.wf s1).
      { apply wf_after_write; [exact Hwf | unfold SceneManager.TEXTURE_CAPACITY; lia]. }
      destruct (IH s1 Hwf1) as (s' & Hrun & Hwf' & Hreg & Hsh & Hmat & Hlog).
      { change (SceneManager.m_loadedTextures s1)
          with (SceneManager.m_loadedTextures s + 1)%Z. lia. }
      exists s'. split; [exact Hrun|]. split; [exact Hwf'|].
      split; [|split; [exact Hsh | split; [exact Hmat | exact Hlog]]].
      rewrite Hreg. unfold s1. rewrite registered_after_write by exact Hin.
      rewrite <- app_assoc. reflexivity.
    + rewrite CreateGLTexture_unsupported by assumption.
      destruct (IH s Hwf Hfit) as (s' & Hrun & Hrest). exists s'. split; [exact Hrun|].
      exact Hrest.
Qed.

Lemma wf_after_destroy (s : SceneManager.state) :
  Registry.wf s ->
  Registry.wf (SceneManager.set_textures (SceneManager.m_textureIDs s) 0 s).
Proof.
  intros [Hlen _]. split; [exact Hlen | cbn; lia].
Qed.

(** X2. [DestroyGLTextures] empties the registry: afterwards both lookups
    return -1 for every tag although the old entries are still in the
    array, a second call changes nothing, and the whole array is free
    again, so that any run of calls with at most 16 registering ones fits
    and leaves exactly its own entries registered. *)
Theorem DestroyGLTextures_resets (s : SceneManager.state) :
  Registry.wf s ->
  exists s',
    SceneManager.DestroyGLTextures s = SceneManager.Returned (tt, s') /\
    SceneManager.m_textureIDs s' = SceneManager.m_textureIDs s /\
    Registry.registered s' = [] /\
    (forall t, SceneManager.FindTextureSlot t s' = SceneManager.Returned ((-1)%Z, s') /\
               SceneManager.FindTextureID t s' = SceneManager.Returned ((-1)%Z, s')) /\
    SceneManager.DestroyGLTextures s' = SceneManager.Returned (tt, s') /\
    (forall ls, (Registry.successes ls <= 16)%nat ->
       exists s'', Registry.loads ls s' = SceneManager.Returned (tt, s'') /\
                   Registry.registered s'' = omap SceneFiles.entry ls).
Proof.
  intros Hwf. eexists. split; [reflexivity|].
  set (s' := SceneManager.set_textures _ _ s).
  assert (Hwf' : Registry.wf s') by (apply wf_after_destroy, Hwf).
  assert (Hreg : Registry.registered s' = []) by reflexivity.
  split; [reflexivity|]. split; [exact Hreg|]. split; [|split].
  - intros t. destruct (Find_registered s' t Hwf') as [-> ->]. rewrite Hreg.
    split; reflexivity.
  - reflexivity.
  - intros ls Hfit.
    destruct (loads_registered ls s' Hwf') as (s'' & Hrun & _ & Hreg'' & _).
    { change (SceneManager.m_loadedTextures s') with 0%Z. lia. }
    exists s''. split; [exact Hrun|]. rewrite Hreg'', Hreg. reflexivity.
Qed.

(** An object with "wood" and "metal" registered is emptied; neither tag is
    found afterwards. *)
Lemma DestroyGLTextures_resets_witness :
  let arr := <[1%nat := SceneManager.mk_TEXTURE_INFO "metal" 2]>
               (<[0%nat := SceneManager.mk_TEXTURE_INFO "wood" 1]>
                  (SceneManager.m_textureIDs (SceneManager.SceneManager None))) in
  let s := SceneManager.set_textures arr 2 (SceneManager.SceneManager None) in
  Registry.wf s /\
  exists s',
    SceneManager.DestroyGLTextures s = SceneManager.Returned (tt, s') /\
    SceneManager.FindTextureSlot "wood" s' = SceneManager.Returned ((-1)%Z, s').
Proof.
  intros arr s.
  assert (Hwf : Registry.wf s) by (split; [reflexivity | vm_compute; split; discriminate]).
  split; [exact Hwf|].
  destruct (DestroyGLTextures_resets s Hwf) as (s' & Hrun & _ & _ & Hfind & _).
  exists s'. split; [exact Hrun | exact (proj1 (Hfind "wood"))].
Defined.

(** The binding loop over [arr[i .. i+n)]: each of these units receives the
    texture name of its entry, every other unit keeps what it had. *)
Lemma BindGLTextures_loop_spec (arr : list SceneManager.TEXTURE_INFO) (n : nat) :
  forall (i : nat) (units : gmap nat Z),
    (i + n <= length arr)%nat ->
    exists units',
      SceneManager.BindGLTextures_loop arr n i units = SceneManager.Returned units' /\
      (forall j e, (i <= j < i + n)%nat -> arr !! j = Some e ->
                   units' !! j = Some (SceneManager.ID e)) /\
      (forall j, ~ (i <= j < i + n)%nat -> units' !! j = units !! j).
Proof.
  induction n as [|n IH]; intros i units Hlen.
  - exists units. split; [reflexivity|]. split; [intros; lia | reflexivity].
  - destruct (lookup_lt_is_Some_2 arr i ltac:(lia)) as [e He].
    cbn [SceneManager.BindGLTextures_loop]. rewrite He.
    destruct (IH (S i) (<[i := SceneManager.ID e]> units) ltac:(lia))
      as (units' & Hrun & Hin & Hout).
    exists units'. split; [exact Hrun|]. split.
    + intros j e' Hj Hje. destruct (decide (j = i)) as [->|Hji].
      * rewrite Hout by lia. rewrite lookup_insert_eq. congruence.
      * apply Hin; [lia | exact Hje].
    + intros j Hj. rewrite Hout by lia. apply lookup_insert_ne. lia.
Qed.

(** X3. [BindGLTextures] binds the registered textures, and only those:
    unit [i] receives the texture of the [i]-th registered entry, units
    from [m_loadedTextures] on are left as they were, and the object is
    unchanged. The unit that [FindTextureSlot] returns for a registered tag
    therefore holds the texture that [FindTextureID] returns for it. *)
Theorem BindGLTextures_binds_slots (s : SceneManager.state) (units : gmap nat Z) :
  Registry.wf s ->
  exists units',
    SceneManager.BindGLTextures units s = SceneManager.Returned (units', s) /\
    (forall j e, Registry.registered s !! j = Some e ->
                 units' !! j = Some (SceneManager.ID e)) /\
    (forall j : nat, (SceneManager.m_loadedTextures s <= Z.of_nat j)%Z ->
                     units' !! j = units !! j) /\
    (forall t slot,
        SceneManager.FindTextureSlot t s = SceneManager.Returned (slot, s) ->
        slot <> (-1)%Z ->
        exists h, units' !! Z.to_nat slot = Some h /\
                  SceneManager.FindTextureID t s
                  = SceneManager.Returned (SceneManager.GLuint_to_int h, s)).
Proof.
  intros Hwf. pose proof Hwf as [Hlen Hcnt]. unfold SceneManager.TEXTURE_CAPACITY in *.
  destruct (BindGLTextures_loop_spec (SceneManager.m_textureIDs s)
              (Z.to_nat (SceneManager.m_loadedTextures s)) 0 units ltac:(lia))
    as (units' & Hrun & Hin & Hout).
  exists units'. unfold SceneManager.BindGLTextures. rewrite Hrun.
  split; [reflexivity|].
  assert (Hreg : forall j e, Registry.registered s !! j = Some e ->
                             units' !! j = Some (SceneManager.ID e)).
  { intros j e Hj. apply registered_lookup in Hj as [Hlt Hj]. apply (Hin j e); [lia | exact Hj]. }
  split; [exact Hreg|]. split; [intros j Hj; apply Hout; lia|].
  intros t slot Hslot Hfound.
  destruct (Find_spec s t Hwf)
    as [(k & e & Hk & _ & _ & Hslot' & Hid) | (_ & Hslot' & _)];
    rewrite Hslot' in Hslot; injection Hslot as <-; [|contradiction].
  exists (SceneManager.ID e). rewrite Nat2Z.id. split; [apply (Hreg k e Hk) | exact Hid].
Qed.

(** "wood" and "metal" registered with the texture names 11 and 12, bound
    into a context with no texture bound. *)
Lemma BindGLTextures_binds_slots_witness :
  let arr := <[1%nat := SceneManager.mk_TEXTURE_INFO "metal" 12]>
               (<[0%nat := SceneManager.mk_TEXTURE_INFO "wood" 11]>
                  (SceneManager.m_textureIDs (SceneManager.SceneManager None))) in
  let s := SceneManager.set_textures arr 2 (SceneManager.SceneManager None) in
  Registry.wf s /\
  exists units',
    SceneManager.BindGLTextures ∅ s = SceneManager.Returned (units', s) /\
    units' !! 1%nat = Some 12%Z /\ units' !! 2%nat = None.
Proof.
  intros arr s.
  assert (Hwf : Registry.wf s) by (split; [reflexivity | vm_compute; split; discriminate]).
  split; [exact Hwf|].
  destruct (BindGLTextures_binds_slots s ∅ Hwf) as (units' & Hrun & Hin & Hout & _).
  exists units'. split; [exact Hrun|]. split.
  - apply (Hin 1%nat (SceneManager.mk_TEXTURE_INFO "metal" 12)). reflexivity.
  - rewrite (Hout 2%nat) by (vm_compute; discriminate). reflexivity.
Defined.

(** [LoadSceneTextures] is its eight calls followed by the binding. *)
Lemma LoadSceneTextures_as_loads stbi_load glGenTextures units (s : SceneManager.state) :
  SceneManager.LoadSceneTextures stbi_load glGenTextures units s
  = SceneManager.bind (Registry.loads (SceneFiles.calls stbi_load glGenTextures))
      (fun _ => SceneManager.BindGLTextures units) s.
Proof.
  unfold SceneFiles.calls, SceneFiles.files, SceneManager.LoadSceneTextures.
  cbn [fmap list_fmap fst snd Registry.loads]. cbv zeta. unfold SceneManager.bind.
  repeat match goal with
         | |- context [SceneManager.CreateGLTexture ?i ?h ?t ?st] =>
             destruct (SceneManager.CreateGLTexture i h t st) as [[? ?]|]; [|reflexivity]
         end.
  reflexivity.
Qed.

Lemma successes_calls stbi_load glGenTextures :
  (Registry.successes (SceneFiles.calls stbi_load glGenTextures) <= 8)%nat.
Proof.
  unfold Registry.successes. etransitivity; [apply length_filter|].
  unfold SceneFiles.calls. rewrite length_fmap. reflexivity.
Qed.

(** [LoadSceneTextures] on a well-formed registry, as far as the object is
    concerned. *)
Lemma LoadSceneTextures_run
    (stbi_load : string -> option SceneManager.Image) (glGenTextures : string -> Z)
    (units : gmap nat Z) (s : SceneManager.state) :
  Registry.wf s ->
  let decoded := Registry.successes (SceneFiles.calls stbi_load glGenTextures) in
  ((SceneManager.m_loadedTextures s + Z.of_nat decoded <= 16)%Z ->
   exists units' s',
     SceneManager.LoadSceneTextures stbi_load glGenTextures units s
       = SceneManager.Returned (units', s') /\
     Registry.wf s' /\
     SceneManager.m_loadedTextures s' = (SceneManager.m_loadedTextures s + Z.of_nat decoded)%Z /\
     Registry.registered s' =
       Registry.registered s ++ omap SceneFiles.entry (SceneFiles.calls stbi_load glGenTextures))
  /\ ((16 < SceneManager.m_loadedTextures s + Z.of_nat decoded)%Z ->
      SceneManager.LoadSceneTextures stbi_load glGenTextures units s
      = SceneManager.OutOfBounds).
Proof.
  intros Hwf decoded. rewrite LoadSceneTextures_as_loads. unfold SceneManager.bind. split.
  - intros Hfit.
    destruct (loads_registered (SceneFiles.calls stbi_load glGenTextures) s Hwf Hfit)
      as (s' & Hrun & Hwf' & Hreg & _).
    destruct (proj1 (loads_spec (SceneFiles.calls stbi_load glGenTextures) s Hwf))
      as (s1 & Hrun1 & _ & Hcnt).
    { unfold SceneManager.TEXTURE_CAPACITY. fold decoded. lia. }
    rewrite Hrun in Hrun1. injection Hrun1 as <-.
    rewrite Hrun.
    destruct (BindGLTextures_loop_spec (SceneManager.m_textureIDs s')
                (Z.to_nat (SceneManager.m_loadedTextures s')) 0 units) as (units' & Hb & _).
    { destruct Hwf' as [Hlen' Hcnt']. unfold SceneManager.TEXTURE_CAPACITY in *. lia. }
    exists units', s'. unfold SceneManager.BindGLTextures. rewrite Hb.
    split; [reflexivity|]. split; [exact Hwf'|]. split; [exact Hcnt | exact Hreg].
  - intros Hover.
    rewrite (proj2 (loads_spec (SceneFiles.calls stbi_load glGenTextures) s Hwf));
      [reflexivity|].
    unfold SceneManager.TEXTURE_CAPACITY. fold decoded. lia.
Qed.

(** X4. [LoadSceneTextures] on a well-formed registry: when the files that
    decode to 3 or 4 channels fit into what is left of the array, the call
    returns, these files are registered after the textures already there,
    in loading order and under the names the driver gave, a file that does
    not decode is skipped without leaving a gap, and every registered
    texture is bound to the unit of its index; when they do not fit, the
    call runs past the end of the array. *)
Theorem LoadSceneTextures_registers
    (stbi_load : string -> option SceneManager.Image) (glGenTextures : string -> Z)
    (units : gmap nat Z) (s : SceneManager.state) :
  Registry.wf s ->
  let decoded := Registry.successes (SceneFiles.calls stbi_load glGenTextures) in
  ((SceneManager.m_loadedTextures s + Z.of_nat decoded <= 16)%Z ->
   exists units' s',
     SceneManager.LoadSceneTextures stbi_load glGenTextures units s
       = SceneManager.Returned (units', s') /\
     Registry.wf s' /\
     SceneManager.m_loadedTextures s' = (SceneManager.m_loadedTextures s + Z.of_nat decoded)%Z /\
     Registry.registered s' =
       Registry.registered s ++ omap SceneFiles.entry (SceneFiles.calls stbi_load glGenTextures) /\
     (forall j e, Registry.registered s' !! j = Some e ->
                  units' !! j = Some (SceneManager.ID e)))
  /\ ((16 < SceneManager.m_loadedTextures s + Z.of_nat decoded)%Z ->
      SceneManager.LoadSceneTextures stbi_load glGenTextures units s
      = SceneManager.OutOfBounds).
Proof.
  intros Hwf decoded. rewrite LoadSceneTextures_as_loads. unfold SceneManager.bind. split.
  - intros Hfit.
    destruct (loads_registered (SceneFiles.calls stbi_load glGenTextures) s Hwf Hfit)
      as (s' & Hrun & Hwf' & Hreg & _).
    destruct (proj1 (loads_spec (SceneFiles.calls stbi_load glGenTextures) s Hwf))
      as (s1 & Hrun1 & _ & Hcnt).
    { unfold SceneManager.TEXTURE_CAPACITY. fold decoded. lia. }
    rewrite Hrun in Hrun1. injection Hrun1 as <-.
    rewrite Hrun.
    destruct (BindGLTextures_loop_spec (SceneManager.m_textureIDs s')
                (Z.to_nat (SceneManager.m_loadedTextures s')) 0 units) as (units' & Hb & Hin & _).
    { destruct Hwf' as [Hlen' Hcnt']. unfold SceneManager.TEXTURE_CAPACITY in *. lia. }
    exists units', s'. unfold SceneManager.BindGLTextures. rewrite Hb.
    split; [reflexivity|]. split; [exact Hwf'|]. split; [exact Hcnt|]. split; [exact Hreg|].
    intros j e Hj. apply registered_lookup in Hj as [Hlt Hj]. apply (Hin j e); [lia | exact Hj].
  - intros Hover.
    rewrite (proj2 (loads_spec (SceneFiles.calls stbi_load glGenTextures) s Hwf));
      [reflexivity|].
    unfold SceneManager.TEXTURE_CAPACITY. fold decoded. lia.
Qed.

(** A fresh object and a file system on which every file is an RGB image:
    the eight textures take the slots 0 to 7. *)
Lemma LoadSceneTextures_registers_witness :
  let s := SceneManager.SceneManager None in
  Registry.wf s /\
  exists units' s',
    SceneManager.LoadSceneTextures SceneFiles.all_rgb SceneFiles.by_length ∅ s
      = SceneManager.Returned (units', s') /\
    SceneManager.m_loadedTextures s' = 8%Z /\
    SceneManager.tag <$> Registry.registered s'
      = ["wood"; "metal"; "candle"; "book"; "page"; "pen"; "inkpot"; "cloth"].
Proof.
  intros s. split; [apply wf_constructor|].
  destruct (proj1 (LoadSceneTextures_registers SceneFiles.all_rgb SceneFiles.by_length ∅ s
                     (wf_constructor None)))
    as (units' & s' & Hrun & _ & Hcnt & Hreg & _).
  { vm_compute. discriminate. }
  exists units', s'. split; [exact Hrun|]. split; [exact Hcnt|]. rewrite Hreg. reflexivity.
Defined.

(** [PrepareScene] is [LoadSceneTextures] followed by two steps that do not
    touch the registry. *)
Lemma PrepareScene_after_load stbi_load glGenTextures units (s : SceneManager.state) :
  match SceneManager.LoadSceneTextures stbi_load glGenTextures units s with
  | SceneManager.Returned (units', s1) =>
      exists s2,
        SceneManager.PrepareScene stbi_load glGenTextures units s
          = SceneManager.Returned (units', s2) /\
        SceneManager.m_textureIDs s2 = SceneManager.m_textureIDs s1 /\
        SceneManager.m_loadedTextures s2 = SceneManager.m_loadedTextures s1 /\
        SceneManager.OBJECT_MATERIAL.tag <$> SceneManager.m_objectMaterials s2
          = ["metal"; "wood"; "candle"; "flame"; "cement"]
  | SceneManager.OutOfBounds =>
      SceneManager.PrepareScene stbi_load glGenTextures units s = SceneManager.OutOfBounds
  end.
Proof.
  unfold SceneManager.PrepareScene, SceneManager.bind.
  destruct (SceneManager.LoadSceneTextures stbi_load glGenTextures units s) as [[units' s1]|];
    [|reflexivity].
  eexists. split; [reflexivity|]. repeat split.
Qed.

Lemma wf_same_registry (s s' : SceneManager.state) :
  SceneManager.m_textureIDs s' = SceneManager.m_textureIDs s ->
  SceneManager.m_loadedTextures s' = SceneManager.m_loadedTextures s ->
  Registry.wf s -> Registry.wf s'.
Proof. unfold Registry.wf. intros -> ->. tauto. Qed.

Lemma registered_same_registry (s s' : SceneManager.state) :
  SceneManager.m_textureIDs s' = SceneManager.m_textureIDs s ->
  SceneManager.m_loadedTextures s' = SceneManager.m_loadedTextures s ->
  Registry.registered s' = Registry.registered s.
Proof. unfold Registry.registered. intros -> ->. reflexivity. Qed.

(** X5. [PrepareScene] can be run twice on a fresh object whatever the
    files on disk are. The second run registers its textures behind those
    of the first, so every tag the first run registered keeps its slot and
    its texture, and the material table is rebuilt, not extended. Once the
    registering loads of three runs together exceed 16, the third run
    writes past the end of the texture array. *)
Theorem PrepareScene_repeated
    (pShaderManager : option Shader.ShaderManager)
    (stbi1 stbi2 : string -> option SceneManager.Image) (gen1 gen2 : string -> Z)
    (units : gmap nat Z) :
  exists units1 s1 units2 s2,
    SceneManager.PrepareScene stbi1 gen1 units (SceneManager.SceneManager pShaderManager)
      = SceneManager.Returned (units1, s1) /\
    SceneManager.PrepareScene stbi2 gen2 units1 s1 = SceneManager.Returned (units2, s2) /\
    Registry.wf s2 /\
    Registry.registered s2 =
      omap SceneFiles.entry (SceneFiles.calls stbi1 gen1)
      ++ omap SceneFiles.entry (SceneFiles.calls stbi2 gen2) /\
    (forall t slot id,
        slot <> (-1)%Z ->
        SceneManager.FindTextureSlot t s1 = SceneManager.Returned (slot, s1) ->
        SceneManager.FindTextureID t s1 = SceneManager.Returned (id, s1) ->
        SceneManager.FindTextureSlot t s2 = SceneManager.Returned (slot, s2) /\
        SceneManager.FindTextureID t s2 = SceneManager.Returned (id, s2)) /\
    length (SceneManager.m_objectMaterials s2) = 5%nat /\
    (forall stbi3 gen3 units3,
        (16 < Registry.successes (SceneFiles.calls stbi1 gen1)
              + Registry.successes (SceneFiles.calls stbi2 gen2)
              + Registry.successes (SceneFiles.calls stbi3 gen3))%nat ->
        SceneManager.PrepareScene stbi3 gen3 units3 s2 = SceneManager.OutOfBounds).
Proof.
  set (s0 := SceneManager.SceneManager pShaderManager).
  pose proof (wf_constructor pShaderManager) as Hwf0. fold s0 in Hwf0.
  pose proof (successes_calls stbi1 gen1) as H1. pose proof (successes_calls stbi2 gen2) as H2.
  destruct (proj1 (LoadSceneTextures_run stbi1 gen1 units s0 Hwf0))
    as (u1 & l1 & Hl1 & Hwfl1 & Hc1 & Hr1).
  { change (SceneManager.m_loadedTextures s0) with 0%Z. lia. }
  pose proof (PrepareScene_after_load stbi1 gen1 units s0) as Hp1. rewrite Hl1 in Hp1.
  destruct Hp1 as (s1 & Hp1 & Harr1 & Hn1 & _).
  assert (Hwf1 : Registry.wf s1) by (apply (wf_same_registry l1); assumption).
  assert (Hreg1 : Registry.registered s1 = omap SceneFiles.entry (SceneFiles.calls stbi1 gen1)).
  { rewrite (registered_same_registry l1) by assumption. rewrite Hr1. reflexivity. }
  change (SceneManager.m_loadedTextures s0) with 0%Z in Hc1.
  destruct (proj1 (LoadSceneTextures_run stbi2 gen2 u1 s1 Hwf1))
    as (u2 & l2 & Hl2 & Hwfl2 & Hc2 & Hr2).
  { rewrite Hn1, Hc1. lia. }
  pose proof (PrepareScene_after_load stbi2 gen2 u1 s1) as Hp2. rewrite Hl2 in Hp2.
  destruct Hp2 as (s2 & Hp2 & Harr2 & Hn2 & Hmat2).
  assert (Hwf2 : Registry.wf s2) by (apply (wf_same_registry l2); assumption).
  assert (Hreg2 : Registry.registered s2 =
                  omap SceneFiles.entry (SceneFiles.calls stbi1 gen1)
                  ++ omap SceneFiles.entry (SceneFiles.calls stbi2 gen2)).
  { rewrite (registered_same_registry l2) by assumption. rewrite Hr2, Hreg1. reflexivity. }
  exists u1, s1, u2, s2. split; [exact Hp1|]. split; [exact Hp2|]. split; [exact Hwf2|].
  split; [exact Hreg2|]. split; [|split].
  - intros t slot id Hfound Hslot Hid.
    destruct (Find_registered s1 t Hwf1) as [Hs1 Hi1].
    rewrite Hs1 in Hslot. rewrite Hi1 in Hid. injection Hslot as <-. injection Hid as <-.
    destruct (Find_registered s2 t Hwf2) as [-> ->].
    unfold Lookup.slot, Lookup.id, Lookup.first in *. rewrite Hreg2, <- Hreg1.
    destruct (list_find (fun e => SceneManager.tag e = t) (Registry.registered s1))
      as [[i e]|] eqn:Hfind; [|contradiction Hfound; reflexivity].
    rewrite (list_find_app_l _ _ _ i e Hfind). split; reflexivity.
  - rewrite <- (length_fmap SceneManager.OBJECT_MATERIAL.tag), Hmat2. reflexivity.
  - intros stbi3 gen3 u3 Hover.
    pose proof (PrepareScene_after_load stbi3 gen3 u3 s2) as Hp3.
    rewrite (proj2 (LoadSceneTextures_run stbi3 gen3 u3 s2 Hwf2)) in Hp3;
      [exact Hp3|].
    rewrite Hn2, Hc2, Hn1, Hc1. lia.
Qed.

(** Three runs with every file an RGB image: the third runs past the
    array. *)
Lemma PrepareScene_repeated_witness :
  exists units1 s1 units2 s2,
    SceneManager.PrepareScene SceneFiles.all_rgb SceneFiles.by_length ∅
      (SceneManager.SceneManager None) = SceneManager.Returned (units1, s1) /\
    SceneManager.PrepareScene SceneFiles.all_rgb SceneFiles.by_length units1 s1
      = SceneManager.Returned (units2, s2) /\
    SceneManager.PrepareScene SceneFiles.all_rgb SceneFiles.by_length units2 s2
      = SceneManager.OutOfBounds.
Proof.
  destruct (PrepareScene_repeated None SceneFiles.all_rgb SceneFiles.all_rgb
              SceneFiles.by_length SceneFiles.by_length ∅)
    as (u1 & s1 & u2 & s2 & H1 & H2 & _ & _ & _ & _ & H3).
  exists u1, s1, u2, s2. split; [exact H1|]. split; [exact H2|].
  apply (H3 SceneFiles.all_rgb SceneFiles.by_length u2). vm_compute. lia.
Defined.

(* ===================================================================== *)
(** ** A whole frame                                                      *)
(* ===================================================================== *)

Lemma keeps_refl (o : option Shader.ShaderManager) : Frame.keeps o o.
Proof. destruct o; cbn; [reflexivity | exact I]. Qed.

Lemma keeps_trans (a b c : option Shader.ShaderManager) :
  Frame.keeps a b -> Frame.keeps b c -> Frame.keeps a c.
Proof.
  destruct a, b, c; cbn; try tauto. intros H1 H2 k Hk. rewrite H2, H1 by exact Hk. reflexivity.
Qed.

Lemma keeps_fmap (f : Shader.ShaderManager -> Shader.ShaderManager)
    (o : option Shader.ShaderManager) :
  (forall sh k, k ∉ Frame.written -> f sh !! k = sh !! k) -> Frame.keeps o (f <$> o).
Proof. intros Hf. destruct o; cbn; [intros k Hk; apply Hf, Hk | exact I]. Qed.

(** A name of [Frame.written] differs from every name outside it. *)
Ltac written_name :=
  let E := fresh in
  intros E; subst;
  match goal with H : _ ∉ Frame.written |- _ => apply H end;
  unfold Frame.written; repeat constructor.

(** Uniform writes under written names. *)
Ltac keeps_writes :=
  intros ? ? ?;
  unfold Shader.setIntValue, Shader.setBoolValue, Shader.setFloatValue, Shader.setVec2Value,
    Shader.setVec3Value, Shader.setVec4Value, Shader.setMat4Value, Shader.setSampler2DValue,
    SceneManager.g_ModelName, SceneManager.g_ColorValueName, SceneManager.g_TextureValueName,
    SceneManager.g_UseTextureName;
  cbv zeta;
  repeat (rewrite lookup_insert_ne by written_name);
  reflexivity.

Lemma runs_meshes_eq {A} (ms ms' : list SceneManager.Mesh) (c : SceneManager.M A) :
  Frame.runs ms c -> ms = ms' -> Frame.runs ms' c.
Proof. intros H <-. exact H. Qed.

Lemma runs_ret {A} (a : A) : Frame.runs [] (SceneManager.ret a).
Proof.
  intros s _. exists a, s. split; [reflexivity|]. repeat split.
  - apply keeps_refl.
  - exists []. rewrite app_nil_r. split; reflexivity.
Qed.

Lemma runs_bind {A B} (ms1 ms2 : list SceneManager.Mesh)
    (c : SceneManager.M A) (k : A -> SceneManager.M B) :
  Frame.runs ms1 c -> (forall a, Frame.runs ms2 (k a)) ->
  Frame.runs (ms1 ++ ms2) (SceneManager.bind c k).
Proof.
  intros Hc Hk s Hwf.
  destruct (Hc s Hwf) as (a & s1 & E1 & Harr1 & Hn1 & Hm1 & Hk1 & ds1 & Hlog1 & Hmesh1).
  assert (Hwf1 : Registry.wf s1) by (apply (wf_same_registry s); assumption).
  destruct (Hk a s1 Hwf1) as (b & s2 & E2 & Harr2 & Hn2 & Hm2 & Hk2 & ds2 & Hlog2 & Hmesh2).
  exists b, s2. unfold SceneManager.bind. rewrite E1. split; [exact E2|].
  split; [congruence|]. split; [congruence|]. split; [congruence|].
  split; [apply (keeps_trans _ _ _ Hk1 Hk2)|].
  exists (ds1 ++ ds2). rewrite Hlog2, Hlog1, <- app_assoc. split; [reflexivity|].
  rewrite fmap_app, Hmesh1, Hmesh2. reflexivity.
Qed.

Lemma runs_withShader (f : Shader.ShaderManager -> Shader.ShaderManager) :
  (forall sh k, k ∉ Frame.written -> f sh !! k = sh !! k) ->
  Frame.runs [] (SceneManager.withShader f).
Proof.
  intros Hf s _. eexists tt, _. split; [reflexivity|]. repeat split.
  - apply keeps_fmap, Hf.
  - exists []. cbn [SceneManager.set_shader SceneManager.m_basicMeshes].
    rewrite app_nil_r. split; reflexivity.
Qed.

Lemma runs_Draw (m : SceneManager.Mesh) : Frame.runs [m] (SceneManager.Draw m).
Proof.
  intros s _. eexists tt, _. split; [reflexivity|]. repeat split.
  - apply keeps_refl.
  - eexists. split; reflexivity.
Qed.

Lemma runs_SetTransformations S rx ry rz T :
  Frame.runs [] (SceneManager.SetTransformations S rx ry rz T).
Proof. apply runs_withShader. keeps_writes. Qed.

Lemma runs_SetShaderColor r g b a : Frame.runs [] (SceneManager.SetShaderColor r g b a).
Proof. apply runs_withShader. keeps_writes. Qed.

Lemma runs_SetTextureUVScale u v : Frame.runs [] (SceneManager.SetTextureUVScale u v).
Proof. apply runs_withShader. keeps_writes. Qed.

Lemma runs_setUseTexture b :
  Frame.runs [] (SceneManager.withShader (Shader.setIntValue SceneManager.g_UseTextureName b)).
Proof. apply runs_withShader. keeps_writes. Qed.

Lemma runs_setUseLighting b :
  Frame.runs [] (SceneManager.withShader (Shader.setBoolValue "bUseLighting" b)).
Proof. apply runs_withShader. keeps_writes. Qed.

Lemma runs_SetShaderMaterial t : Frame.runs [] (SceneManager.SetShaderMaterial t).
Proof.
  intros s Hwf.
  pose (sel := SceneManager.selected (SceneManager.m_objectMaterials s) t).
  assert (Hf : Frame.runs []
                 (SceneManager.withShader (fun sh =>
                    Shader.setFloatValue "material.shininess"
                      (SceneManager.OBJECT_MATERIAL.shininess sel)
                      (Shader.setVec3Value "material.specularColor"
                         (SceneManager.OBJECT_MATERIAL.specularColor sel)
                         (Shader.setVec3Value "material.diffuseColor"
                            (SceneManager.OBJECT_MATERIAL.diffuseColor sel) sh)))))
    by (apply runs_withShader; keeps_writes).
  exact (Hf s Hwf).
Qed.

Lemma runs_SetShaderTexture t : Frame.runs [] (SceneManager.SetShaderTexture t).
Proof.
  intros s Hwf. destruct (SceneManager.m_pShaderManager s) as [sh|] eqn:Hsh.
  - destruct (Find_registered s t Hwf) as [Hslot _].
    rewrite (SetShaderTexture_run s t sh _ Hsh Hslot).
    eexists tt, _. split; [reflexivity|]. repeat split.
    + cbn [SceneManager.set_shader SceneManager.m_pShaderManager Frame.keeps].
      clear Hsh. revert sh. keeps_writes.
    + exists []. cbn [SceneManager.set_shader SceneManager.m_basicMeshes].
      rewrite app_nil_r. split; reflexivity.
  - rewrite (SetShaderTexture_null s t Hsh). exists tt, s. split; [reflexivity|]. repeat split.
    + rewrite Hsh. exact I.
    + exists []. rewrite app_nil_r. split; reflexivity.
Qed.

Lemma runs_RenderScene_light f p : Frame.runs [] (SceneManager.RenderScene_light f p).
Proof. apply runs_withShader. keeps_writes. Qed.

(** Composes the steps of a method body. *)
Ltac runs_steps :=
  cbv beta zeta;
  repeat first
    [ apply runs_ret
    | apply runs_Draw
    | apply runs_SetTransformations
    | apply runs_SetShaderColor
    | apply runs_SetTextureUVScale
    | apply runs_SetShaderMaterial
    | apply runs_SetShaderTexture
    | apply runs_setUseTexture
    | apply runs_setUseLighting
    | apply runs_RenderScene_light
    | (eapply runs_bind; [|intros ?; cbv beta zeta]) ].

Lemma runs_table : Frame.runs [SceneManager.BoxMesh] SceneManager.RenderScene_table.
Proof.
  eapply runs_meshes_eq; [unfold SceneManager.RenderScene_table; runs_steps | reflexivity].
Qed.

Lemma runs_candle :
  Frame.runs
    [SceneManager.TaperedCylinderMesh; SceneManager.CylinderMesh; SceneManager.SphereMesh;
     SceneManager.CylinderMesh; SceneManager.TaperedCylinderMesh; SceneManager.CylinderMesh;
     SceneManager.CylinderMesh; SceneManager.CylinderMesh]
    SceneManager.RenderScene_candle.
Proof.
  eapply runs_meshes_eq; [unfold SceneManager.RenderScene_candle; runs_steps | reflexivity].
Qed.

Lemma runs_flame t y :
  Frame.runs [SceneManager.SphereMesh; SceneManager.SphereMesh]
             (SceneManager.RenderScene_flame t y).
Proof.
  eapply runs_meshes_eq; [unfold SceneManager.RenderScene_flame; runs_steps | reflexivity].
Qed.

Lemma runs_cover :
  Frame.runs [SceneManager.BoxMesh; SceneManager.BoxMesh] SceneManager.DrawBookSetup_cover.
Proof.
  eapply runs_meshes_eq; [unfold SceneManager.DrawBookSetup_cover; runs_steps | reflexivity].
Qed.

Lemma runs_page i : Frame.runs [SceneManager.BoxMesh] (SceneManager.DrawBookSetup_page i).
Proof.
  eapply runs_meshes_eq; [unfold SceneManager.DrawBookSetup_page; runs_steps | reflexivity].
Qed.

Lemma runs_pages n : forall i,
  Frame.runs (replicate n SceneManager.BoxMesh) (SceneManager.DrawBookSetup_pages n i).
Proof.
  induction n as [|n IH]; intros i; cbn [SceneManager.DrawBookSetup_pages replicate].
  - apply runs_ret.
  - apply (runs_bind [SceneManager.BoxMesh]); [apply runs_page | intros _; apply IH].
Qed.

Lemma runs_divider :
  Frame.runs [SceneManager.BoxMesh; SceneManager.BoxMesh] SceneManager.DrawBookSetup_divider.
Proof.
  eapply runs_meshes_eq; [unfold SceneManager.DrawBookSetup_divider; runs_steps | reflexivity].
Qed.

Lemma runs_pen rotY :
  Frame.runs [SceneManager.TaperedCylinderMesh; SceneManager.ConeMesh]
             (SceneManager.DrawBookSetup_pen rotY).
Proof.
  eapply runs_meshes_eq; [unfold SceneManager.DrawBookSetup_pen; runs_steps | reflexivity].
Qed.

Lemma runs_inkpot_paper :
  Frame.runs [SceneManager.SphereMesh; SceneManager.CylinderMesh; SceneManager.CylinderMesh;
              SceneManager.BoxMesh]
             SceneManager.DrawBookSetup_inkpot_paper.
Proof.
  eapply runs_meshes_eq;
    [unfold SceneManager.DrawBookSetup_inkpot_paper; runs_steps | reflexivity].
Qed.

Lemma runs_closed_book :
  Frame.runs [SceneManager.BoxMesh; SceneManager.BoxMesh; SceneManager.BoxMesh;
              SceneManager.BoxMesh]
             SceneManager.DrawBookSetup_closed_book.
Proof.
  eapply runs_meshes_eq;
    [unfold SceneManager.DrawBookSetup_closed_book; runs_steps | reflexivity].
Qed.

Lemma runs_RenderScene t : Frame.runs Frame.meshes (SceneManager.RenderScene t).
Proof.
  unfold SceneManager.RenderScene, SceneManager.DrawBookSetup, Frame.meshes.
  eapply runs_meshes_eq.
  - eapply runs_bind; [apply runs_setUseLighting | intros _].
    eapply runs_bind; [apply runs_table | intros _].
    eapply runs_bind; [apply runs_candle | intros y].
    eapply runs_bind; [apply runs_flame | intros _].
    eapply runs_bind; [apply runs_cover | intros _].
    eapply runs_bind; [apply (runs_pages SceneManager.numPageLayers) | intros _].
    eapply runs_bind; [apply runs_divider | intros _].
    eapply runs_bind; [apply runs_pen | intros _].
    eapply runs_bind; [apply runs_inkpot_paper | intros _].
    apply runs_closed_book.
  - reflexivity.
Qed.

(** X6. On every well-formed registry [RenderScene] returns, at every
    clock reading and with or without a shader manager: it never reads
    past the texture array. It leaves the registry and the material table
    as they are and issues the same 50 draw calls in the same order in
    every frame. Without a shader manager the draw log is all it
    changes. *)
Theorem RenderScene_draws (elapsedSeconds : R) (s : SceneManager.state) :
  Registry.wf s ->
  exists s' ds,
    SceneManager.RenderScene elapsedSeconds s = SceneManager.Returned (tt, s') /\
    SceneManager.m_textureIDs s' = SceneManager.m_textureIDs s /\
    SceneManager.m_loadedTextures s' = SceneManager.m_loadedTextures s /\
    SceneManager.m_objectMaterials s' = SceneManager.m_objectMaterials s /\
    SceneManager.m_basicMeshes s' = SceneManager.m_basicMeshes s ++ ds /\
    SceneManager.mesh <$> ds = Frame.meshes /\
    length ds = 50%nat /\
    (SceneManager.m_pShaderManager s = None ->
     s' = SceneManager.set_drawn (SceneManager.m_basicMeshes s ++ ds) s).
Proof.
  intros Hwf.
  destruct (runs_RenderScene elapsedSeconds s Hwf)
    as ([] & s' & Hrun & Harr & Hn & Hm & Hk & ds & Hlog & Hmesh).
  exists s', ds. split; [exact Hrun|]. split; [exact Harr|]. split; [exact Hn|].
  split; [exact Hm|]. split; [exact Hlog|]. split; [exact Hmesh|]. split.
  - rewrite <- (length_fmap SceneManager.mesh), Hmesh. reflexivity.
  - intros Hnone. rewrite Hnone in Hk. destruct s' as [shd' arr' n' mats' dr'].
    destruct s as [shd arr n mats dr]. cbn in *. subst.
    destruct shd'; [contradiction | reflexivity].
Qed.

(** The first frame of a fresh object without a shader manager. *)
Lemma RenderScene_draws_witness :
  let s := SceneManager.SceneManager None in
  Registry.wf s /\
  exists s' ds,
    SceneManager.RenderScene 0 s = SceneManager.Returned (tt, s') /\
    SceneManager.m_basicMeshes s' = ds /\ length ds = 50%nat.
Proof.
  intros s. split; [apply wf_constructor|].
  destruct (RenderScene_draws 0 s (wf_constructor None))
    as (s' & ds & Hrun & _ & _ & _ & Hlog & _ & Hlen & _).
  exists s', ds. split; [exact Hrun|]. split; [exact Hlog | exact Hlen].
Defined.

(** X7. A frame writes no uniform other than the lighting switch, the
    model matrix, the texture and colour selection, the UV scale, the
    material coefficients and the five uniforms of point light 0. Every
    other uniform of the shader program, among them the [view],
    [projection] and [viewPosition] written by the view manager, the
    directional light and point light 1, has after [RenderScene] the value
    it had before. *)
Theorem RenderScene_uniform_footprint
    (elapsedSeconds : R) (s : SceneManager.state) (sh : Shader.ShaderManager) :
  Registry.wf s ->
  SceneManager.m_pShaderManager s = Some sh ->
  exists s' sh',
    SceneManager.RenderScene elapsedSeconds s = SceneManager.Returned (tt, s') /\
    SceneManager.m_pShaderManager s' = Some sh' /\
    (forall k : string, k ∉ Frame.written -> sh' !! k = sh !! k) /\
    sh' !! "view" = sh !! "view" /\
    sh' !! "projection" = sh !! "projection" /\
    sh' !! "viewPosition" = sh !! "viewPosition" /\
    sh' !! "directionalLight.diffuse" = sh !! "directionalLight.diffuse" /\
    sh' !! "pointLights[1].diffuse" = sh !! "pointLights[1].diffuse".
Proof.
  intros Hwf Hsh.
  destruct (runs_RenderScene elapsedSeconds s Hwf)
    as ([] & s' & Hrun & _ & _ & _ & Hk & _).
  rewrite Hsh in Hk. destruct (SceneManager.m_pShaderManager s') as [sh'|] eqn:Hsh';
    [|contradiction].
  cbn in Hk. exists s', sh'. split; [exact Hrun|]. split; [exact Hsh'|].
  split; [exact Hk|].
  repeat split; apply Hk; unfold Frame.written; intros Hin;
    repeat (apply elem_of_cons in Hin as [Hin|Hin]; [discriminate Hin|]);
    apply elem_of_nil in Hin; exact Hin.
Qed.

(** A frame on a shader program that holds a view position. *)
Lemma RenderScene_uniform_footprint_witness :
  let sh : Shader.ShaderManager :=
    <["viewPosition" := Shader.UVec3 (GLM.mk_vec3 0 9 18)]> ∅ in
  let s := SceneManager.SceneManager (Some sh) in
  Registry.wf s /\ SceneManager.m_pShaderManager s = Some sh /\
  exists s' sh',
    SceneManager.RenderScene 1 s = SceneManager.Returned (tt, s') /\
    SceneManager.m_pShaderManager s' = Some sh' /\
    sh' !! "viewPosition" = Some (Shader.UVec3 (GLM.mk_vec3 0 9 18)).
Proof.
  intros sh s. split; [apply wf_constructor|]. split; [reflexivity|].
  destruct (RenderScene_uniform_footprint 1 s sh (wf_constructor _) eq_refl)
    as (s' & sh' & Hrun & Hsh' & _ & _ & _ & Hview & _).
  exists s', sh'. split; [exact Hrun|]. split; [exact Hsh'|].
  rewrite Hview. apply lookup_insert_eq.
Defined.

(** A run of frames is a frame step by step. *)
Lemma frames_keep (clock : list R) :
  forall s : SceneManager.state,
    Registry.wf s ->
    exists s',
      Frames.frames clock s = SceneManager.Returned (tt, s') /\
      Registry.wf s' /\
      Frame.keeps (SceneManager.m_pShaderManager s) (SceneManager.m_pShaderManager s') /\
      length (SceneManager.m_basicMeshes s')
      = (length (SceneManager.m_basicMeshes s) + 50 * length clock)%nat.
Proof.
  induction clock as [|t rest IH]; intros s Hwf.
  - exists s. split; [reflexivity|]. split; [exact Hwf|]. split; [apply keeps_refl|].
    cbn [length]. lia.
  - destruct (runs_RenderScene t s Hwf)
      as ([] & s1 & Hrun & Harr & Hn & _ & Hk & ds & Hlog & Hmesh).
    assert (Hwf1 : Registry.wf s1) by (apply (wf_same_registry s); assumption).
    destruct (IH s1 Hwf1) as (s' & Hrest & Hwf' & Hk' & Hlen).
    exists s'. cbn [Frames.frames]. unfold SceneManager.bind. rewrite Hrun.
    split; [exact Hrest|]. split; [exact Hwf'|]. split; [apply (keeps_trans _ _ _ Hk Hk')|].
    rewrite Hlen, Hlog, length_app, <- (length_fmap SceneManager.mesh ds), Hmesh.
    cbn [length]. change (length Frame.meshes) with 50%nat. lia.
Qed.

(** X8. Of the lights that [SetupSceneLights] configures only point light
    0 is touched again: after any number of frames the directional light,
    point light 1 and the spot light switch hold exactly what
    [SetupSceneLights] wrote, and each frame has added its 50 draw calls. *)
Theorem SetupSceneLights_survive_frames
    (clock : list R) (s : SceneManager.state) (sh : Shader.ShaderManager) :
  Registry.wf s ->
  SceneManager.m_pShaderManager s = Some sh ->
  exists s1 s2 sh2,
    SceneManager.SetupSceneLights s = SceneManager.Returned (tt, s1) /\
    Frames.frames clock s1 = SceneManager.Returned (tt, s2) /\
    SceneManager.m_pShaderManager s2 = Some sh2 /\
    length (SceneManager.m_basicMeshes s2)
      = (length (SceneManager.m_basicMeshes s) + 50 * length clock)%nat /\
    sh2 !! "directionalLight.direction"
      = Some (Shader.UVec3 (GLM.mk_vec3 (-0.2) (-1.0) (-0.3))) /\
    sh2 !! "directionalLight.ambient" = Some (Shader.UVec3 (GLM.mk_vec3 0.12 0.12 0.12)) /\
    sh2 !! "directionalLight.diffuse" = Some (Shader.UVec3 (GLM.mk_vec3 0.55 0.52 0.48)) /\
    sh2 !! "directionalLight.specular" = Some (Shader.UVec3 (GLM.mk_vec3 0.4 0.4 0.4)) /\
    sh2 !! "directionalLight.bActive" = Some (Shader.UInt 1) /\
    sh2 !! "pointLights[1].position"
      = Some (Shader.UVec3 (GLM.mk_vec3 (-4.0) 5.0 (-2.0))) /\
    sh2 !! "pointLights[1].ambient" = Some (Shader.UVec3 (GLM.mk_vec3 0.03 0.03 0.05)) /\
    sh2 !! "pointLights[1].diffuse" = Some (Shader.UVec3 (GLM.mk_vec3 0.35 0.45 0.6)) /\
    sh2 !! "pointLights[1].specular" = Some (Shader.UVec3 (GLM.mk_vec3 0.35 0.35 0.4)) /\
    sh2 !! "pointLights[1].bActive" = Some (Shader.UInt 1) /\
    sh2 !! "spotLight.bActive" = Some (Shader.UInt 0).
Proof.
  intros Hwf Hsh. destruct s as [shd arr n mats dr]. cbn in Hsh. subst shd.
  eexists. 
  assert (Hwf1 : Registry.wf (SceneManager.set_shader
                    (SceneManager.m_pShaderManager
                       (match SceneManager.SetupSceneLights
                                (SceneManager.mk_state (Some sh) arr n mats dr) with
                        | SceneManager.Returned (_, s1) => s1
                        | SceneManager.OutOfBounds => SceneManager.mk_state (Some sh) arr n mats dr
                        end))
                    (SceneManager.mk_state (Some sh) arr n mats dr))) by exact Hwf.
  destruct (frames_keep clock _ Hwf1) as (s2 & Hrun & _ & Hk & Hlen).
  cbn [SceneManager.set_shader SceneManager.m_pShaderManager SceneManager.m_textureIDs
       SceneManager.m_loadedTextures SceneManager.m_objectMaterials SceneManager.m_basicMeshes
       SceneManager.SetupSceneLights SceneManager.withShader fmap option_fmap option_map]
    in Hrun, Hk, Hlen.
  destruct (SceneManager.m_pShaderManager s2) as [sh2|] eqn:Hsh2; [|contradiction].
  cbn [Frame.keeps] in Hk.
  exists s2, sh2. split; [reflexivity|]. split; [exact Hrun|]. split; [exact Hsh2|].
  split; [exact Hlen|].
  repeat split;
    (rewrite Hk by (unfold Frame.written; intros Hin;
                    repeat (apply elem_of_cons in Hin as [Hin|Hin]; [discriminate Hin|]);
                    apply elem_of_nil in Hin; exact Hin));
    cbv zeta; read_uniform.
Qed.

(** Three frames after the lights were set up on a fresh object. *)
Lemma SetupSceneLights_survive_frames_witness :
  let s := SceneManager.SceneManager (Some ∅) in
  Registry.wf s /\ SceneManager.m_pShaderManager s = Some ∅ /\
  exists s1 s2 sh2,
    SceneManager.SetupSceneLights s = SceneManager.Returned (tt, s1) /\
    Frames.frames [0; 0.016; 0.033] s1 = SceneManager.Returned (tt, s2) /\
    SceneManager.m_pShaderManager s2 = Some sh2 /\
    length (SceneManager.m_basicMeshes s2) = 150%nat /\
    sh2 !! "pointLights[1].bActive" = Some (Shader.UInt 1).
Proof.
  intros s. split; [apply wf_constructor|]. split; [reflexivity|].
  destruct (SetupSceneLights_survive_frames [0; 0.016; 0.033] s ∅ (wf_constructor _) eq_refl)
    as (s1 & s2 & sh2 & H1 & H2 & H3 & H4 & _ & _ & _ & _ & _ & _ & _ & _ & _ & H5 & _).
  exists s1, s2, sh2. repeat split; assumption.
Defined.

(* ===================================================================== *)
(** ** More on the model matrix                                           *)
(* ===================================================================== *)

Lemma sin_turns (x : R) (k : Z) : sin (x + 2 * IZR k * PI) = sin x.
Proof.
  destruct (Z_le_gt_dec 0 k) as [Hk|Hk].
  - rewrite <- (Z2Nat.id k Hk), <- INR_IZR_INZ. apply sin_period.
  - rewrite <- (sin_period (x + 2 * IZR k * PI) (Z.to_nat (- k))).
    rewrite INR_IZR_INZ, Z2Nat.id by lia. rewrite opp_IZR. f_equal. ring.
Qed.

Lemma cos_turns (x : R) (k : Z) : cos (x + 2 * IZR k * PI) = cos x.
Proof.
  destruct (Z_le_gt_dec 0 k) as [Hk|Hk].
  - rewrite <- (Z2Nat.id k Hk), <- INR_IZR_INZ. apply cos_period.
  - rewrite <- (cos_period (x + 2 * IZR k * PI) (Z.to_nat (- k))).
    rewrite INR_IZR_INZ, Z2Nat.id by lia. rewrite opp_IZR. f_equal. ring.
Qed.

Lemma rad_turns (d : R) (k : Z) :
  TransformSpec.rad (d + 360 * IZR k) = TransformSpec.rad d + 2 * IZR k * PI.
Proof. unfold TransformSpec.rad. field. Qed.

(** X9. Whole turns do not matter: adding any multiple of 360 degrees,
    positive or negative, to any of the three angles gives the same model
    matrix. *)
Theorem modelView_whole_turns (S : GLM.vec3) (rx ry rz : R) (T : GLM.vec3) (kx ky kz : Z) :
  SceneManager.modelView S (rx + 360 * IZR kx) (ry + 360 * IZR ky) (rz + 360 * IZR kz) T
  = SceneManager.modelView S rx ry rz T.
Proof.
  rewrite !modelView_spec.
  unfold TransformSpec.rotateX, TransformSpec.rotateY, TransformSpec.rotateZ.
  rewrite !rad_turns, !sin_turns, !cos_turns. reflexivity.
Qed.

Lemma sin_cos_1 (a : R) : cos a * cos a = 1 - sin a * sin a.
Proof. pose proof (sin2_cos2 a) as H. unfold Rsqr in H. lra. Qed.

Lemma rotateX_rigid (a : R) (u v : GLM.vec4) :
  GLM.w4 (GLM.mul_vec (TransformSpec.rotateX a) u) = GLM.w4 u /\
  Points.dist2_4 (GLM.mul_vec (TransformSpec.rotateX a) u)
                 (GLM.mul_vec (TransformSpec.rotateX a) v) = Points.dist2_4 u v.
Proof.
  destruct u, v. unfold Points.dist2_4, Points.dist2, GLM.dot, GLM.vsub, TransformSpec.rotateX.
  glm_unfold. split; [ring|]. ring [(sin_cos_1 a)].
Qed.

Lemma rotateY_rigid (a : R) (u v : GLM.vec4) :
  GLM.w4 (GLM.mul_vec (TransformSpec.rotateY a) u) = GLM.w4 u /\
  Points.dist2_4 (GLM.mul_vec (TransformSpec.rotateY a) u)
                 (GLM.mul_vec (TransformSpec.rotateY a) v) = Points.dist2_4 u v.
Proof.
  destruct u, v. unfold Points.dist2_4, Points.dist2, GLM.dot, GLM.vsub, TransformSpec.rotateY.
  glm_unfold. split; [ring|]. ring [(sin_cos_1 a)].
Qed.

Lemma rotateZ_rigid (a : R) (u v : GLM.vec4) :
  GLM.w4 (GLM.mul_vec (TransformSpec.rotateZ a) u) = GLM.w4 u /\
  Points.dist2_4 (GLM.mul_vec (TransformSpec.rotateZ a) u)
                 (GLM.mul_vec (TransformSpec.rotateZ a) v) = Points.dist2_4 u v.
Proof.
  destruct u, v. unfold Points.dist2_4, Points.dist2, GLM.dot, GLM.vsub, TransformSpec.rotateZ.
  glm_unfold. split; [ring|]. ring [(sin_cos_1 a)].
Qed.

Lemma translate_rigid (T : GLM.vec3) (u v : GLM.vec4) :
  GLM.w4 u = GLM.w4 v ->
  Points.dist2_4 (GLM.mul_vec (TransformSpec.translate T) u)
                 (GLM.mul_vec (TransformSpec.translate T) v) = Points.dist2_4 u v.
Proof.
  destruct u, v, T. cbn [GLM.w4]. intros ->.
  unfold Points.dist2_4, Points.dist2, GLM.dot, GLM.vsub, TransformSpec.translate.
  glm_unfold. ring.
Qed.

(** X10. The model matrix never shears: whatever the angles and the
    translation, two points of a mesh end up as far apart as they are after
    the scaling alone. With scale (1, 1, 1) the transform is a rigid
    motion. *)
Theorem modelView_keeps_distances (S : GLM.vec3) (rx ry rz : R) (T p q : GLM.vec3) :
  Points.dist2 (Points.image (SceneManager.modelView S rx ry rz T) p)
               (Points.image (SceneManager.modelView S rx ry rz T) q)
  = Points.dist2 (Points.scaled S p) (Points.scaled S q).
Proof.
  unfold Points.image. rewrite modelView_spec, !mul_vec_mul, !scale_image.
  change (Points.dist2 (GLM.vec3_of ?u) (GLM.vec3_of ?v)) with (Points.dist2_4 u v).
  set (u := GLM.vec4_of (Points.scaled S p) 1). set (v := GLM.vec4_of (Points.scaled S q) 1).
  destruct (rotateX_rigid (TransformSpec.rad rx) u v) as [_ Hx].
  destruct (rotateX_rigid (TransformSpec.rad rx) u u) as [Hxu _].
  destruct (rotateX_rigid (TransformSpec.rad rx) v v) as [Hxv _].
  set (u1 := GLM.mul_vec _ u) in *. set (v1 := GLM.mul_vec _ v) in *.
  destruct (rotateY_rigid (TransformSpec.rad ry) u1 v1) as [_ Hy].
  destruct (rotateY_rigid (TransformSpec.rad ry) u1 u1) as [Hyu _].
  destruct (rotateY_rigid (TransformSpec.rad ry) v1 v1) as [Hyv _].
  set (u2 := GLM.mul_vec _ u1) in *. set (v2 := GLM.mul_vec _ v1) in *.
  destruct (rotateZ_rigid (TransformSpec.rad rz) u2 v2) as [_ Hz].
  destruct (rotateZ_rigid (TransformSpec.rad rz) u2 u2) as [Hzu _].
  destruct (rotateZ_rigid (TransformSpec.rad rz) v2 v2) as [Hzv _].
  rewrite translate_rigid by (rewrite Hzu, Hzv, Hyu, Hyv, Hxu, Hxv; reflexivity).
  rewrite Hz, Hy, Hx. unfold Points.dist2_4, u, v. rewrite !vec3_of_vec4_of. reflexivity.
Qed.

Lemma rotateX_half_turn (p : GLM.vec3) :
  GLM.mul_vec (TransformSpec.rotateX PI) (GLM.vec4_of p 1)
  = GLM.vec4_of (GLM.mk_vec3 (GLM.x p) (- GLM.y p) (- GLM.z p)) 1.
Proof.
  destruct p. unfold TransformSpec.rotateX. rewrite cos_PI, sin_PI. glm_unfold.
  entrywise; ring.
Qed.

Lemma scaled_flip (S p : GLM.vec3) :
  GLM.mk_vec3 (GLM.x (Points.scaled S p)) (- GLM.y (Points.scaled S p))
              (- GLM.z (Points.scaled S p))
  = Points.scaled S (GLM.mk_vec3 (GLM.x p) (- GLM.y p) (- GLM.z p)).
Proof. destruct S, p. unfold Points.scaled. cbn [GLM.x GLM.y GLM.z]. entrywise; ring. Qed.

(** X11. An object drawn without rotation, as most of the scene is, has
    its mesh stretched along the axes and moved to the position; one drawn
    with 180 degrees about X, as the cup of the candle holder is, is in
    addition turned upside down: y and z change sign. *)
Theorem modelView_upright_and_flipped (S T p : GLM.vec3) :
  Points.image (SceneManager.modelView S 0 0 0 T) p = GLM.vadd T (Points.scaled S p)
  /\ Points.image (SceneManager.modelView S 180 0 0 T) p
     = GLM.vadd T (Points.scaled S (GLM.mk_vec3 (GLM.x p) (- GLM.y p) (- GLM.z p))).
Proof.
  unfold Points.image. rewrite !modelView_spec, !mul_vec_mul, !scale_image.
  rewrite rad_0, rad_180, rotateX_0, rotateY_0, rotateZ_0, !mul_vec_identity.
  rewrite rotateX_half_turn, !translate_image, !vec3_of_vec4_of, scaled_flip.
  split; reflexivity.
Qed.

(* ===================================================================== *)
(** ** The shading state of the draw calls                                *)
(* ===================================================================== *)

Lemma same_refl (sh : Shader.ShaderManager) : Shading.same sh sh.
Proof. intros k _. reflexivity. Qed.

(** A name of [Shading.changing] differs from every name outside it. *)
Ltac changing_name :=
  let E := fresh in
  intros E; subst;
  match goal with H : _ ∉ Shading.changing |- _ => apply H end;
  unfold Shading.changing; repeat constructor.

(** Uniform writes under changing names. *)
Ltac same_writes :=
  intros ? ? ?;
  unfold Shader.setIntValue, Shader.setBoolValue, Shader.setFloatValue, Shader.setVec2Value,
    Shader.setVec3Value, Shader.setVec4Value, Shader.setMat4Value, Shader.setSampler2DValue,
    SceneManager.g_ModelName, SceneManager.g_ColorValueName, SceneManager.g_TextureValueName,
    SceneManager.g_UseTextureName;
  cbv zeta;
  repeat (rewrite lookup_insert_ne by changing_name);
  reflexivity.

Lemma paints_ret {A} (a : A) : Shading.paints (SceneManager.ret a).
Proof.
  intros ref s sh _ Hsh Hsame. exists a, s, sh. split; [reflexivity|]. repeat split; try assumption.
  exists []. rewrite app_nil_r. split; [reflexivity | constructor].
Qed.

Lemma paints_bind {A B} (c : SceneManager.M A) (k : A -> SceneManager.M B) :
  Shading.paints c -> (forall a, Shading.paints (k a)) ->
  Shading.paints (SceneManager.bind c k).
Proof.
  intros Hc Hk ref s sh Hwf Hsh Hsame.
  destruct (Hc ref s sh Hwf Hsh Hsame)
    as (a & s1 & sh1 & E1 & Harr1 & Hn1 & Hsh1 & Hsame1 & ds1 & Hlog1 & Hall1).
  assert (Hwf1 : Registry.wf s1) by (apply (wf_same_registry s); assumption).
  destruct (Hk a ref s1 sh1 Hwf1 Hsh1 Hsame1)
    as (b & s2 & sh2 & E2 & Harr2 & Hn2 & Hsh2 & Hsame2 & ds2 & Hlog2 & Hall2).
  exists b, s2, sh2. unfold SceneManager.bind. rewrite E1. split; [exact E2|].
  split; [congruence|]. split; [congruence|]. split; [exact Hsh2|]. split; [exact Hsame2|].
  exists (ds1 ++ ds2). rewrite Hlog2, Hlog1, <- app_assoc. split; [reflexivity|].
  apply Forall_app. split; assumption.
Qed.

Lemma paints_withShader (f : Shader.ShaderManager -> Shader.ShaderManager) :
  (forall sh k, k ∉ Shading.changing -> f sh !! k = sh !! k) ->
  Shading.paints (SceneManager.withShader f).
Proof.
  intros Hf ref s sh _ Hsh Hsame. exists tt, (SceneManager.set_shader (Some (f sh)) s), (f sh).
  split; [unfold SceneManager.withShader; rewrite Hsh; reflexivity|].
  split; [reflexivity|]. split; [reflexivity|]. split; [reflexivity|]. split.
  - intros k Hk. rewrite Hf by exact Hk. apply Hsame, Hk.
  - exists []. cbn [SceneManager.set_shader SceneManager.m_basicMeshes].
    rewrite app_nil_r. split; [reflexivity | constructor].
Qed.

Lemma paints_Draw (m : SceneManager.Mesh) : Shading.paints (SceneManager.Draw m).
Proof.
  intros ref s sh _ Hsh Hsame. eexists tt, _, sh. split; [reflexivity|].
  split; [reflexivity|]. split; [reflexivity|]. split; [exact Hsh|]. split; [exact Hsame|].
  eexists. split; [reflexivity|]. repeat constructor.
  exists sh. split; [exact Hsh | exact Hsame].
Qed.

Lemma paints_SetTransformations S rx ry rz T :
  Shading.paints (SceneManager.SetTransformations S rx ry rz T).
Proof. apply paints_withShader. same_writes. Qed.

Lemma paints_SetShaderColor r g b a : Shading.paints (SceneManager.SetShaderColor r g b a).
Proof. apply paints_withShader. same_writes. Qed.

Lemma paints_SetTextureUVScale u v : Shading.paints (SceneManager.SetTextureUVScale u v).
Proof. apply paints_withShader. same_writes. Qed.

Lemma paints_setUseTexture b :
  Shading.paints (SceneManager.withShader (Shader.setIntValue SceneManager.g_UseTextureName b)).
Proof. apply paints_withShader. same_writes. Qed.

Lemma paints_SetShaderTexture t : Shading.paints (SceneManager.SetShaderTexture t).
Proof.
  intros ref s sh Hwf Hsh Hsame.
  destruct (Find_registered s t Hwf) as [Hslot _].
  rewrite (SetShaderTexture_run s t sh _ Hsh Hslot).
  eexists tt, _, _. split; [reflexivity|].
  split; [reflexivity|]. split; [reflexivity|]. split; [reflexivity|]. split.
  - intros k Hk. rewrite <- (Hsame k Hk). revert k Hk. revert sh Hsh Hsame.
    intros sh _ _. revert sh. same_writes.
  - exists []. cbn [SceneManager.set_shader SceneManager.m_basicMeshes].
    rewrite app_nil_r. split; [reflexivity | constructor].
Qed.

Lemma paints_RenderScene_light f p : Shading.paints (SceneManager.RenderScene_light f p).
Proof. apply paints_withShader. same_writes. Qed.

(** Composes the steps of a method body. *)
Ltac paints_steps :=
  cbv beta zeta;
  repeat first
    [ apply paints_ret
    | apply paints_Draw
    | apply paints_SetTransformations
    | apply paints_SetShaderColor
    | apply paints_SetTextureUVScale
    | apply paints_SetShaderTexture
    | apply paints_setUseTexture
    | apply paints_RenderScene_light
    | (apply paints_bind; [|intros ?; cbv beta zeta]) ].

Lemma paints_candle : Shading.paints SceneManager.RenderScene_candle.
Proof. unfold SceneManager.RenderScene_candle. paints_steps. Qed.

Lemma paints_flame t y : Shading.paints (SceneManager.RenderScene_flame t y).
Proof. unfold SceneManager.RenderScene_flame. paints_steps. Qed.

Lemma paints_cover : Shading.paints SceneManager.DrawBookSetup_cover.
Proof. unfold SceneManager.DrawBookSetup_cover. paints_steps. Qed.

Lemma paints_page i : Shading.paints (SceneManager.DrawBookSetup_page i).
Proof. unfold SceneManager.DrawBookSetup_page. paints_steps. Qed.

Lemma paints_pages n : forall i, Shading.paints (SceneManager.DrawBookSetup_pages n i).
Proof.
  induction n as [|n IH]; intros i; cbn [SceneManager.DrawBookSetup_pages].
  - apply paints_ret.
  - apply paints_bind; [apply paints_page | intros _; apply IH].
Qed.

Lemma paints_divider : Shading.paints SceneManager.DrawBookSetup_divider.
Proof. unfold SceneManager.DrawBookSetup_divider. paints_steps. Qed.

Lemma paints_pen rotY : Shading.paints (SceneManager.DrawBookSetup_pen rotY).
Proof. unfold SceneManager.DrawBookSetup_pen. paints_steps. Qed.

Lemma paints_inkpot_paper : Shading.paints SceneManager.DrawBookSetup_inkpot_paper.
Proof. unfold SceneManager.DrawBookSetup_inkpot_paper. paints_steps. Qed.

Lemma paints_closed_book : Shading.paints SceneManager.DrawBookSetup_closed_book.
Proof. unfold SceneManager.DrawBookSetup_closed_book. paints_steps. Qed.

Lemma paints_DrawBookSetup : Shading.paints SceneManager.DrawBookSetup.
Proof.
  unfold SceneManager.DrawBookSetup.
  apply paints_bind; [apply paints_cover | intros _].
  apply paints_bind; [apply (paints_pages SceneManager.numPageLayers) | intros _].
  apply paints_bind; [apply paints_divider | intros _].
  apply paints_bind; [apply paints_pen | intros _].
  apply paints_bind; [apply paints_inkpot_paper | intros _].
  apply paints_closed_book.
Qed.

(** What follows the table block in [RenderScene]. *)
Lemma paints_after_table t :
  Shading.paints
    (SceneManager.bind SceneManager.RenderScene_candle
       (fun currentY =>
          SceneManager.bind (SceneManager.RenderScene_flame t currentY)
            (fun _ => SceneManager.DrawBookSetup))).
Proof.
  apply paints_bind; [apply paints_candle | intros y].
  apply paints_bind; [apply paints_flame | intros _]. apply paints_DrawBookSetup.
Qed.

Lemma not_changing (k : string) :
  k ∉ Frame.written -> k ∉ Shading.changing.
Proof.
  intros Hk Hin. apply Hk. unfold Shading.changing in Hin. unfold Frame.written.
  repeat (apply elem_of_cons in Hin as [->|Hin]; [repeat constructor|]).
  apply elem_of_nil in Hin. contradiction.
Qed.

Lemma bind_assoc {A B C} (c : SceneManager.M A) (k1 : A -> SceneManager.M B)
    (k2 : B -> SceneManager.M C) (s : SceneManager.state) :
  SceneManager.bind (SceneManager.bind c k1) k2 s
  = SceneManager.bind c (fun a => SceneManager.bind (k1 a) k2) s.
Proof. unfold SceneManager.bind. destruct (c s) as [[a s1]|]; reflexivity. Qed.

(** X12. The material is chosen once per frame. With a shader manager
    attached, every one of the 50 meshes of a frame, the candle holder, the
    flame and the book among them, is drawn with lighting switched on and
    with the material coefficients that the table lookup gives for
    [cement] (the grey defaults if the table has no such entry); the
    entries [metal], [wood], [candle] and [flame] are never selected. Every
    uniform outside the frame's own footprint, such as the lights written
    by [SetupSceneLights], has at every draw call the value it had when the
    frame began. *)
Theorem RenderScene_one_material
    (elapsedSeconds : R) (s : SceneManager.state) (sh : Shader.ShaderManager) :
  Registry.wf s ->
  SceneManager.m_pShaderManager s = Some sh ->
  exists s' ds,
    SceneManager.RenderScene elapsedSeconds s = SceneManager.Returned (tt, s') /\
    SceneManager.m_basicMeshes s' = SceneManager.m_basicMeshes s ++ ds /\
    length ds = 50%nat /\
    Forall (fun d =>
              exists shd : Shader.ShaderManager,
                SceneManager.uniforms d = Some shd /\
                shd !! "bUseLighting" = Some (Shader.UBool true) /\
                Shading.has_material
                  (SceneManager.selected (SceneManager.m_objectMaterials s) "cement") shd /\
                forall k : string, k ∉ Frame.written -> shd !! k = sh !! k) ds.
Proof.
  intros Hwf Hsh.
  destruct (runs_RenderScene elapsedSeconds s Hwf)
    as ([] & s0 & Hrun0 & _ & _ & _ & _ & ds0 & Hlog0 & Hmesh0).
  destruct s as [shd arr n mats dr]. cbn in Hsh. subst shd.
  pose proof Hwf as [Hlen Hn]. cbn in Hlen, Hn.
  destruct (bind_SetShaderTexture "wood" arr n Hlen Hn) as [slot_wood Hwood].
  revert Hrun0.
  unfold SceneManager.RenderScene, SceneManager.RenderScene_table.
  unfold SceneManager.SetTransformations, SceneManager.SetTextureUVScale.
  cbv zeta. repeat (first [rewrite bind_assoc | progress run_steps Hwood]).
  match goal with
  | |- SceneManager.bind _ _ (SceneManager.mk_state (Some ?sh1) _ _ _ _) = _ -> _ =>
      set (ref := sh1)
  end.
  intros Hrun0.
  assert (Hwf1 : Registry.wf
                   (SceneManager.mk_state (Some ref) arr n mats
                      (dr ++ [SceneManager.mk_DrawCall SceneManager.BoxMesh (Some ref)])))
    by exact Hwf.
  destruct (paints_after_table elapsedSeconds ref _ ref Hwf1 eq_refl (same_refl ref))
    as ([] & s' & sh' & Hrun & _ & _ & _ & _ & ds & Hlog & Hall).
  cbn [SceneManager.m_basicMeshes] in Hlog.
  assert (Hs : SceneManager.Returned (tt, s0) = SceneManager.Returned (tt, s'))
    by (rewrite <- Hrun0; exact Hrun).
  injection Hs as ->.
  exists s', (SceneManager.mk_DrawCall SceneManager.BoxMesh (Some ref) :: ds).
  split; [exact Hrun|]. cbn [SceneManager.m_basicMeshes] in *.
  split; [rewrite Hlog, <- app_assoc; reflexivity|].
  split.
  { rewrite Hlog, <- app_assoc in Hlog0. apply app_inv_head in Hlog0. cbn [app] in Hlog0.
    rewrite Hlog0, <- (length_fmap SceneManager.mesh), Hmesh0. reflexivity. }
  assert (Href : forall shd, Shading.same ref shd ->
            shd !! "bUseLighting" = Some (Shader.UBool true) /\
            Shading.has_material (SceneManager.selected mats "cement") shd /\
            forall k : string, k ∉ Frame.written -> shd !! k = sh !! k).
  { intros shd Hsame.
    assert (Hout : forall k, k ∈ ["bUseLighting"; "material.diffuseColor";
                                  "material.specularColor"; "material.shininess"] ->
                             k ∉ Shading.changing).
    { intros k Hk Hin. unfold Shading.changing in Hin.
      repeat (apply elem_of_cons in Hk as [->|Hk];
              [repeat (apply elem_of_cons in Hin as [Hin|Hin]; [discriminate Hin|]);
               apply elem_of_nil in Hin; exact Hin|]).
      apply elem_of_nil in Hk. exact Hk. }
    split; [|split; [split; [|split]|]].
    - rewrite Hsame by (apply Hout; repeat constructor). unfold ref. read_uniform.
    - rewrite Hsame by (apply Hout; repeat constructor). unfold ref. read_uniform.
    - rewrite Hsame by (apply Hout; repeat constructor). unfold ref. read_uniform.
    - rewrite Hsame by (apply Hout; repeat constructor). unfold ref. read_uniform.
    - intros k Hk. rewrite Hsame by (apply not_changing, Hk). unfold ref.
      clear - Hk. revert sh k Hk. keeps_writes. }
  constructor.
  - exists ref. split; [reflexivity|]. apply Href, same_refl.
  - eapply Forall_impl; [exact Hall|]. intros d (shd & Hu & Hsame).
    exists shd. split; [exact Hu|]. apply Href, Hsame.
Qed.

(** A frame after [DefineObjectMaterials], on a fresh object: the meshes
    are drawn with the coefficients of [cement]. *)
Lemma RenderScene_one_material_witness :
  let s := SceneManager.set_materials
             [SceneManager.OBJECT_MATERIAL.mk (GLM.mk_vec3 0.7 0.68 0.6)
                (GLM.mk_vec3 0.95 0.92 0.85) 64 "metal";
              SceneManager.OBJECT_MATERIAL.mk (GLM.mk_vec3 0.6 0.6 0.6)
                (GLM.mk_vec3 0.3 0.3 0.3) 16 "cement"]
             (SceneManager.SceneManager (Some ∅)) in
  Registry.wf s /\ SceneManager.m_pShaderManager s = Some ∅ /\
  exists s' ds,
    SceneManager.RenderScene 0 s = SceneManager.Returned (tt, s') /\
    length ds = 50%nat /\
    Forall (fun d => exists shd : Shader.ShaderManager,
                       SceneManager.uniforms d = Some shd /\
                       shd !! "material.shininess" = Some (Shader.UFloat 16)) ds.
Proof.
  intros s. split; [apply wf_constructor|]. split; [reflexivity|].
  destruct (RenderScene_one_material 0 s ∅ (wf_constructor _) eq_refl)
    as (s' & ds & Hrun & _ & Hlen & Hall).
  exists s', ds. split; [exact Hrun|]. split; [exact Hlen|].
  eapply Forall_impl; [exact Hall|]. intros d (shd & Hu & _ & (_ & _ & Hshine) & _).
  exists shd. split; [exact Hu | exact Hshine].
Defined.

(* ===================================================================== *)
(** ** Where the scene is put                                             *)
(* ===================================================================== *)

(** X13. The flame sits on the wick and the light in the flame: at every
    clock reading the candle and flame blocks of a frame draw the wick at
    height 5.35 above the candle's foot, the flame core 0.2 above it and
    the glow 0.05 above the core, and point light 0 is placed at the centre
    of the flame core, both when the two spheres are drawn and when the
    blocks are left. The flicker changes colours only, never a position. *)
Theorem flame_sits_on_wick (elapsedSeconds : R) (s : SceneManager.state)
    (sh : Shader.ShaderManager) :
  Registry.wf s ->
  SceneManager.m_pShaderManager s = Some sh ->
  exists s' sh' ds wick core glow shc shg,
    SceneManager.bind SceneManager.RenderScene_candle
      (SceneManager.RenderScene_flame elapsedSeconds) s = SceneManager.Returned (tt, s') /\
    SceneManager.m_basicMeshes s' = SceneManager.m_basicMeshes s ++ ds ++ [wick; core; glow] /\
    length ds = 7%nat /\
    Trace.position_of wick = CandleStack.at_height 5.35 /\
    Trace.position_of core = CandleStack.at_height 5.55 /\
    Trace.position_of glow = CandleStack.at_height 5.6 /\
    SceneManager.m_pShaderManager s' = Some sh' /\
    SceneManager.uniforms core = Some shc /\
    SceneManager.uniforms glow = Some shg /\
    (let flamePos := GLM.vadd SceneManager.candleOffset (GLM.mk_vec3 0 5.55 0) in
     shc !! "pointLights[0].position" = Some (Shader.UVec3 flamePos) /\
     shg !! "pointLights[0].position" = Some (Shader.UVec3 flamePos) /\
     sh' !! "pointLights[0].position" = Some (Shader.UVec3 flamePos)).
Proof.
  intros Hwf Hsh.
  destruct (RenderScene_candle_run s sh Hwf Hsh)
    as (s1 & ds & Hrun & Hwf1 & [sh1 Hsh1] & Hlog & Hmesh & Hpos).
  destruct ds as [|d1 [|d2 [|d3 [|d4 [|d5 [|d6 [|d7 [|wick [|]]]]]]]]]; try discriminate Hmesh.
  cbn [fmap list_fmap] in Hpos.
  assert (Hwick : Trace.position_of wick = CandleStack.at_height 5.35).
  { injection Hpos as _ _ _ _ _ _ _ ->. apply at_height_ext. lra. }
  destruct s1 as [shd1 arr n mats dr1]. cbn in Hsh1, Hlog. subst shd1.
  unfold SceneManager.bind at 1. rewrite Hrun.
  unfold SceneManager.RenderScene_flame, SceneManager.RenderScene_light.
  unfold SceneManager.SetTransformations, SceneManager.SetShaderColor. cbv zeta.
  run_steps @bind_withShader. unfold SceneManager.Draw.
  cbn [SceneManager.set_drawn SceneManager.m_basicMeshes SceneManager.m_pShaderManager].
  do 2 eexists. exists [d1; d2; d3; d4; d5; d6; d7], wick.
  do 4 eexists. split; [reflexivity|].
  cbn [SceneManager.m_basicMeshes]. rewrite Hlog, <- !app_assoc. cbn [app].
  split; [reflexivity|]. split; [reflexivity|]. split; [exact Hwick|].
  split; [position_of_draw; rewrite vec3_of_vec4_of; apply at_height_ext; lra|].
  split.
  { position_of_draw. rewrite vec3_of_vec4_of. unfold CandleStack.at_height. f_equal.
    unfold SceneManager.candleOffset. apply vec3_eq; cbn; lra. }
  split; [reflexivity|]. split; [reflexivity|]. split; [reflexivity|].
  cbv zeta.
  assert (Hp : GLM.vadd SceneManager.candleOffset
                 (GLM.mk_vec3 0 (0 + 0.6 + 1.0 + 0.15 + 0.8 + 1.0 + 2.0) 0)
               = GLM.vadd SceneManager.candleOffset (GLM.mk_vec3 0 5.55 0))
    by (f_equal; f_equal; lra).
  rewrite <- Hp.
  repeat split; read_uniform.
Qed.

(** The candle and flame blocks on a fresh object, one second in. *)
Lemma flame_sits_on_wick_witness :
  let s := SceneManager.SceneManager (Some ∅) in
  Registry.wf s /\ SceneManager.m_pShaderManager s = Some ∅ /\
  exists s' sh',
    SceneManager.bind SceneManager.RenderScene_candle (SceneManager.RenderScene_flame 1) s
      = SceneManager.Returned (tt, s') /\
    SceneManager.m_pShaderManager s' = Some sh' /\
    sh' !! "pointLights[0].position"
    = Some (Shader.UVec3 (GLM.vadd SceneManager.candleOffset (GLM.mk_vec3 0 5.55 0))).
Proof.
  intros s. split; [apply wf_constructor|]. split; [reflexivity|].
  destruct (flame_sits_on_wick 1 s ∅ (wf_constructor _) eq_refl)
    as (s' & sh' & ds & wick & core & glow & shc & shg & Hrun & _ & _ & _ & _ & _ & Hsh'
        & _ & _ & _ & _ & Hlight).
  exists s', sh'. split; [exact Hrun|]. split; [exact Hsh'|]. exact Hlight.
Defined.

(** One layer of pages, run on a well-formed object with a shader manager. *)
Lemma DrawBookSetup_page_run (i : nat) (s : SceneManager.state) (sh : Shader.ShaderManager) :
  Registry.wf s ->
  SceneManager.m_pShaderManager s = Some sh ->
  exists s' sh' d p,
    SceneManager.DrawBookSetup_page i s = SceneManager.Returned (tt, s') /\
    Registry.wf s' /\
    SceneManager.m_pShaderManager s' = Some sh' /\
    SceneManager.m_basicMeshes s' = SceneManager.m_basicMeshes s ++ [d] /\
    SceneManager.mesh d = SceneManager.BoxMesh /\
    Trace.position_of d = Some p /\
    GLM.y p = Pages.height i /\
    GLM.z p = GLM.z SceneManager.bookPosition.
Proof.
  intros Hwf Hsh. destruct s as [shd arr n mats dr]. cbn in Hsh. subst shd.
  pose proof Hwf as [Hlen Hn]. cbn in Hlen, Hn.
  destruct (bind_SetShaderTexture "page" arr n Hlen Hn) as [slot_page Hpage].
  unfold SceneManager.DrawBookSetup_page. cbv zeta.
  unfold SceneManager.SetTransformations, SceneManager.SetTextureUVScale.
  run_steps Hpage. unfold SceneManager.Draw.
  cbn [SceneManager.set_drawn SceneManager.m_basicMeshes SceneManager.m_pShaderManager].
  do 4 eexists. split; [reflexivity|]. split; [exact Hwf|]. split; [reflexivity|].
  cbn [SceneManager.m_basicMeshes]. split; [reflexivity|]. split; [reflexivity|].
  split; [position_of_draw; rewrite vec3_of_vec4_of; reflexivity|].
  unfold Pages.height, SceneManager.bookPosition. cbn [GLM.vadd GLM.x GLM.y GLM.z].
  split; lra.
Qed.

Lemma DrawBookSetup_pages_run (n : nat) :
  forall (i : nat) (s : SceneManager.state) (sh : Shader.ShaderManager),
    Registry.wf s ->
    SceneManager.m_pShaderManager s = Some sh ->
    exists s' ds,
      SceneManager.DrawBookSetup_pages n i s = SceneManager.Returned (tt, s') /\
      Registry.wf s' /\
      is_Some (SceneManager.m_pShaderManager s') /\
      SceneManager.m_basicMeshes s' = SceneManager.m_basicMeshes s ++ ds /\
      length ds = n /\
      forall k d, ds !! k = Some d ->
        SceneManager.mesh d = SceneManager.BoxMesh /\
        exists p, Trace.position_of d = Some p /\
                  GLM.y p = Pages.height (i + k) /\
                  GLM.z p = GLM.z SceneManager.bookPosition.
Proof.
  induction n as [|n IH]; intros i s sh Hwf Hsh; cbn [SceneManager.DrawBookSetup_pages].
  - exists s, []. split; [reflexivity|]. split; [exact Hwf|]. split; [eexists; exact Hsh|].
    rewrite app_nil_r. split; [reflexivity|]. split; [reflexivity|].
    intros k d Hk. rewrite lookup_nil in Hk. discriminate Hk.
  - destruct (DrawBookSetup_page_run i s sh Hwf Hsh)
      as (s1 & sh1 & d & p & Hrun & Hwf1 & Hsh1 & Hlog1 & Hmesh & Hpos & Hy & Hz).
    destruct (IH (S i) s1 sh1 Hwf1 Hsh1) as (s' & ds & Hrest & Hwf' & Hsh' & Hlog & Hlen & Hall).
    exists s', (d :: ds). unfold SceneManager.bind. rewrite Hrun.
    split; [exact Hrest|]. split; [exact Hwf'|]. split; [exact Hsh'|].
    split; [rewrite Hlog, Hlog1, <- app_assoc; reflexivity|].
    split; [cbn [length]; rewrite Hlen; reflexivity|].
    intros [|k] d' Hk; cbn in Hk.
    + injection Hk as <-. split; [exact Hmesh|]. exists p. rewrite Nat.add_0_r. tauto.
    + destruct (Hall k d' Hk) as (Hm & p' & Hp' & Hy' & Hz').
      split; [exact Hm|]. exists p'. replace (i + S k)%nat with (S i + k)%nat by lia. tauto.
Qed.

Lemma height_step (k : nat) :
  0.024 <= Pages.height (S k) - Pages.height k <= 0.032.
Proof.
  unfold Pages.height, SceneManager.pageThickness, SceneManager.bookScaleFactor.
  rewrite S_INR.
  pose proof (SIN_bound ((INR k + 1) * 0.5)) as H1.
  pose proof (SIN_bound (INR k * 0.5)) as H2. lra.
Qed.

(** X14. The page loop of the open book draws its 25 boxes bottom-up:
    layer [k] is drawn at height [Pages.height k] above the table, in the
    depth of the book, and each layer lies between 0.024 and 0.032 above
    the one drawn before it, whatever the sine ripple adds. That step is
    smaller than the height 0.035 the boxes are scaled to. *)
Theorem page_layers_stacked (s : SceneManager.state) (sh : Shader.ShaderManager) :
  Registry.wf s ->
  SceneManager.m_pShaderManager s = Some sh ->
  exists s' ds,
    SceneManager.DrawBookSetup_pages SceneManager.numPageLayers 0 s
      = SceneManager.Returned (tt, s') /\
    SceneManager.m_basicMeshes s' = SceneManager.m_basicMeshes s ++ ds /\
    length ds = 25%nat /\
    (forall k d, ds !! k = Some d ->
       SceneManager.mesh d = SceneManager.BoxMesh /\
       exists p, Trace.position_of d = Some p /\
                 GLM.y p = Pages.height k /\
                 GLM.z p = GLM.z SceneManager.bookPosition) /\
    (forall k, 0.024 <= Pages.height (S k) - Pages.height k <= 0.032) /\
    0.032 < SceneManager.pageThickness.
Proof.
  intros Hwf Hsh.
  destruct (DrawBookSetup_pages_run SceneManager.numPageLayers 0 s sh Hwf Hsh)
    as (s' & ds & Hrun & _ & _ & Hlog & Hlen & Hall).
  exists s', ds. split; [exact Hrun|]. split; [exact Hlog|]. split; [exact Hlen|].
  split; [exact Hall|]. split; [exact height_step|].
  unfold SceneManager.pageThickness, SceneManager.bookScaleFactor. lra.
Qed.

(** The pages of the open book on a fresh object. *)
Lemma page_layers_stacked_witness :
  let s := SceneManager.SceneManager (Some ∅) in
  Registry.wf s /\ SceneManager.m_pShaderManager s = Some ∅ /\
  exists s' ds,
    SceneManager.DrawBookSetup_pages SceneManager.numPageLayers 0 s
      = SceneManager.Returned (tt, s') /\
    SceneManager.m_basicMeshes s' = ds /\ length ds = 25%nat.
Proof.
  intros s. split; [apply wf_constructor|]. split; [reflexivity|].
  destruct (page_layers_stacked s ∅ (wf_constructor _) eq_refl)
    as (s' & ds & Hrun & Hlog & Hlen & _).
  exists s', ds. split; [exact Hrun|]. split; [exact Hlog | exact Hlen].
Defined.

Lemma scaled_unit (p : GLM.vec3) : Points.scaled (GLM.mk_vec3 1 1 1) p = p.
Proof. destruct p. unfold Points.scaled. cbn [GLM.x GLM.y GLM.z]. apply vec3_eq; lra. Qed.

(** The image of a point under a model matrix with a yaw only. *)
Lemma yaw_image (yaw : R) (P p : GLM.vec3) :
  Points.image (SceneManager.modelView (GLM.mk_vec3 1 1 1) 0 yaw 0 P) p
  = GLM.vadd P (GLM.mk_vec3
                  (cos (TransformSpec.rad yaw) * GLM.x p + sin (TransformSpec.rad yaw) * GLM.z p)
                  (GLM.y p)
                  (- sin (TransformSpec.rad yaw) * GLM.x p
                   + cos (TransformSpec.rad yaw) * GLM.z p)).
Proof.
  unfold Points.image. rewrite modelView_spec, !mul_vec_mul, scale_image, scaled_unit.
  rewrite rad_0, rotateX_0, rotateZ_0, !mul_vec_identity.
  rewrite rotateY_image, translate_image, vec3_of_vec4_of. reflexivity.
Qed.

(** An offset turned by hand about the Y axis and added to a position is
    the offset carried by the model matrix of that yaw and position. *)
Lemma yaw_offset (yaw : R) (P p : GLM.vec3) :
  GLM.vadd P (GLM.vec3_of (GLM.mul_vec
                (GLM.rotate_m GLM.identity (GLM.radians yaw) (GLM.mk_vec3 0 1 0))
                (GLM.vec4_of p 1)))
  = Points.image (SceneManager.modelView (GLM.mk_vec3 1 1 1) 0 yaw 0 P) p.
Proof.
  rewrite yaw_image.
  change (GLM.rotate_m GLM.identity (GLM.radians yaw) (GLM.mk_vec3 0 1 0))
    with (GLM.rotate (GLM.radians yaw) (GLM.mk_vec3 0 1 0)).
  rewrite rotate_y_spec, radians_spec, rotateY_image, vec3_of_vec4_of. reflexivity.
Qed.

(** X15. The closed book is drawn as four boxes, bottom cover, pages,
    spine and top cover, stacked on the position (6, 0.1, -1.8): the pages
    0.3625 and the top cover 0.725 above the bottom cover. The spine, whose
    offset the code turns by hand, is attached to the book: it is drawn
    where the book's own yaw of 110 degrees and position take the point
    (0, 0.3625, -1.83125) of the book, at the height of the middle of the
    pages. *)
Theorem closed_book_spine_attached (s : SceneManager.state) (sh : Shader.ShaderManager) :
  Registry.wf s ->
  SceneManager.m_pShaderManager s = Some sh ->
  let P := GLM.mk_vec3 6 0.1 (-1.8) in
  exists s' bottom pages spine top,
    SceneManager.DrawBookSetup_closed_book s = SceneManager.Returned (tt, s') /\
    SceneManager.m_basicMeshes s' = SceneManager.m_basicMeshes s ++ [bottom; pages; spine; top] /\
    Trace.position_of bottom = Some P /\
    Trace.position_of pages = Some (GLM.vadd P (GLM.mk_vec3 0 0.3625 0)) /\
    Trace.position_of top = Some (GLM.vadd P (GLM.mk_vec3 0 0.725 0)) /\
    Trace.position_of spine
    = Some (Points.image (SceneManager.modelView (GLM.mk_vec3 1 1 1) 0 110 0 P)
                         (GLM.mk_vec3 0 0.3625 (-1.83125))) /\
    GLM.y <$> Trace.position_of spine = GLM.y <$> Trace.position_of pages.
Proof.
  intros Hwf Hsh P. destruct s as [shd arr n mats dr]. cbn in Hsh. subst shd.
  pose proof Hwf as [Hlen Hn]. cbn in Hlen, Hn.
  destruct (bind_SetShaderTexture "book" arr n Hlen Hn) as [slot_book Hbook].
  destruct (bind_SetShaderTexture "page" arr n Hlen Hn) as [slot_page Hpage].
  unfold SceneManager.DrawBookSetup_closed_book. cbv zeta.
  unfold SceneManager.SetTransformations, SceneManager.SetTextureUVScale.
  run_steps Hbook. rewrite Hpage. cbv beta. run_steps Hbook. unfold SceneManager.Draw.
  cbn [SceneManager.set_drawn SceneManager.m_basicMeshes SceneManager.m_pShaderManager].
  do 5 eexists. split; [reflexivity|].
  cbn [SceneManager.m_basicMeshes]. rewrite <- !app_assoc. cbn [app].
  split; [reflexivity|].
  assert (Hspine :
    GLM.vadd (GLM.vadd (GLM.mk_vec3 0 0 0) (GLM.mk_vec3 6.0 0.1 (-1.8)))
      (GLM.vec3_of (GLM.mul_vec
         (GLM.rotate_m GLM.identity (GLM.radians 110.0) (GLM.mk_vec3 0 1 0))
         (GLM.vec4_of
            (GLM.mk_vec3 0 (0.08 * 1.25 * 0.5 + 0.5 * 1.25 * 0.5)
               (- (3.0 * 1.25) * 0.5 - 0.09 * 1.25 * 0.5 + 0.10)) 1.0)))
    = Points.image (SceneManager.modelView (GLM.mk_vec3 1 1 1) 0 110 0 P)
                   (GLM.mk_vec3 0 0.3625 (-1.83125))).
  { rewrite <- yaw_offset. unfold P.
    replace 110.0 with 110 by lra. replace 1.0 with 1 by lra.
    f_equal; [apply vec3_eq; cbn; lra|].
    do 2 f_equal. unfold GLM.vec4_of. cbn [GLM.x GLM.y GLM.z]. apply vec4_eq; lra. }
  split; [position_of_draw; rewrite vec3_of_vec4_of; f_equal; apply vec3_eq; cbn; lra|].
  split; [position_of_draw; rewrite vec3_of_vec4_of; f_equal; apply vec3_eq; cbn; lra|].
  split; [position_of_draw; rewrite vec3_of_vec4_of; f_equal; apply vec3_eq; cbn; lra|].
  split; [position_of_draw; rewrite vec3_of_vec4_of; f_equal; exact Hspine|].
  match goal with
  | |- GLM.y <$> Trace.position_of ?d = _ =>
      assert (Hd : Trace.position_of d
                   = Some (Points.image
                             (SceneManager.modelView (GLM.mk_vec3 1 1 1) 0 110 0 P)
                             (GLM.mk_vec3 0 0.3625 (-1.83125))))
        by (position_of_draw; rewrite vec3_of_vec4_of; f_equal; exact Hspine);
      rewrite Hd
  end.
  match goal with
  | |- _ = GLM.y <$> Trace.position_of ?d =>
      assert (Hd' : Trace.position_of d = Some (GLM.vadd P (GLM.mk_vec3 0 0.3625 0)))
        by (position_of_draw; rewrite vec3_of_vec4_of; f_equal; apply vec3_eq; cbn; lra);
      rewrite Hd'
  end.
  cbn [fmap option_fmap option_map]. f_equal.
  rewrite yaw_image. reflexivity.
Qed.

(** The closed book on a fresh object. *)
Lemma closed_book_spine_attached_witness :
  let s := SceneManager.SceneManager (Some ∅) in
  Registry.wf s /\ SceneManager.m_pShaderManager s = Some ∅ /\
  exists s' ds,
    SceneManager.DrawBookSetup_closed_book s = SceneManager.Returned (tt, s') /\
    SceneManager.m_basicMeshes s' = ds /\ length ds = 4%nat.
Proof.
  intros s. split; [apply wf_constructor|]. split; [reflexivity|].
  destruct (closed_book_spine_attached s ∅ (wf_constructor _) eq_refl)
    as (s' & d1 & d2 & d3 & d4 & Hrun & Hlog & _).
  exists s', [d1; d2; d3; d4]. split; [exact Hrun|]. split; [exact Hlog | reflexivity].
Defined.

(* ===================================================================== *)
(** ** The material table after set-up                                    *)
(* ===================================================================== *)

(** X16. [DefineObjectMaterials] rebuilds the table: whatever it held, it
    holds the five entries afterwards, and a second call changes nothing.
    Against this table [SetShaderMaterial] gives the shader, for every
    tag whatsoever, known or unknown, a diffuse and a specular colour with
    all components in [0, 1] and a shininess between 8 and 64. *)
Theorem DefineObjectMaterials_palette
    (s : SceneManager.state) (sh : Shader.ShaderManager) (materialTag : string) :
  SceneManager.m_pShaderManager s = Some sh ->
  exists s1 s2 sh2 sel,
    SceneManager.DefineObjectMaterials s = SceneManager.Returned (tt, s1) /\
    length (SceneManager.m_objectMaterials s1) = 5%nat /\
    SceneManager.DefineObjectMaterials s1 = SceneManager.Returned (tt, s1) /\
    SceneManager.SetShaderMaterial materialTag s1 = SceneManager.Returned (tt, s2) /\
    SceneManager.m_pShaderManager s2 = Some sh2 /\
    Shading.has_material sel sh2 /\
    Shading.unit_colour (SceneManager.OBJECT_MATERIAL.diffuseColor sel) /\
    Shading.unit_colour (SceneManager.OBJECT_MATERIAL.specularColor sel) /\
    8 <= SceneManager.OBJECT_MATERIAL.shininess sel <= 64.
Proof.
  intros Hsh. destruct s as [shd arr n mats dr]. cbn in Hsh. subst shd.
  unfold SceneManager.DefineObjectMaterials, SceneManager.SetShaderMaterial,
    SceneManager.withShader.
  cbn [SceneManager.set_materials SceneManager.m_pShaderManager SceneManager.m_textureIDs
       SceneManager.m_loadedTextures SceneManager.m_objectMaterials
       SceneManager.m_basicMeshes app SceneManager.set_shader fmap option_fmap option_map].
  eexists _, _, _,
    (SceneManager.selected
       [SceneManager.OBJECT_MATERIAL.mk (GLM.mk_vec3 0.7 0.68 0.6)
          (GLM.mk_vec3 0.95 0.92 0.85) 64 "metal";
        SceneManager.OBJECT_MATERIAL.mk (GLM.mk_vec3 0.45 0.3 0.15)
          (GLM.mk_vec3 0.05 0.05 0.05) 8 "wood";
        SceneManager.OBJECT_MATERIAL.mk (GLM.mk_vec3 0.95 0.92 0.85)
          (GLM.mk_vec3 0.2 0.2 0.2) 12 "candle";
        SceneManager.OBJECT_MATERIAL.mk (GLM.mk_vec3 1.0 0.7 0.25)
          (GLM.mk_vec3 0.9 0.6 0.2) 16 "flame";
        SceneManager.OBJECT_MATERIAL.mk (GLM.mk_vec3 0.6 0.6 0.6)
          (GLM.mk_vec3 0.3 0.3 0.3) 16 "cement"] materialTag).
  split; [reflexivity|]. split; [reflexivity|]. split; [reflexivity|].
  split; [reflexivity|]. split; [reflexivity|].
  split; [repeat split; read_uniform|].
  unfold SceneManager.selected, SceneManager.SetShaderMaterial_loop, Shading.unit_colour.
  cbn [SceneManager.OBJECT_MATERIAL.tag].
  repeat match goal with
         | |- context [String.eqb ?a materialTag] => destruct (String.eqb a materialTag)
         end;
    cbn [SceneManager.OBJECT_MATERIAL.diffuseColor SceneManager.OBJECT_MATERIAL.specularColor
         SceneManager.OBJECT_MATERIAL.shininess GLM.x GLM.y GLM.z];
    repeat split; lra.
Qed.

(** A tag in the wrong case on a fresh object: the grey defaults. *)
Lemma DefineObjectMaterials_palette_witness :
  let s := SceneManager.SceneManager (Some ∅) in
  SceneManager.m_pShaderManager s = Some ∅ /\
  exists s1 s2 sh2 sel,
    SceneManager.DefineObjectMaterials s = SceneManager.Returned (tt, s1) /\
    SceneManager.SetShaderMaterial "Candle" s1 = SceneManager.Returned (tt, s2) /\
    SceneManager.m_pShaderManager s2 = Some sh2 /\
    Shading.has_material sel sh2 /\
    8 <= SceneManager.OBJECT_MATERIAL.shininess sel <= 64.
Proof.
  intros s. split; [reflexivity|].
  destruct (DefineObjectMaterials_palette s ∅ "Candle" eq_refl)
    as (s1 & s2 & sh2 & sel & H1 & _ & _ & H2 & H3 & H4 & _ & _ & H5).
  exists s1, s2, sh2, sel.
  split; [exact H1|]. split; [exact H2|]. split; [exact H3|]. split; [exact H4 | exact H5].
Defined.

(* ===================================================================== *)
(** ** A texture that was not loaded                                      *)
(* ===================================================================== *)

(** X17. A tag without a registered texture is not drawn untextured: on
    a well-formed registry [SetShaderTexture] still switches texturing on
    and selects sampler 0, so it leaves the shader program exactly as if
    the tag of the first registered texture had been asked for. A mesh
    whose image file failed to load is therefore drawn with the texture
    that was loaded first. *)
Theorem unregistered_tag_uses_slot_0
    (s : SceneManager.state) (sh : Shader.ShaderManager) (textureTag : string)
    (e0 : SceneManager.TEXTURE_INFO) :
  Registry.wf s ->
  SceneManager.m_pShaderManager s = Some sh ->
  (forall j e, Registry.registered s !! j = Some e -> SceneManager.tag e <> textureTag) ->
  Registry.registered s !! 0%nat = Some e0 ->
  exists s' sh',
    SceneManager.SetShaderTexture textureTag s = SceneManager.Returned (tt, s') /\
    SceneManager.SetShaderTexture (SceneManager.tag e0) s = SceneManager.Returned (tt, s') /\
    SceneManager.m_pShaderManager s' = Some sh' /\
    sh' !! "bUseTexture" = Some (Shader.UInt 1) /\
    sh' !! "objectTexture" = Some (Shader.USampler2D 0).
Proof.
  intros Hwf Hsh Hfresh Hfirst.
  destruct (Find_registered s textureTag Hwf) as [Hslot _].
  destruct (Find_registered s (SceneManager.tag e0) Hwf) as [Hslot0 _].
  unfold Lookup.slot in Hslot, Hslot0. rewrite (Lookup_fresh _ _ Hfresh) in Hslot.
  assert (H0 : Lookup.first (Registry.registered s) (SceneManager.tag e0) = Some (0%nat, e0)).
  { unfold Lookup.first. destruct (Registry.registered s) as [|e rest]; [discriminate Hfirst|].
    cbn in Hfirst. injection Hfirst as ->. cbn. rewrite decide_True by reflexivity.
    reflexivity. }
  rewrite H0 in Hslot0.
  rewrite (SetShaderTexture_run s textureTag sh _ Hsh Hslot).
  rewrite (SetShaderTexture_run s (SceneManager.tag e0) sh _ Hsh Hslot0).
  eexists _, _. split; [reflexivity|]. split; [reflexivity|].
  cbn [SceneManager.set_shader SceneManager.m_pShaderManager]. split; [reflexivity|].
  unfold Registry.fallback. cbn [Z.ltb Z.compare].
  split; read_uniform.
Qed.

(** After the wood texture alone was loaded, the tag [metal]. *)
Lemma unregistered_tag_uses_slot_0_witness :
  let s := SceneManager.set_textures
             (<[0%nat := SceneManager.mk_TEXTURE_INFO "wood" 7]>
                (SceneManager.m_textureIDs (SceneManager.SceneManager (Some ∅)))) 1
             (SceneManager.SceneManager (Some ∅)) in
  SceneManager.CreateGLTexture (Some (SceneManager.mk_Image 256 256 3)) 7 "wood"
    (SceneManager.SceneManager (Some ∅)) = SceneManager.Returned (true, s) /\
  exists s',
    SceneManager.SetShaderTexture "metal" s = SceneManager.Returned (tt, s') /\
    SceneManager.SetShaderTexture "wood" s = SceneManager.Returned (tt, s').
Proof.
  intros s. split; [reflexivity|].
  assert (Hwf : Registry.wf s) by (split; [reflexivity | vm_compute; split; discriminate]).
  destruct (unregistered_tag_uses_slot_0 s ∅ "metal" (SceneManager.mk_TEXTURE_INFO "wood" 7)
              Hwf eq_refl)
    as (s' & sh' & Hmetal & Hwood & _).
  - intros [|j] e Hj; cbn in Hj; [|discriminate Hj]. injection Hj as <-. discriminate.
  - reflexivity.
  - exists s'. split; [exact Hmetal | exact Hwood].
Defined.

(* ===================================================================== *)
(** ** Which mesh gets which texture                                      *)
(* ===================================================================== *)

(** [SetShaderTexture] as a step, with the sampler it selects. *)
Lemma bind_SetShaderTexture_sampler (t : string) arr n :
  length arr = SceneManager.TEXTURE_CAPACITY ->
  (0 <= n <= Z.of_nat SceneManager.TEXTURE_CAPACITY)%Z ->
  forall B (k : unit -> SceneManager.M B) sh mats dr,
    SceneManager.bind (SceneManager.SetShaderTexture t) k
      (SceneManager.mk_state (Some sh) arr n mats dr)
    = k tt (SceneManager.mk_state
              (Some (Shader.setSampler2DValue SceneManager.g_TextureValueName
                       (Texturing.sampler_of (take (Z.to_nat n) arr) t)
                       (Shader.setIntValue SceneManager.g_UseTextureName true sh)))
              arr n mats dr).
Proof.
  intros Hlen Hn B k sh mats dr.
  assert (Hwf : Registry.wf (SceneManager.mk_state (Some sh) arr n mats dr))
    by (split; assumption).
  destruct (Find_registered _ t Hwf) as [Hslot _].
  unfold SceneManager.bind at 1.
  rewrite (SetShaderTexture_run (SceneManager.mk_state (Some sh) arr n mats dr) t sh _
             eq_refl Hslot).
  reflexivity.
Qed.

(** The look of a mesh drawn after a chain of uniform writes. *)
Ltac look_of_draw :=
  unfold Texturing.look;
  cbn [SceneManager.uniforms mbind option_bind];
  unfold Shader.setIntValue, Shader.setBoolValue, Shader.setFloatValue, Shader.setVec2Value,
    Shader.setVec3Value, Shader.setVec4Value, Shader.setMat4Value, Shader.setSampler2DValue,
    SceneManager.g_ModelName, SceneManager.g_ColorValueName, SceneManager.g_TextureValueName,
    SceneManager.g_UseTextureName;
  repeat (first [ rewrite lookup_insert_eq
                | (rewrite lookup_insert_ne by discriminate) ];
          cbn [mbind option_bind Shader.Z_of_bool]);
  reflexivity.

Ltac looks_of_draws :=
  cbn [fmap list_fmap replicate app];
  repeat (apply (f_equal2 (@cons _)); [look_of_draw|]);
  reflexivity.

(** Runs a block of draw calls and reads the looks off the log. *)
Ltac draws_block :=
  let s := fresh "s" in
  let sh := fresh "sh" in
  let Hwf := fresh "Hwf" in
  let Hsh := fresh "Hsh" in
  intros s sh Hwf Hsh;
  destruct s as [shd arr n mats dr]; cbn in Hsh; subst shd;
  let Hlen := fresh "Hlen" in
  let Hn := fresh "Hn" in
  pose proof Hwf as [Hlen Hn]; cbn in Hlen, Hn;
  let Htex := fresh "Htex" in
  pose proof (fun t => bind_SetShaderTexture_sampler t arr n Hlen Hn) as Htex;
  unfold SceneManager.SetTransformations, SceneManager.SetShaderColor,
    SceneManager.SetTextureUVScale, SceneManager.RenderScene_light;
  cbv zeta;
  run_steps Htex;
  unfold SceneManager.Draw, SceneManager.ret;
  cbn [SceneManager.set_drawn SceneManager.m_basicMeshes SceneManager.m_pShaderManager];
  do 3 eexists; split; [reflexivity|];
  cbn [SceneManager.m_textureIDs SceneManager.m_loadedTextures SceneManager.m_pShaderManager
       SceneManager.m_basicMeshes];
  split; [reflexivity|]; split; [reflexivity|]; split; [reflexivity|];
  rewrite <- ?app_assoc; cbn [app];
  eexists; split; [reflexivity|];
  unfold Registry.registered;
  cbn [SceneManager.m_textureIDs SceneManager.m_loadedTextures];
  looks_of_draws.

Lemma draws_table :
  Texturing.draws (fun sampler => [Texturing.textured (sampler "wood")])
    SceneManager.RenderScene_table.
Proof. unfold SceneManager.RenderScene_table. draws_block. Qed.

Lemma draws_candle :
  Texturing.draws
    (fun sampler => replicate 6 (Texturing.textured (sampler "metal"))
                    ++ [Texturing.textured (sampler "candle"); Texturing.plain])
    SceneManager.RenderScene_candle.
Proof. unfold SceneManager.RenderScene_candle. draws_block. Qed.

Lemma draws_flame t y :
  Texturing.draws (fun _ => [Texturing.plain; Texturing.plain])
    (SceneManager.RenderScene_flame t y).
Proof. unfold SceneManager.RenderScene_flame. draws_block. Qed.

Lemma draws_cover :
  Texturing.draws
    (fun sampler => [Texturing.textured (sampler "cloth"); Texturing.textured (sampler "book")])
    SceneManager.DrawBookSetup_cover.
Proof. unfold SceneManager.DrawBookSetup_cover. draws_block. Qed.

Lemma draws_page i :
  Texturing.draws (fun sampler => [Texturing.textured (sampler "page")])
    (SceneManager.DrawBookSetup_page i).
Proof. unfold SceneManager.DrawBookSetup_page. draws_block. Qed.

Lemma draws_divider :
  Texturing.draws (fun _ => [Texturing.plain; Texturing.plain])
    SceneManager.DrawBookSetup_divider.
Proof. unfold SceneManager.DrawBookSetup_divider. draws_block. Qed.

Lemma draws_pen rotY :
  Texturing.draws (fun sampler => [Texturing.textured (sampler "pen"); Texturing.plain])
    (SceneManager.DrawBookSetup_pen rotY).
Proof. unfold SceneManager.DrawBookSetup_pen. draws_block. Qed.

Lemma draws_inkpot_paper :
  Texturing.draws
    (fun sampler => [Texturing.textured (sampler "inkpot"); Texturing.textured (sampler "inkpot");
                     Texturing.plain; Texturing.textured (sampler "page")])
    SceneManager.DrawBookSetup_inkpot_paper.
Proof. unfold SceneManager.DrawBookSetup_inkpot_paper. draws_block. Qed.

Lemma draws_closed_book :
  Texturing.draws
    (fun sampler => [Texturing.textured (sampler "book"); Texturing.textured (sampler "page");
                     Texturing.textured (sampler "book"); Texturing.textured (sampler "book")])
    SceneManager.DrawBookSetup_closed_book.
Proof. unfold SceneManager.DrawBookSetup_closed_book. draws_block. Qed.

Lemma draws_ret {A} (a : A) : Texturing.draws (fun _ => []) (SceneManager.ret a).
Proof.
  intros s sh _ Hsh. exists a, s, sh. split; [reflexivity|]. repeat split; try assumption.
  exists []. rewrite app_nil_r. split; reflexivity.
Qed.

Lemma draws_bind {A B} (e1 e2 : (string -> Z) -> list Texturing.Look)
    (c : SceneManager.M A) (k : A -> SceneManager.M B) :
  Texturing.draws e1 c -> (forall a, Texturing.draws e2 (k a)) ->
  Texturing.draws (fun sampler => e1 sampler ++ e2 sampler) (SceneManager.bind c k).
Proof.
  intros Hc Hk s sh Hwf Hsh.
  destruct (Hc s sh Hwf Hsh) as (a & s1 & sh1 & E1 & Harr1 & Hn1 & Hsh1 & ds1 & Hlog1 & Hl1).
  assert (Hwf1 : Registry.wf s1) by (apply (wf_same_registry s); assumption).
  destruct (Hk a s1 sh1 Hwf1 Hsh1)
    as (b & s2 & sh2 & E2 & Harr2 & Hn2 & Hsh2 & ds2 & Hlog2 & Hl2).
  rewrite (registered_same_registry s s1 Harr1 Hn1) in Hl2.
  exists b, s2, sh2. unfold SceneManager.bind. rewrite E1. split; [exact E2|].
  split; [congruence|]. split; [congruence|]. split; [exact Hsh2|].
  exists (ds1 ++ ds2). rewrite Hlog2, Hlog1, <- app_assoc. split; [reflexivity|].
  rewrite !fmap_app, Hl1, Hl2. reflexivity.
Qed.

Lemma draws_pages n : forall i,
  Texturing.draws (fun sampler => replicate n (Texturing.textured (sampler "page")))
    (SceneManager.DrawBookSetup_pages n i).
Proof.
  induction n as [|n IH]; intros i; cbn [SceneManager.DrawBookSetup_pages replicate].
  - apply draws_ret.
  - apply (draws_bind (fun sampler => [Texturing.textured (sampler "page")])
                      (fun sampler => replicate n (Texturing.textured (sampler "page"))));
      [apply draws_page | intros _; apply IH].
Qed.

Lemma draws_setUseLighting b :
  Texturing.draws (fun _ => [])
    (SceneManager.withShader (Shader.setBoolValue "bUseLighting" b)).
Proof.
  intros s sh _ Hsh. eexists tt, _, _. unfold SceneManager.withShader. rewrite Hsh.
  split; [reflexivity|]. split; [reflexivity|]. split; [reflexivity|]. split; [reflexivity|].
  exists []. cbn [SceneManager.set_shader SceneManager.m_basicMeshes].
  rewrite app_nil_r. split; reflexivity.
Qed.

Lemma draws_RenderScene t : Texturing.draws Texturing.frame (SceneManager.RenderScene t).
Proof.
  unfold SceneManager.RenderScene, SceneManager.DrawBookSetup.
  pose proof (draws_bind _ _ _ _ (draws_setUseLighting true) (fun _ =>
              draws_bind _ _ _ _ draws_table (fun _ =>
              draws_bind _ _ _ _ draws_candle (fun y =>
              draws_bind _ _ _ _ (draws_flame t y) (fun _ =>
              draws_bind _ _ _ _ draws_cover (fun _ =>
              draws_bind _ _ _ _ (draws_pages SceneManager.numPageLayers 0) (fun _ =>
              draws_bind _ _ _ _ draws_divider (fun _ =>
              draws_bind _ _ _ _ (draws_pen (SceneManager.baseRotationY + 10.0)) (fun _ =>
              draws_bind _ _ _ _ draws_inkpot_paper (fun _ =>
              draws_closed_book)))))))))) as H.
  exact H.
Qed.

(** X18. Which look each mesh of a frame has, on any well-formed registry
    and with a shader manager: the 50 draw calls are textured or plain as
    [Texturing.frame] lists them, every textured mesh with the sampler that
    [SetShaderTexture] selects for its own tag. The table is drawn with
    [wood], the six parts of the candle holder with [metal], the candle
    with [candle], the tablecloth with [cloth], covers and spine with
    [book], the 25 page layers, the loose sheet and the page block with
    [page], the pen with [pen], the inkpot with [inkpot]; wick, flame, glow,
    dividers, pen tip and inkpot cap are drawn in plain colour. *)
Theorem RenderScene_textures
    (elapsedSeconds : R) (s : SceneManager.state) (sh : Shader.ShaderManager) :
  Registry.wf s ->
  SceneManager.m_pShaderManager s = Some sh ->
  exists s' ds,
    SceneManager.RenderScene elapsedSeconds s = SceneManager.Returned (tt, s') /\
    SceneManager.m_basicMeshes s' = SceneManager.m_basicMeshes s ++ ds /\
    Texturing.look <$> ds
    = Some <$> Texturing.frame (Texturing.sampler_of (Registry.registered s)).
Proof.
  intros Hwf Hsh.
  destruct (draws_RenderScene elapsedSeconds s sh Hwf Hsh)
    as ([] & s' & sh' & Hrun & _ & _ & _ & ds & Hlog & Hlook).
  exists s', ds. split; [exact Hrun|]. split; [exact Hlog | exact Hlook].
Qed.

(** A frame on a fresh object, where nothing is registered: every textured
    mesh falls back to sampler 0. *)
Lemma RenderScene_textures_witness :
  let s := SceneManager.SceneManager (Some ∅) in
  Registry.wf s /\ SceneManager.m_pShaderManager s = Some ∅ /\
  exists s' ds,
    SceneManager.RenderScene 0 s = SceneManager.Returned (tt, s') /\
    SceneManager.m_basicMeshes s' = ds /\
    Texturing.look <$> ds = Some <$> Texturing.frame (fun _ => 0%Z).
Proof.
  intros s. split; [apply wf_constructor|]. split; [reflexivity|].
  destruct (RenderScene_textures 0 s ∅ (wf_constructor _) eq_refl)
    as (s' & ds & Hrun & Hlog & Hlook).
  exists s', ds. split; [exact Hrun|]. split; [exact Hlog|]. exact Hlook.
Defined.

(** [PrepareScene] on a well-formed registry with room for the files that
    decode. *)
Lemma PrepareScene_run stbi_load glGenTextures units
    (s : SceneManager.state) (sh : Shader.ShaderManager) :
  Registry.wf s ->
  SceneManager.m_pShaderManager s = Some sh ->
  (SceneManager.m_loadedTextures s
   + Z.of_nat (Registry.successes (SceneFiles.calls stbi_load glGenTextures)) <= 16)%Z ->
  exists units' s' sh',
    SceneManager.PrepareScene stbi_load glGenTextures units s
      = SceneManager.Returned (units', s') /\
    Registry.wf s' /\
    SceneManager.m_pShaderManager s' = Some sh' /\
    SceneManager.m_basicMeshes s' = SceneManager.m_basicMeshes s /\
    Registry.registered s'
    = Registry.registered s ++ omap SceneFiles.entry (SceneFiles.calls stbi_load glGenTextures) /\
    (forall j e, Registry.registered s' !! j = Some e ->
                 units' !! j = Some (SceneManager.ID e)).
Proof.
  intros Hwf Hsh Hfit.
  destruct (loads_registered (SceneFiles.calls stbi_load glGenTextures) s Hwf Hfit)
    as (s1 & Hrun & Hwf1 & Hreg & Hsh1 & _ & Hlog1).
  destruct (BindGLTextures_loop_spec (SceneManager.m_textureIDs s1)
              (Z.to_nat (SceneManager.m_loadedTextures s1)) 0 units) as (units' & Hb & Hin & _).
  { destruct Hwf1 as [Hlen1 Hcnt1]. unfold SceneManager.TEXTURE_CAPACITY in *. lia. }
  unfold SceneManager.PrepareScene. unfold SceneManager.bind at 1.
  rewrite LoadSceneTextures_as_loads. unfold SceneManager.bind at 1. rewrite Hrun.
  unfold SceneManager.BindGLTextures. rewrite Hb.
  destruct s1 as [shd1 arr1 n1 mats1 dr1]. cbn in Hsh1, Hlog1. rewrite Hsh in Hsh1. subst.
  unfold SceneManager.DefineObjectMaterials, SceneManager.SetupSceneLights,
    SceneManager.bind, SceneManager.withShader, SceneManager.ret.
  cbn [SceneManager.set_materials SceneManager.set_shader SceneManager.m_pShaderManager
       SceneManager.m_textureIDs SceneManager.m_loadedTextures SceneManager.m_objectMaterials
       SceneManager.m_basicMeshes fmap option_fmap option_map].
  do 3 eexists. split; [reflexivity|]. split; [exact Hwf1|]. split; [reflexivity|].
  split; [reflexivity|]. split; [exact Hreg|].
  intros j e Hj. apply registered_lookup in Hj as [Hlt Hj].
  cbn [SceneManager.set_shader SceneManager.set_materials SceneManager.m_loadedTextures
       SceneManager.m_textureIDs] in Hlt, Hj, Hin.
  apply (Hin j e); [lia | exact Hj].
Qed.

(** X19. From start-up to the first frame. If the eight image files
    decode to 3 or 4 channels, then [PrepareScene] on a fresh object
    returns, and in every frame rendered afterwards each textured mesh
    selects the sampler whose number is the place of its tag in the loading
    order, wood 0, metal 1, candle 2, book 3, page 4, pen 5, inkpot 6,
    cloth 7, while the texture unit of that number is bound to the texture
    the driver created for the file of that tag: no mesh of the scene
    falls back to a foreign texture. *)
Theorem prepared_scene_textures
    (stbi_load : string -> option SceneManager.Image) (glGenTextures : string -> Z)
    (units : gmap nat Z) (sh : Shader.ShaderManager) (elapsedSeconds : R) :
  Forall (fun ft : string * string => Registry.supported (stbi_load ft.1) = true)
         SceneFiles.files ->
  exists units' s1 s2 ds,
    SceneManager.PrepareScene stbi_load glGenTextures units
      (SceneManager.SceneManager (Some sh)) = SceneManager.Returned (units', s1) /\
    SceneManager.RenderScene elapsedSeconds s1 = SceneManager.Returned (tt, s2) /\
    SceneManager.m_basicMeshes s2 = ds /\
    Texturing.look <$> ds = Some <$> Texturing.frame Texturing.loading_order /\
    forall (k : nat) (ft : string * string),
      SceneFiles.files !! k = Some ft ->
      Texturing.loading_order ft.2 = Z.of_nat k /\
      units' !! k = Some (glGenTextures ft.1).
Proof.
  intros Hall.
  assert (Hentries :
    omap SceneFiles.entry (SceneFiles.calls stbi_load glGenTextures)
    = (fun ft : string * string => SceneManager.mk_TEXTURE_INFO ft.2 (glGenTextures ft.1))
        <$> SceneFiles.files).
  { unfold SceneFiles.calls, SceneFiles.files in *.
    repeat match goal with
           | H : Forall _ (_ :: _) |- _ => apply Forall_cons in H as [? H]
           end.
    cbn [fmap list_fmap omap list_omap fst snd] in *.
    unfold SceneFiles.entry. cbn [fst snd].
    repeat match goal with
           | H : Registry.supported _ = true |- _ => rewrite H; clear H
           end.
    reflexivity. }
  assert (Hsucc : Registry.successes (SceneFiles.calls stbi_load glGenTextures) = 8%nat).
  { unfold Registry.successes, SceneFiles.calls, SceneFiles.files in *.
    repeat match goal with
           | H : Forall _ (_ :: _) |- _ => apply Forall_cons in H as [? H]
           end.
    cbn [fmap list_fmap fst snd] in *.
    repeat (rewrite filter_cons_True by (cbn [fst snd]; assumption)).
    reflexivity. }
  destruct (PrepareScene_run stbi_load glGenTextures units
              (SceneManager.SceneManager (Some sh)) sh (wf_constructor _) eq_refl)
    as (units' & s1 & sh1 & Hprep & Hwf1 & Hsh1 & Hlog1 & Hreg & Hunits).
  { rewrite Hsucc. cbn. lia. }
  rewrite Hentries in Hreg.
  change (Registry.registered (SceneManager.SceneManager (Some sh))) with
    (@nil SceneManager.TEXTURE_INFO) in Hreg. cbn [app] in Hreg.
  destruct (draws_RenderScene elapsedSeconds s1 sh1 Hwf1 Hsh1)
    as ([] & s2 & sh2 & Hrun & _ & _ & _ & ds & Hlog & Hlook).
  exists units', s1, s2, ds. split; [exact Hprep|]. split; [exact Hrun|].
  split; [rewrite Hlog, Hlog1; reflexivity|].
  split.
  - rewrite Hlook, Hreg. reflexivity.
  - intros k ft Hk. split.
    + unfold SceneFiles.files in Hk.
      repeat (destruct k as [|k]; [injection Hk as <-; reflexivity|]).
      discriminate Hk.
    + apply (Hunits k (SceneManager.mk_TEXTURE_INFO ft.2 (glGenTextures ft.1))).
      rewrite Hreg, list_lookup_fmap, Hk. reflexivity.
Qed.

(** Every file an RGB image, the driver numbering them by the length of
    their names. *)
Lemma prepared_scene_textures_witness :
  Forall (fun ft : string * string => Registry.supported (SceneFiles.all_rgb ft.1) = true)
         SceneFiles.files /\
  exists units' s1 s2 ds,
    SceneManager.PrepareScene SceneFiles.all_rgb SceneFiles.by_length ∅
      (SceneManager.SceneManager (Some ∅)) = SceneManager.Returned (units', s1) /\
    SceneManager.RenderScene 0 s1 = SceneManager.Returned (tt, s2) /\
    SceneManager.m_basicMeshes s2 = ds /\
    Texturing.look <$> ds = Some <$> Texturing.frame Texturing.loading_order /\
    units' !! 1%nat = Some 18%Z.
Proof.
  assert (Hall : Forall (fun ft : string * string =>
                           Registry.supported (SceneFiles.all_rgb ft.1) = true)
                        SceneFiles.files)
    by (unfold SceneFiles.files; repeat constructor).
  split; [exact Hall|].
  destruct (prepared_scene_textures SceneFiles.all_rgb SceneFiles.by_length ∅ ∅ 0 Hall)
    as (units' & s1 & s2 & ds & Hprep & Hrun & Hlog & Hlook & Hunits).
  exists units', s1, s2, ds. split; [exact Hprep|]. split; [exact Hrun|].
  split; [exact Hlog|]. split; [exact Hlook|].
  exact (proj2 (Hunits 1%nat ("textures/metal.jpg", "metal") eq_refl)).
Defined.

(* ===================================================================== *)
(** ** More on the view manager                                           *)
(* ===================================================================== *)

Section ViewProperties.

Context {CameraPrivate : Type}.
Abbreviation camera := (ViewManager.Camera CameraPrivate).
Variable ProcessKeyboard :
  ViewManager.Camera_Movement -> R -> ViewManager.Camera CameraPrivate ->
  ViewManager.Camera CameraPrivate.
Variable ProcessMouseMovement :
  R -> R -> ViewManager.Camera CameraPrivate -> ViewManager.Camera CameraPrivate.
Variable GetViewMatrix : ViewManager.Camera CameraPrivate -> GLM.mat4.

Abbreviation vstate := (ViewManager.state CameraPrivate).
Abbreviation poll := (ViewManager.ProcessKeyboardEvents CameraPrivate ProcessKeyboard).
Abbreviation frame :=
  (ViewManager.PrepareSceneView CameraPrivate ProcessKeyboard GetViewMatrix).
Abbreviation vhandle :=
  (ViewManager.handle CameraPrivate ProcessKeyboard ProcessMouseMovement GetViewMatrix).
Abbreviation vrun :=
  (ViewManager.run CameraPrivate ProcessKeyboard ProcessMouseMovement GetViewMatrix).

(** One keyboard poll with a camera in place: the poll returns; it changes
    the close flag, the camera and the projection mode only; the camera it
    leaves is obtained from the one it found by movement calls with the
    current frame time and by assignments to position, front and up. *)
Lemma ProcessKeyboardEvents_result (keys : ViewManager.Key -> bool) (st : vstate) c :
  ViewManager.g_pCamera st = Some c ->
  exists c',
    poll keys st
    = Some (ViewManager.mk_state CameraPrivate
              (ViewManager.m_pShaderManager st)
              (keys ViewManager.GLFW_KEY_ESCAPE || ViewManager.windowShouldClose st)
              (Some c')
              (ViewManager.gLastX _ st) (ViewManager.gLastY _ st)
              (ViewManager.gFirstMouse _ st)
              (ViewManager.gDeltaTime _ st) (ViewManager.gLastFrame _ st)
              (if keys ViewManager.GLFW_KEY_O then true
               else if keys ViewManager.GLFW_KEY_P then false
                    else ViewManager.bOrthographicProjection st)) /\
    (forall I : camera -> Prop,
       (forall d c, I c -> I (ProcessKeyboard d (ViewManager.gDeltaTime _ st) c)) ->
       (forall v c, I c -> I (ViewManager.set_Position _ v c)) ->
       (forall v c, I c -> I (ViewManager.set_Front _ v c)) ->
       (forall v c, I c -> I (ViewManager.set_Up _ v c)) ->
       I c -> I c') /\
    ((forall k, k <> ViewManager.GLFW_KEY_ESCAPE -> keys k = false) -> c' = c).
Proof.
  intros Hc. destruct st as [sh w cam lx ly fm dt lf o]. cbn in Hc. subst cam.
  unfold ViewManager.ProcessKeyboardEvents.
  assert (Hesc : ViewManager.when CameraPrivate (keys ViewManager.GLFW_KEY_ESCAPE)
                   (fun st => Some (ViewManager.set_windowShouldClose CameraPrivate true st))
                   (ViewManager.mk_state CameraPrivate sh w (Some c) lx ly fm dt lf o)
                 = Some (ViewManager.mk_state CameraPrivate sh
                           (keys ViewManager.GLFW_KEY_ESCAPE || w) (Some c) lx ly fm dt lf o))
    by (destruct (keys ViewManager.GLFW_KEY_ESCAPE); reflexivity).
  rewrite Hesc. clear Hesc. cbn [mbind option_bind].
  do 6 (rewrite when_onCamera_step; cbn [mbind option_bind]).
  rewrite when_mode_step. cbn [mbind option_bind]. rewrite when_mode_step.
  cbn [ViewManager.gDeltaTime].
  eexists. split; [|split].
  - cbn [ViewManager.m_pShaderManager ViewManager.windowShouldClose ViewManager.gLastX
         ViewManager.gLastY ViewManager.gFirstMouse ViewManager.gDeltaTime
         ViewManager.gLastFrame ViewManager.bOrthographicProjection].
    reflexivity.
  - intros I Hmove Hpos Hfront Hup HI. cbn [ViewManager.gDeltaTime] in Hmove.
    repeat match goal with
           | |- I (if ?b then _ else ?c0) =>
               cut (I c0);
               [ let H := fresh in
                 intros H; destruct b;
                 [ first [ apply Hup, Hfront, Hpos, H | apply Hmove, H ] | exact H ]
               | ]
           end.
    exact HI.
  - intros Hkeys. rewrite !Hkeys by discriminate. reflexivity.
Qed.

(** *** The cursor *)

Lemma Mouse_Position_Callback_first (x y : R) (st : vstate) c :
  ViewManager.g_pCamera st = Some c ->
  ViewManager.gFirstMouse _ st = true ->
  ViewManager.Mouse_Position_Callback CameraPrivate ProcessMouseMovement x y st
  = Some (ViewManager.set_camera CameraPrivate (Some (ProcessMouseMovement 0 0 c))
            (ViewManager.set_mouse CameraPrivate x y false st)).
Proof.
  intros Hc Hfirst. destruct st as [sh w cam lx ly fm dt lf o]. cbn in Hc, Hfirst. subst.
  unfold ViewManager.Mouse_Position_Callback, ViewManager.onCamera.
  cbn [ViewManager.gFirstMouse ViewManager.set_mouse ViewManager.gLastX ViewManager.gLastY
       ViewManager.g_pCamera mbind option_bind ViewManager.m_pShaderManager
       ViewManager.windowShouldClose ViewManager.gDeltaTime ViewManager.gLastFrame
       ViewManager.bOrthographicProjection ViewManager.set_camera].
  rewrite !Rminus_diag. reflexivity.
Qed.

Lemma Mouse_Position_Callback_later (x y : R) (st : vstate) c :
  ViewManager.g_pCamera st = Some c ->
  ViewManager.gFirstMouse _ st = false ->
  ViewManager.Mouse_Position_Callback CameraPrivate ProcessMouseMovement x y st
  = Some (ViewManager.set_camera CameraPrivate
            (Some (ProcessMouseMovement (x - ViewManager.gLastX _ st)
                                        (ViewManager.gLastY _ st - y) c))
            (ViewManager.set_mouse CameraPrivate x y false st)).
Proof.
  intros Hc Hfirst. destruct st as [sh w cam lx ly fm dt lf o]. cbn in Hc, Hfirst. subst.
  reflexivity.
Qed.

Lemma moves_later (samples : list (R * R)) :
  forall (st : vstate) c,
    ViewManager.g_pCamera st = Some c ->
    ViewManager.gFirstMouse _ st = false ->
    exists st',
      vrun (ViewSpec.moves samples) st = Some st' /\
      ViewManager.g_pCamera st'
      = Some (fold_left (fun c o => ProcessMouseMovement o.1 o.2 c)
                (ViewSpec.offsets_from (ViewManager.gLastX _ st) (ViewManager.gLastY _ st)
                   samples) c) /\
      ViewManager.gFirstMouse _ st' = false /\
      (ViewManager.gLastX _ st', ViewManager.gLastY _ st')
      = default (ViewManager.gLastX _ st, ViewManager.gLastY _ st) (last samples).
Proof.
  induction samples as [|[x y] rest IH]; intros st c Hc Hfirst.
  - exists st. repeat split; assumption.
  - cbn [ViewSpec.moves fmap list_fmap ViewManager.run ViewManager.handle fst snd].
    rewrite (Mouse_Position_Callback_later x y st c Hc Hfirst). cbn [mbind option_bind].
    destruct (IH (ViewManager.set_camera CameraPrivate
                    (Some (ProcessMouseMovement (x - ViewManager.gLastX _ st)
                                                (ViewManager.gLastY _ st - y) c))
                    (ViewManager.set_mouse CameraPrivate x y false st)) _ eq_refl eq_refl)
      as (st' & Hrun & Hcam & Hfm & Hlast).
    exists st'. split; [exact Hrun|]. split; [exact Hcam|]. split; [exact Hfm|].
    rewrite Hlast. cbn [ViewManager.set_camera ViewManager.set_mouse ViewManager.gLastX
                        ViewManager.gLastY].
    destruct rest as [|p rest']; [reflexivity|].
    rewrite (last_cons_cons (x, y) p rest'). 
    destruct (last (p :: rest')) eqn:E; [reflexivity|].
    apply last_None in E. discriminate E.
Qed.

(** X20. Free look starts without a jump and follows the cursor: for a run
    of cursor positions received while the first-sample flag is still set,
    the camera is turned by the offsets (0, 0) for the first position and,
    for every later one, by the step from the position before it, with the
    vertical step reversed; the centre of the window, which the globals
    start from, never enters an offset. The last position is remembered
    and the flag is cleared. *)
Theorem mouse_look_offsets (samples : list (R * R)) (st : vstate) c :
  ViewManager.g_pCamera st = Some c ->
  ViewManager.gFirstMouse _ st = true ->
  exists st',
    vrun (ViewSpec.moves samples) st = Some st' /\
    ViewManager.g_pCamera st'
    = Some (fold_left (fun c o => ProcessMouseMovement o.1 o.2 c)
              (ViewSpec.offsets samples) c) /\
    forall p, last samples = Some p ->
      ViewManager.gFirstMouse _ st' = false /\
      (ViewManager.gLastX _ st', ViewManager.gLastY _ st') = p.
Proof.
  intros Hc Hfirst. destruct samples as [|[x y] rest].
  - exists st. split; [reflexivity|]. split; [exact Hc|]. intros p Hp. discriminate Hp.
  - cbn [ViewSpec.moves fmap list_fmap ViewManager.run ViewManager.handle fst snd].
    rewrite (Mouse_Position_Callback_first x y st c Hc Hfirst). cbn [mbind option_bind].
    destruct (moves_later rest
                (ViewManager.set_camera CameraPrivate (Some (ProcessMouseMovement 0 0 c))
                   (ViewManager.set_mouse CameraPrivate x y false st)) _ eq_refl eq_refl)
      as (st' & Hrun & Hcam & Hfm & Hlast).
    exists st'. split; [exact Hrun|]. split; [exact Hcam|].
    intros p Hp. split; [exact Hfm|]. rewrite Hlast.
    cbn [ViewManager.set_camera ViewManager.set_mouse ViewManager.gLastX ViewManager.gLastY].
    destruct rest as [|q rest']; [cbn in Hp |- *; congruence|].
    rewrite (last_cons_cons (x, y) q rest') in Hp. rewrite Hp. reflexivity.
Qed.

(** *** A frame *)

Lemma not_written_view (k : string) :
  k ∉ ViewSpec.written -> k <> "view" /\ k <> "projection" /\ k <> "viewPosition".
Proof.
  intros Hk. repeat split; intros ->; apply Hk; unfold ViewSpec.written; repeat constructor.
Qed.

(** One call of [PrepareSceneView] with a camera and a shader manager in
    place. *)
Lemma PrepareSceneView_run
    (currentFrame : R) (keys : ViewManager.Key -> bool) (st : vstate) c
    (sh : Shader.ShaderManager) :
  ViewManager.g_pCamera st = Some c ->
  ViewManager.m_pShaderManager st = Some sh ->
  exists st' c' sh',
    frame currentFrame keys st = Some st' /\
    poll keys (ViewManager.set_time CameraPrivate
                 (currentFrame - ViewManager.gLastFrame _ st) currentFrame st)
    = Some (ViewManager.set_shader CameraPrivate (Some sh) st') /\
    ViewManager.g_pCamera st' = Some c' /\
    ViewManager.m_pShaderManager st' = Some sh' /\
    ViewManager.gDeltaTime _ st' = currentFrame - ViewManager.gLastFrame _ st /\
    ViewManager.gLastFrame _ st' = currentFrame /\
    sh' !! "view" = Some (Shader.UMat4 (GetViewMatrix c')) /\
    sh' !! "viewPosition" = Some (Shader.UVec3 (ViewManager.Position c')) /\
    sh' !! "projection"
    = Some (Shader.UMat4 (if ViewManager.bOrthographicProjection st'
                          then ViewSpec.orthographic
                          else ViewSpec.perspective_at (ViewManager.Zoom c'))) /\
    (forall k : string, k ∉ ViewSpec.written -> sh' !! k = sh !! k).
Proof.
  intros Hc Hsh. destruct st as [shd w cam lx ly fm dt lf o]. cbn in Hc, Hsh. subst shd cam.
  unfold ViewManager.PrepareSceneView, ViewManager.set_time.
  cbn [ViewManager.m_pShaderManager ViewManager.windowShouldClose
       ViewManager.g_pCamera ViewManager.gLastX ViewManager.gLastY ViewManager.gFirstMouse
       ViewManager.gDeltaTime ViewManager.gLastFrame ViewManager.bOrthographicProjection].
  destruct (ProcessKeyboardEvents_result keys
              (ViewManager.mk_state CameraPrivate (Some sh) w (Some c) lx ly fm
                 (currentFrame - lf) currentFrame o) c eq_refl) as (c' & Hpoll & _ & _).
  rewrite Hpoll. clear Hpoll.
  cbn [mbind option_bind fmap option_fmap option_map
       ViewManager.m_pShaderManager ViewManager.windowShouldClose
       ViewManager.g_pCamera ViewManager.gLastX ViewManager.gLastY ViewManager.gFirstMouse
       ViewManager.gDeltaTime ViewManager.gLastFrame ViewManager.bOrthographicProjection
       ViewManager.set_shader].
  eexists _, c', _. split; [reflexivity|].
  cbn [ViewManager.set_shader ViewManager.g_pCamera ViewManager.m_pShaderManager
       ViewManager.gDeltaTime ViewManager.gLastFrame ViewManager.bOrthographicProjection
       ViewManager.windowShouldClose ViewManager.gLastX ViewManager.gLastY
       ViewManager.gFirstMouse].
  split; [reflexivity|]. split; [reflexivity|]. split; [reflexivity|].
  split; [reflexivity|]. split; [reflexivity|].
  unfold ViewManager.g_ViewName, ViewManager.g_ProjectionName.
  split; [read_uniform|]. split; [read_uniform|].
  split.
  { unfold Shader.setVec3Value, Shader.setMat4Value.
    rewrite lookup_insert_ne by discriminate. rewrite lookup_insert_eq. do 2 f_equal.
    unfold ViewSpec.orthographic, ViewSpec.perspective_at, ViewManager.WINDOW_WIDTH,
      ViewManager.WINDOW_HEIGHT.
    match goal with |- (if ?b then _ else _) = _ => destruct b end.
    - f_equal; lra.
    - f_equal; lra. }
  intros k Hk. destruct (not_written_view k Hk) as (Hv & Hp & Hvp).
  unfold Shader.setVec3Value, Shader.setMat4Value.
  rewrite !lookup_insert_ne by congruence. reflexivity.
Qed.

(** X21. One call of [PrepareSceneView] with a camera and a shader manager
    in place: the frame time becomes the clock reading less the previous
    reading; the keyboard is polled first, and the three uniforms are
    written from the camera and the projection mode as the poll left them,
    so a mode key shows in the same frame: [view] and [viewPosition] come
    from the camera after the poll, [projection] is the orthographic box
    of half-height 5 in orthographic mode and else the perspective of the
    camera's zoom. No other uniform is written. *)
Theorem PrepareSceneView_uniforms
    (currentFrame : R) (keys : ViewManager.Key -> bool) (st : vstate) c
    (sh : Shader.ShaderManager) :
  ViewManager.g_pCamera st = Some c ->
  ViewManager.m_pShaderManager st = Some sh ->
  exists st' c' sh',
    frame currentFrame keys st = Some st' /\
    ViewManager.g_pCamera st' = Some c' /\
    ViewManager.m_pShaderManager st' = Some sh' /\
    ViewManager.gDeltaTime _ st' = currentFrame - ViewManager.gLastFrame _ st /\
    ViewManager.gLastFrame _ st' = currentFrame /\
    sh' !! "view" = Some (Shader.UMat4 (GetViewMatrix c')) /\
    sh' !! "viewPosition" = Some (Shader.UVec3 (ViewManager.Position c')) /\
    sh' !! "projection"
    = Some (Shader.UMat4 (if ViewManager.bOrthographicProjection st'
                          then ViewSpec.orthographic
                          else ViewSpec.perspective_at (ViewManager.Zoom c'))) /\
    (forall k : string, k ∉ ViewSpec.written -> sh' !! k = sh !! k) /\
    (keys ViewManager.GLFW_KEY_O = true ->
     ViewManager.bOrthographicProjection st' = true /\
     ViewManager.Position c' = GLM.mk_vec3 0 5 10) /\
    (keys ViewManager.GLFW_KEY_O = false -> keys ViewManager.GLFW_KEY_P = true ->
     ViewManager.bOrthographicProjection st' = false /\
     ViewManager.Position c' = GLM.mk_vec3 0 9 18) /\
    (keys ViewManager.GLFW_KEY_O = false -> keys ViewManager.GLFW_KEY_P = false ->
     ViewManager.bOrthographicProjection st' = ViewManager.bOrthographicProjection st).
Proof.
  intros Hc Hsh.
  destruct (PrepareSceneView_run currentFrame keys st c sh Hc Hsh)
    as (st' & c' & sh' & Hframe & Hpoll & Hc' & Hsh' & Hdt & Hlf & Hview & Hpos & Hproj & Hkeep).
  set (st0 := ViewManager.set_time CameraPrivate
                (currentFrame - ViewManager.gLastFrame _ st) currentFrame st) in Hpoll.
  assert (Hc0 : ViewManager.g_pCamera st0 = Some c) by exact Hc.
  destruct (ProcessKeyboardEvents_modes ProcessKeyboard keys st0 c Hc0)
    as (st1 & c1 & Hpoll1 & Hc1 & Hortho & Hpersp).
  destruct (ProcessKeyboardEvents_result keys st0 c Hc0) as (c2 & Hpoll2 & _ & _).
  rewrite Hpoll in Hpoll1. injection Hpoll1 as <-.
  rewrite Hpoll in Hpoll2.
  assert (Hmode : ViewManager.bOrthographicProjection st'
                  = if keys ViewManager.GLFW_KEY_O then true
                    else if keys ViewManager.GLFW_KEY_P then false
                         else ViewManager.bOrthographicProjection st).
  { apply (f_equal (fun r : option vstate =>
                      match r with
                      | Some x => ViewManager.bOrthographicProjection x
                      | None => false
                      end)) in Hpoll2.
    exact Hpoll2. }
  cbn [ViewManager.set_shader ViewManager.g_pCamera] in Hc1. rewrite Hc' in Hc1.
  injection Hc1 as <-.
  exists st', c', sh'. split; [exact Hframe|]. split; [exact Hc'|]. split; [exact Hsh'|].
  split; [exact Hdt|]. split; [exact Hlf|]. split; [exact Hview|]. split; [exact Hpos|].
  split; [exact Hproj|]. split; [exact Hkeep|].
  split; [|split].
  - intros HO. rewrite Hmode, HO. split; [reflexivity|].
    destruct (Hortho HO) as [(Hat & _) _]. exact Hat.
  - intros HO HP. rewrite Hmode, HO, HP. split; [reflexivity|].
    destruct (Hpersp HP HO) as [(Hat & _) _]. exact Hat.
  - intros HO HP. rewrite Hmode, HO, HP. reflexivity.
Qed.

(** *** A whole session *)

(** One event on a state with a camera: the handler returns, the camera
    stays in place, the shader manager is the same object, and the close
    flag is raised by a frame polled with the escape key down and by
    nothing else. *)
Lemma handle_step (e : ViewManager.Event) (st : vstate) c :
  ViewManager.g_pCamera st = Some c ->
  exists st' c',
    vhandle e st = Some st' /\
    ViewManager.g_pCamera st' = Some c' /\
    (is_Some (ViewManager.m_pShaderManager st') <-> is_Some (ViewManager.m_pShaderManager st)) /\
    ViewManager.windowShouldClose st'
    = ViewSpec.escape_pressed [e] || ViewManager.windowShouldClose st /\
    forall I : camera -> Prop,
      (forall d t c, I c -> I (ProcessKeyboard d t c)) ->
      (forall x y c, I c -> I (ProcessMouseMovement x y c)) ->
      (forall v c, I c -> I (ViewManager.set_Position _ v c)) ->
      (forall v c, I c -> I (ViewManager.set_Front _ v c)) ->
      (forall v c, I c -> I (ViewManager.set_Up _ v c)) ->
      (forall v c, I c -> I (ViewManager.set_MovementSpeed _ v c)) ->
      I c -> I c'.
Proof.
  intros Hc. destruct st as [sh w cam lx ly fm dt lf o]. cbn in Hc. subst cam.
  destruct e as [xo yo | mx my | t keys];
    cbn [ViewManager.handle ViewSpec.escape_pressed existsb orb].
  - unfold ViewManager.ScrollCallback. cbn [ViewManager.g_pCamera].
    eexists _, _. split; [reflexivity|].
    cbn [ViewManager.set_camera ViewManager.g_pCamera ViewManager.m_pShaderManager
         ViewManager.windowShouldClose].
    split; [reflexivity|]. split; [reflexivity|]. split; [reflexivity|].
    intros I _ _ _ _ _ Hspeed HI.
    repeat match goal with
           | |- I (if ?b then _ else _) => destruct b
           | |- I (ViewManager.set_MovementSpeed _ _ _) => apply Hspeed
           end; exact HI.
  - unfold ViewManager.Mouse_Position_Callback, ViewManager.onCamera.
    destruct fm;
      cbn [ViewManager.gFirstMouse ViewManager.set_mouse ViewManager.g_pCamera mbind
           option_bind ViewManager.set_camera ViewManager.m_pShaderManager
           ViewManager.windowShouldClose];
      (eexists _, _; split; [reflexivity|]);
      cbn [ViewManager.g_pCamera ViewManager.m_pShaderManager ViewManager.windowShouldClose];
      (split; [reflexivity|]); (split; [reflexivity|]); (split; [reflexivity|]);
      intros I _ Hmouse _ _ _ _ HI; apply Hmouse, HI.
  - unfold ViewManager.PrepareSceneView, ViewManager.set_time.
    cbn [ViewManager.m_pShaderManager ViewManager.windowShouldClose
         ViewManager.g_pCamera ViewManager.gLastX ViewManager.gLastY ViewManager.gFirstMouse
         ViewManager.gDeltaTime ViewManager.gLastFrame ViewManager.bOrthographicProjection].
    destruct (ProcessKeyboardEvents_result keys
                (ViewManager.mk_state CameraPrivate sh w (Some c) lx ly fm (t - lf) t o)
                c eq_refl) as (c' & -> & Hinv & _).
    cbn [mbind option_bind ViewManager.g_pCamera].
    eexists _, c'. split; [reflexivity|].
    cbn [ViewManager.set_shader ViewManager.g_pCamera ViewManager.m_pShaderManager
         ViewManager.windowShouldClose].
    split; [reflexivity|].
    split; [destruct sh; cbn [fmap option_fmap option_map];
            [split; intros _; eexists; reflexivity | tauto]|].
    split; [rewrite orb_false_r; reflexivity|].
    intros I Hkey _ Hpos Hfront Hup _ HI.
    apply Hinv; [intros d c0; apply Hkey | exact Hpos | exact Hfront | exact Hup | exact HI].
Qed.

Lemma run_steps_inv (es : list ViewManager.Event) :
  forall (st : vstate) c,
    ViewManager.g_pCamera st = Some c ->
    exists st' c',
      vrun es st = Some st' /\
      ViewManager.g_pCamera st' = Some c' /\
      (is_Some (ViewManager.m_pShaderManager st') <-> is_Some (ViewManager.m_pShaderManager st)) /\
      ViewManager.windowShouldClose st'
      = ViewSpec.escape_pressed es || ViewManager.windowShouldClose st /\
      forall I : camera -> Prop,
        (forall d t c, I c -> I (ProcessKeyboard d t c)) ->
        (forall x y c, I c -> I (ProcessMouseMovement x y c)) ->
        (forall v c, I c -> I (ViewManager.set_Position _ v c)) ->
        (forall v c, I c -> I (ViewManager.set_Front _ v c)) ->
        (forall v c, I c -> I (ViewManager.set_Up _ v c)) ->
        (forall v c, I c -> I (ViewManager.set_MovementSpeed _ v c)) ->
        I c -> I c'.
Proof.
  induction es as [|e es IH]; intros st c Hc.
  - exists st, c. split; [reflexivity|]. split; [exact Hc|]. split; [reflexivity|].
    split; [reflexivity|]. intros; assumption.
  - destruct (handle_step e st c Hc) as (st1 & c1 & Hstep & Hc1 & Hsh1 & Hw1 & Hinv1).
    destruct (IH st1 c1 Hc1) as (st' & c' & Hrun & Hc' & Hsh' & Hw' & Hinv').
    exists st', c'. cbn [ViewManager.run]. rewrite Hstep. cbn [mbind option_bind].
    split; [exact Hrun|]. split; [exact Hc'|]. split; [rewrite Hsh', Hsh1; reflexivity|].
    split.
    + rewrite Hw', Hw1. cbn [ViewSpec.escape_pressed existsb]. rewrite orb_false_r.
      destruct e; cbn; try reflexivity.
      rewrite orb_assoc. f_equal. apply orb_comm.
    + intros I H1 H2 H3 H4 H5 H6 HI. apply Hinv'; try assumption. apply Hinv1; assumption.
Qed.

(** X22. The close flag of the window is raised by the escape key and by
    nothing else, and nothing lowers it: after any run of scroll, cursor
    and frame events on a state with a camera the flag is set exactly if it
    was set before or some frame of the run was polled with the escape key
    down. *)
Theorem close_flag_only_by_escape (es : list ViewManager.Event) (st : vstate) c :
  ViewManager.g_pCamera st = Some c ->
  exists st',
    vrun es st = Some st' /\
    ViewManager.windowShouldClose st'
    = ViewSpec.escape_pressed es || ViewManager.windowShouldClose st /\
    (ViewManager.windowShouldClose st = true -> ViewManager.windowShouldClose st' = true).
Proof.
  intros Hc. destruct (run_steps_inv es st c Hc) as (st' & c' & Hrun & _ & _ & Hw & _).
  exists st'. split; [exact Hrun|]. split; [exact Hw|].
  intros Hset. rewrite Hw, Hset. apply orb_true_r.
Qed.

(** The camera the constructor starts from. *)
Variable Camera_new : camera.

(** X23. The field of view is fixed at construction. If the camera's own
    movement and look methods leave [Zoom] alone, then after any run of
    events from the constructor the zoom is still 80, the scroll wheel
    having changed the speed only; so the next frame writes either the
    orthographic box or the perspective of 80 degrees as [projection]. *)
Theorem zoom_fixed_at_construction
    (sh0 : Shader.ShaderManager) (es : list ViewManager.Event)
    (currentFrame : R) (keys : ViewManager.Key -> bool) :
  (forall d t c, ViewManager.Zoom (ProcessKeyboard d t c) = ViewManager.Zoom c) ->
  (forall x y c, ViewManager.Zoom (ProcessMouseMovement x y c) = ViewManager.Zoom c) ->
  exists st c st' sh',
    vrun es (ViewManager.ViewManager CameraPrivate Camera_new (Some sh0)) = Some st /\
    ViewManager.g_pCamera st = Some c /\
    ViewManager.Zoom c = 80 /\
    frame currentFrame keys st = Some st' /\
    ViewManager.m_pShaderManager st' = Some sh' /\
    sh' !! "projection"
    = Some (Shader.UMat4 (if ViewManager.bOrthographicProjection st'
                          then ViewSpec.orthographic
                          else ViewSpec.perspective_at 80)).
Proof.
  intros Hkey Hmouse.
  destruct (run_steps_inv es (ViewManager.ViewManager CameraPrivate Camera_new (Some sh0))
              _ eq_refl) as (st & c & Hrun & Hc & Hsh & _ & Hinv).
  assert (Hzoom : ViewManager.Zoom c = 80).
  { apply (Hinv (fun c => ViewManager.Zoom c = 80)); try reflexivity.
    - intros d t c0 H0. rewrite Hkey. exact H0.
    - intros x y c0 H0. rewrite Hmouse. exact H0.
    - intros v c0 H0. exact H0.
    - intros v c0 H0. exact H0.
    - intros v c0 H0. exact H0.
    - intros v c0 H0. exact H0. }
  cbn [ViewManager.ViewManager ViewManager.m_pShaderManager] in Hsh.
  destruct (ViewManager.m_pShaderManager st) as [sh|] eqn:Hshst.
  2:{ exfalso. assert (Hs : is_Some (Some sh0)) by (eexists; reflexivity).
      apply Hsh in Hs. destruct Hs as [? Hs]. discriminate Hs. }
  destruct (PrepareSceneView_run currentFrame keys st c sh Hc Hshst)
    as (st' & c' & sh' & Hframe & _ & Hc' & Hsh' & _ & _ & _ & _ & Hproj & _).
  exists st, c, st', sh'. split; [exact Hrun|]. split; [exact Hc|]. split; [exact Hzoom|].
  split; [exact Hframe|]. split; [exact Hsh'|].
  destruct (handle_step (ViewManager.Frame currentFrame keys) st c Hc)
    as (st2 & c2 & Hstep & Hc2 & _ & _ & Hinv2).
  cbn [ViewManager.handle] in Hstep. rewrite Hframe in Hstep. injection Hstep as <-.
  rewrite Hc' in Hc2. injection Hc2 as <-.
  rewrite Hproj. replace (ViewManager.Zoom c') with 80; [reflexivity|]. symmetry.
  apply (Hinv2 (fun c => ViewManager.Zoom c = 80)); try assumption.
  - intros d t c0 H0. rewrite Hkey. exact H0.
  - intros x y c0 H0. rewrite Hmouse. exact H0.
  - intros v c0 H0. exact H0.
  - intros v c0 H0. exact H0.
  - intros v c0 H0. exact H0.
  - intros v c0 H0. exact H0.
Qed.

(** *** Without a camera *)

Lemma when_onCamera_null (b : bool) (f : vstate -> camera -> camera) sh w lx ly fm dt lf o :
  ViewManager.when CameraPrivate b
    (fun st => ViewManager.onCamera CameraPrivate (f st) st)
    (ViewManager.mk_state CameraPrivate sh w None lx ly fm dt lf o)
  = if b then None else Some (ViewManager.mk_state CameraPrivate sh w None lx ly fm dt lf o).
Proof. destruct b; reflexivity. Qed.

Lemma when_mode_null (b mode : bool) (p fr u : GLM.vec3) sh w lx ly fm dt lf o :
  ViewManager.when CameraPrivate b
    (fun st =>
       let st := ViewManager.set_bOrthographicProjection CameraPrivate mode st in
       st ← ViewManager.onCamera CameraPrivate (ViewManager.set_Position CameraPrivate p) st;
       st ← ViewManager.onCamera CameraPrivate (ViewManager.set_Front CameraPrivate fr) st;
       ViewManager.onCamera CameraPrivate (ViewManager.set_Up CameraPrivate u) st)
    (ViewManager.mk_state CameraPrivate sh w None lx ly fm dt lf o)
  = if b then None else Some (ViewManager.mk_state CameraPrivate sh w None lx ly fm dt lf o).
Proof. destruct b; reflexivity. Qed.

(** A keyboard poll without a camera: it has a result exactly if none of
    the movement and mode keys is down, and the camera is still missing
    then. *)
Lemma ProcessKeyboardEvents_null (keys : ViewManager.Key -> bool) sh w lx ly fm dt lf o :
  poll keys (ViewManager.mk_state CameraPrivate sh w None lx ly fm dt lf o)
  = if existsb keys ViewSpec.camera_keys then None
    else Some (ViewManager.mk_state CameraPrivate sh (keys ViewManager.GLFW_KEY_ESCAPE || w)
                 None lx ly fm dt lf o).
Proof.
  unfold ViewManager.ProcessKeyboardEvents.
  assert (Hesc : ViewManager.when CameraPrivate (keys ViewManager.GLFW_KEY_ESCAPE)
                   (fun st => Some (ViewManager.set_windowShouldClose CameraPrivate true st))
                   (ViewManager.mk_state CameraPrivate sh w None lx ly fm dt lf o)
                 = Some (ViewManager.mk_state CameraPrivate sh
                           (keys ViewManager.GLFW_KEY_ESCAPE || w) None lx ly fm dt lf o))
    by (destruct (keys ViewManager.GLFW_KEY_ESCAPE); reflexivity).
  rewrite Hesc. clear Hesc. cbn [mbind option_bind ViewSpec.camera_keys existsb].
  do 6 (rewrite when_onCamera_null;
        match goal with
        | |- context [if keys ?k then None else Some _] => destruct (keys k)
        end; cbn [mbind option_bind orb]; [reflexivity|]).
  rewrite when_mode_null. destruct (keys ViewManager.GLFW_KEY_P);
    cbn [mbind option_bind orb]; [reflexivity|].
  rewrite when_mode_null. destruct (keys ViewManager.GLFW_KEY_O); reflexivity.
Qed.

(** X24. Only the scroll callback checks the camera pointer. On a state
    whose [g_pCamera] is null a scroll event changes nothing; the cursor
    callback and [PrepareSceneView] dereference the null pointer whatever
    their arguments are, and so does a keyboard poll with any movement or
    mode key down. What keeps a running program clear of this is the
    constructor alone: from the state it builds, every run of events
    returns. *)
Theorem only_scroll_checks_camera (st : vstate) :
  ViewManager.g_pCamera st = None ->
  (forall xoffset yoffset, ViewManager.ScrollCallback CameraPrivate xoffset yoffset st = st) /\
  (forall x y,
      ViewManager.Mouse_Position_Callback CameraPrivate ProcessMouseMovement x y st = None) /\
  (forall currentFrame keys, frame currentFrame keys st = None) /\
  (forall keys k, k ∈ ViewSpec.camera_keys -> keys k = true -> poll keys st = None) /\
  (forall pShaderManager es,
      is_Some (vrun es (ViewManager.ViewManager CameraPrivate Camera_new pShaderManager))).
Proof.
  intros Hc. destruct st as [sh w cam lx ly fm dt lf o]. cbn in Hc. subst cam.
  split; [reflexivity|]. split; [|split; [|split]].
  - intros x y. unfold ViewManager.Mouse_Position_Callback. destruct fm; reflexivity.
  - intros t keys. unfold ViewManager.PrepareSceneView, ViewManager.set_time.
    cbn [ViewManager.m_pShaderManager ViewManager.windowShouldClose
         ViewManager.g_pCamera ViewManager.gLastX ViewManager.gLastY ViewManager.gFirstMouse
         ViewManager.gDeltaTime ViewManager.gLastFrame ViewManager.bOrthographicProjection].
    rewrite ProcessKeyboardEvents_null. destruct (existsb keys ViewSpec.camera_keys); reflexivity.
  - intros keys k Hk Hdown. rewrite ProcessKeyboardEvents_null.
    assert (Hex : existsb keys ViewSpec.camera_keys = true).
    { apply existsb_exists. exists k. split; [|exact Hdown].
      apply list_elem_of_In. exact Hk. }
    rewrite Hex. reflexivity.
  - intros pShaderManager es.
    destruct (run_steps_inv es (ViewManager.ViewManager CameraPrivate Camera_new pShaderManager)
                _ eq_refl) as (st' & _ & Hrun & _).
    exists st'. exact Hrun.
Qed.

End ViewProperties.

(** Three cursor positions on the state after construction. *)
Lemma mouse_look_offsets_witness :
  ViewManager.g_pCamera CameraExample.initial
  = Some (ViewManager.set_MovementSpeed unit 20
            (ViewManager.set_Zoom unit 80
               (ViewManager.set_Up unit (GLM.mk_vec3 0 1 0)
                  (ViewManager.set_Front unit (GLM.mk_vec3 0 (-0.8) (-3.0))
                     (ViewManager.set_Position unit (GLM.mk_vec3 0 9 18)
                        CameraExample.camera))))) /\
  ViewManager.gFirstMouse unit CameraExample.initial = true /\
  ViewSpec.offsets [(510, 390); (520, 380); (500, 400)]
  = [(0, 0); (520 - 510, 390 - 380); (500 - 520, 380 - 400)] /\
  exists st',
    ViewManager.run unit CameraExample.ProcessKeyboard CameraExample.ProcessMouseMovement
      CameraExample.GetViewMatrix (ViewSpec.moves [(510, 390); (520, 380); (500, 400)])
      CameraExample.initial = Some st' /\
    (ViewManager.gLastX unit st', ViewManager.gLastY unit st') = (500, 400).
Proof.
  split; [reflexivity|]. split; [reflexivity|]. split; [reflexivity|].
  destruct (mouse_look_offsets CameraExample.ProcessKeyboard CameraExample.ProcessMouseMovement
              CameraExample.GetViewMatrix [(510, 390); (520, 380); (500, 400)]
              CameraExample.initial _ eq_refl eq_refl) as (st' & Hrun & _ & Hlast).
  exists st'. split; [exact Hrun|]. exact (proj2 (Hlast (500, 400) eq_refl)).
Defined.

(** A frame at 0.016 s with the orthographic key down, on an empty shader
    program. *)
Lemma PrepareSceneView_uniforms_witness :
  let st := ViewManager.ViewManager unit CameraExample.camera (Some ∅) in
  ViewManager.m_pShaderManager st = Some ∅ /\
  exists st' sh',
    ViewManager.PrepareSceneView unit CameraExample.ProcessKeyboard CameraExample.GetViewMatrix
      0.016 CameraExample.only_O st = Some st' /\
    ViewManager.m_pShaderManager st' = Some sh' /\
    sh' !! "viewPosition" = Some (Shader.UVec3 (GLM.mk_vec3 0 5 10)) /\
    sh' !! "projection" = Some (Shader.UMat4 ViewSpec.orthographic).
Proof.
  intros st. split; [reflexivity|].
  destruct (PrepareSceneView_uniforms CameraExample.ProcessKeyboard CameraExample.GetViewMatrix
              0.016 CameraExample.only_O st _ ∅ eq_refl eq_refl)
    as (st' & c' & sh' & Hframe & _ & Hsh' & _ & _ & _ & Hpos & Hproj & _ & Hortho & _).
  destruct (Hortho eq_refl) as [Hmode Hat].
  exists st', sh'. split; [exact Hframe|]. split; [exact Hsh'|].
  rewrite Hpos, Hproj, Hmode, Hat. split; reflexivity.
Defined.

(** A session in which the second frame is polled with escape down. *)
Lemma close_flag_only_by_escape_witness :
  let es := [ViewManager.Frame 0.016 CameraExample.only_W; ViewManager.Scroll 0 1;
             ViewManager.Frame 0.033
               (fun k => match k with ViewManager.GLFW_KEY_ESCAPE => true | _ => false end);
             ViewManager.MouseMove 3 4] in
  exists st',
    ViewManager.run unit CameraExample.ProcessKeyboard CameraExample.ProcessMouseMovement
      CameraExample.GetViewMatrix es CameraExample.initial = Some st' /\
    ViewManager.windowShouldClose st' = true.
Proof.
  intros es.
  destruct (close_flag_only_by_escape CameraExample.ProcessKeyboard
              CameraExample.ProcessMouseMovement CameraExample.GetViewMatrix es
              CameraExample.initial _ eq_refl) as (st' & Hrun & Hflag & _).
  exists st'. split; [exact Hrun | exact Hflag].
Defined.

(** The stand-in camera, whose methods change nothing, after two scrolls
    and a cursor move. *)
Lemma zoom_fixed_at_construction_witness :
  (forall d t c, ViewManager.Zoom (CameraExample.ProcessKeyboard d t c) = ViewManager.Zoom c) /\
  (forall x y c, ViewManager.Zoom (CameraExample.ProcessMouseMovement x y c)
                 = ViewManager.Zoom c) /\
  exists st c,
    ViewManager.run unit CameraExample.ProcessKeyboard CameraExample.ProcessMouseMovement
      CameraExample.GetViewMatrix
      [ViewManager.Scroll 0 5; ViewManager.MouseMove 1 2; ViewManager.Scroll 0 (-50)]
      (ViewManager.ViewManager unit CameraExample.camera (Some ∅)) = Some st /\
    ViewManager.g_pCamera st = Some c /\ ViewManager.Zoom c = 80.
Proof.
  split; [reflexivity|]. split; [reflexivity|].
  destruct (zoom_fixed_at_construction CameraExample.ProcessKeyboard
              CameraExample.ProcessMouseMovement CameraExample.GetViewMatrix
              CameraExample.camera ∅
              [ViewManager.Scroll 0 5; ViewManager.MouseMove 1 2; ViewManager.Scroll 0 (-50)]
              0 CameraExample.only_P (fun _ _ _ => eq_refl) (fun _ _ _ => eq_refl))
    as (st & c & _ & _ & Hrun & Hc & Hzoom & _).
  exists st, c. split; [exact Hrun|]. split; [exact Hc | exact Hzoom].
Defined.

(** The forward key polled without a camera. *)
Lemma only_scroll_checks_camera_witness :
  ViewManager.g_pCamera ViewSpec.without_camera = None /\
  ViewManager.ScrollCallback unit 0 3 ViewSpec.without_camera = ViewSpec.without_camera /\
  ViewManager.Mouse_Position_Callback unit CameraExample.ProcessMouseMovement 10 20
    ViewSpec.without_camera = None /\
  ViewManager.ProcessKeyboardEvents unit CameraExample.ProcessKeyboard CameraExample.only_W
    ViewSpec.without_camera = None.
Proof.
  split; [reflexivity|].
  destruct (only_scroll_checks_camera CameraExample.ProcessKeyboard
              CameraExample.ProcessMouseMovement CameraExample.GetViewMatrix
              CameraExample.camera ViewSpec.without_camera eq_refl) as (Hscroll & Hmouse & _ & Hpoll & _).
  split; [apply Hscroll|]. split; [apply Hmouse|].
  apply (Hpoll CameraExample.only_W ViewManager.GLFW_KEY_W); [|reflexivity].
  unfold ViewSpec.camera_keys. repeat constructor.
Defined.
